(** * MetaMask SDK React bindings: the connection state publisher
      ([MetaMaskProvider.tsx]) and the connection chooser ([SelectModal]).

    The React components are embedded as state machines.  Hook state is a
    record, every [setX] is a record update, an event handler is a program
    in a small state-and-exception monad over the component instance, and a
    commit re-runs the effects whose dependency arrays changed until the
    instance is quiescent.  The wallet SDK is an external collaborator: what
    it answers when the component calls into it is supplied to every step as
    an [SdkView].

    Conventions.  React batches state updates: the listeners that run
    before the next render apply their updates in order and one render
    follows ([step_batch]); [step] is the case of an event whose render
    happens before the next event arrives.  The [debug] prop keeps its
    value for the life of an instance; the [sdkOptions] prop may be passed
    anew ([Rerender]).  Each listener of a batch comes with what the SDK
    answers when it runs, the effects of the commit with what it answers
    then. *)

From Stdlib Require Import ZArith String List Bool Lia.
Import ListNotations.
Local Open Scope string_scope.
Local Open Scope list_scope.
Set Warnings "-register-all".

(* ================================================================== *)
(** ** JavaScript values *)
(* ================================================================== *)

(** The handlers receive [any]/[unknown] payloads and inspect them at run
    time, so payloads are JavaScript values.  Numbers are the integer-valued
    ones (no NaN, infinities, fractions or signed zero).  A string is given
    by its UTF-16 code units, one character of the Rocq string per unit, so
    the strings represented are those whose units are below 256; indexing
    and comparison are then by unit, as in JavaScript.  Arrays and objects
    carry a reference [ref]: [Object.is] compares them by identity. *)
Module Js.

Inductive value : Type :=
| Undefined
| Null
| Bool (b : bool)
| Number (n : Z)
| Str (s : string)
| Array (ref : nat) (items : list value)
| Object (ref : nat) (props : list (string * value)).

(** [typeof v] *)
Definition typeof (v : value) : string :=
  match v with
  | Undefined => "undefined"
  | Null => "object"
  | Bool _ => "boolean"
  | Number _ => "number"
  | Str _ => "string"
  | Array _ _ => "object"
  | Object _ _ => "object"
  end.

(** ToBoolean: what [if (v)], [v || w] and [a && v] test. *)
Definition truthy (v : value) : bool :=
  match v with
  | Undefined => false
  | Null => false
  | Bool b => b
  | Number n => negb (n =? 0)%Z
  | Str s => negb (s =? "")
  | Array _ _ => true
  | Object _ _ => true
  end.

Definition nullish (v : value) : bool :=
  match v with
  | Undefined | Null => true
  | _ => false
  end.

(** [a || b] *)
Definition or (a b : value) : value := if truthy a then a else b.

Fixpoint lookup (k : string) (props : list (string * value)) : value :=
  match props with
  | [] => Undefined
  | (k', v) :: rest => if k =? k' then v else lookup k rest
  end.

(** [v.k] for a name [k] that is neither an index nor [length], on a value
    that is not nullish: own properties of objects; primitives and arrays
    have no such property. *)
Definition get (v : value) (k : string) : value :=
  match v with
  | Object _ props => lookup k props
  | _ => Undefined
  end.

(** [v?.k] *)
Definition opt_get (v : value) (k : string) : value :=
  if nullish v then Undefined else get v k.

(** [v?.[0]]: the first element of an array, the first code unit of a
    string, the property ["0"] of an object. *)
Definition opt_first (v : value) : value :=
  match v with
  | Array _ items => hd Undefined items
  | Str (String c _) => Str (String c "")
  | Object _ props => lookup "0" props
  | _ => Undefined
  end.

(** [Object.is a b], the comparison React applies to dependency arrays. *)
Definition same_value (a b : value) : bool :=
  match a, b with
  | Undefined, Undefined => true
  | Null, Null => true
  | Bool x, Bool y => Bool.eqb x y
  | Number x, Number y => (x =? y)%Z
  | Str x, Str y => (x =? y)
  | Array r _, Array r' _ => Nat.eqb r r'
  | Object r _, Object r' _ => Nat.eqb r r'
  | _, _ => false
  end.

End Js.

(* ================================================================== *)
(** ** The connection state publisher: [MetaMaskProviderClient] *)
(* ================================================================== *)

(** Modelled from the spec: the members of [PROVIDER_UPDATE_TYPE] are
    declared in the SDK package; the component tests for the kinds
    [TERMINATE] and [EXTENSION] and treats every other member alike. *)
Inductive PROVIDER_UPDATE_TYPE : Type :=
| TERMINATE
| EXTENSION
| OTHER_UPDATE (name : string).

(** Modelled from the spec: the kinds are named "terminate" and
    "extension" there; the name is what the debug log prints. *)
Definition update_type_name (t : PROVIDER_UPDATE_TYPE) : string :=
  match t with
  | TERMINATE => "terminate"
  | EXTENSION => "extension"
  | OTHER_UPDATE name => name
  end.

(** Handles of objects owned by the SDK. *)
Definition SdkRef := nat.
Definition ProviderRef := nat.

(** The [useState] cells and the [useRef] cell of the component, in the
    order of their declaration. *)
Record Hooks : Type := mkHooks {
  sdk : option SdkRef;
  ready : bool;
  readOnlyCalls : bool;
  connecting : bool;
  connected : bool;
  trigger : Z;
  chainId : Js.value;
  balance : Js.value;
  account : Js.value;
  error : Js.value;
  provider : option ProviderRef;
  status : Js.value;
  extensionActive : bool;
  hasInit : bool
}.

(** The value handed to [SDKContext.Provider]. *)
Record SDKContextValue : Type := mkContext {
  ctx_sdk : option SdkRef;
  ctx_ready : bool;
  ctx_connected : bool;
  ctx_readOnlyCalls : bool;
  ctx_provider : option ProviderRef;
  ctx_connecting : bool;
  ctx_account : Js.value;
  ctx_balance : Js.value;
  ctx_extensionActive : bool;
  ctx_chainId : Js.value;
  ctx_error : Js.value;
  ctx_status : Js.value
}.

(** [initProps], the default of [SDKContext]. *)
Definition initProps : SDKContextValue :=
  {| ctx_sdk := None; ctx_ready := false; ctx_connected := false;
     ctx_readOnlyCalls := false; ctx_provider := None;
     ctx_connecting := false; ctx_account := Js.Undefined;
     ctx_balance := Js.Undefined; ctx_extensionActive := false;
     ctx_chainId := Js.Undefined; ctx_error := Js.Undefined;
     ctx_status := Js.Undefined |}.

Definition context_value (h : Hooks) : SDKContextValue :=
  {| ctx_sdk := sdk h; ctx_ready := ready h; ctx_connected := connected h;
     ctx_readOnlyCalls := readOnlyCalls h; ctx_provider := provider h;
     ctx_connecting := connecting h; ctx_account := account h;
     ctx_balance := balance h; ctx_extensionActive := extensionActive h;
     ctx_chainId := chainId h; ctx_error := error h;
     ctx_status := status h |}.

(** The initial values of the hooks. *)
Definition initial_hooks : Hooks :=
  {| sdk := None; ready := false; readOnlyCalls := false;
     connecting := false; connected := false; trigger := 1;
     chainId := Js.Undefined; balance := Js.Undefined;
     account := Js.Undefined; error := Js.Undefined; provider := None;
     status := Js.Undefined; extensionActive := false; hasInit := false |}.

Inductive LogLevel : Type := LDebug | LWarn.

(** One [console.debug]/[console.warn] call: the text of the message (its
    template, for a template literal) and the values passed along. *)
Record LogEntry : Type := mkLog {
  level : LogLevel;
  message : string;
  args : list Js.value
}.

(** The values the dependency arrays of the four effects are built from. *)
Record Deps : Type := mkDeps {
  d_account : Js.value;
  d_sdkOptions : nat;
  d_trigger : Z;
  d_sdk : option SdkRef;
  d_ready : bool
}.

(** A mounted instance: its hooks, the props and dependencies of the last
    committed render, and what the instance did to the outside world. *)
Record Machine : Type := mkMachine {
  hooks : Hooks;
  sdkOptions : nat;                      (* identity of the [sdkOptions] prop *)
  rendered : Deps;                       (* dependencies at the last commit *)
  sdk_constructed : nat;                 (* [new MetaMaskSDK] so far *)
  init_calls : nat;                      (* [_sdk.init()] so far *)
  init_pending : option SdkRef;          (* [init()] promise not settled *)
  provider_listeners : option ProviderRef; (* provider carrying the six listeners *)
  status_listener : bool;                (* SERVICE_STATUS listener on the sdk *)
  provider_update_listener : bool;       (* PROVIDER_UPDATE listener on the sdk *)
  balance_requests : list Js.value;      (* [eth_getBalance] in flight, by account *)
  console : list LogEntry
}.

(** What the SDK answers at the time of a step. *)
Record SdkView : Type := mkView {
  getProvider : ProviderRef;
  selectedAddress : ProviderRef -> Js.value;
  providerChainId : ProviderRef -> Js.value;
  isConnected : ProviderRef -> bool;
  isExtensionActive : bool;
  hasReadOnlyRPCCalls : bool
}.

(** *** Hook setters *)

Definition setSDK (v : option SdkRef) (h : Hooks) : Hooks :=
  mkHooks v (ready h) (readOnlyCalls h) (connecting h) (connected h)
    (trigger h) (chainId h) (balance h) (account h) (error h) (provider h)
    (status h) (extensionActive h) (hasInit h).

Definition setReady (v : bool) (h : Hooks) : Hooks :=
  mkHooks (sdk h) v (readOnlyCalls h) (connecting h) (connected h)
    (trigger h) (chainId h) (balance h) (account h) (error h) (provider h)
    (status h) (extensionActive h) (hasInit h).

Definition setReadOnlyCalls (v : bool) (h : Hooks) : Hooks :=
  mkHooks (sdk h) (ready h) v (connecting h) (connected h)
    (trigger h) (chainId h) (balance h) (account h) (error h) (provider h)
    (status h) (extensionActive h) (hasInit h).

Definition setConnecting (v : bool) (h : Hooks) : Hooks :=
  mkHooks (sdk h) (ready h) (readOnlyCalls h) v (connected h)
    (trigger h) (chainId h) (balance h) (account h) (error h) (provider h)
    (status h) (extensionActive h) (hasInit h).

Definition setConnected (v : bool) (h : Hooks) : Hooks :=
  mkHooks (sdk h) (ready h) (readOnlyCalls h) (connecting h) v
    (trigger h) (chainId h) (balance h) (account h) (error h) (provider h)
    (status h) (extensionActive h) (hasInit h).

(** [setTrigger] is only ever called with an updater function. *)
Definition setTrigger (f : Z -> Z) (h : Hooks) : Hooks :=
  mkHooks (sdk h) (ready h) (readOnlyCalls h) (connecting h) (connected h)
    (f (trigger h)) (chainId h) (balance h) (account h) (error h) (provider h)
    (status h) (extensionActive h) (hasInit h).

Definition setChainId (v : Js.value) (h : Hooks) : Hooks :=
  mkHooks (sdk h) (ready h) (readOnlyCalls h) (connecting h) (connected h)
    (trigger h) v (balance h) (account h) (error h) (provider h)
    (status h) (extensionActive h) (hasInit h).

Definition setBalance (v : Js.value) (h : Hooks) : Hooks :=
  mkHooks (sdk h) (ready h) (readOnlyCalls h) (connecting h) (connected h)
    (trigger h) (chainId h) v (account h) (error h) (provider h)
    (status h) (extensionActive h) (hasInit h).

Definition setAccount (v : Js.value) (h : Hooks) : Hooks :=
  mkHooks (sdk h) (ready h) (readOnlyCalls h) (connecting h) (connected h)
    (trigger h) (chainId h) (balance h) v (error h) (provider h)
    (status h) (extensionActive h) (hasInit h).

Definition setError (v : Js.value) (h : Hooks) : Hooks :=
  mkHooks (sdk h) (ready h) (readOnlyCalls h) (connecting h) (connected h)
    (trigger h) (chainId h) (balance h) (account h) v (provider h)
    (status h) (extensionActive h) (hasInit h).

Definition setProvider (v : option ProviderRef) (h : Hooks) : Hooks :=
  mkHooks (sdk h) (ready h) (readOnlyCalls h) (connecting h) (connected h)
    (trigger h) (chainId h) (balance h) (account h) (error h) v
    (status h) (extensionActive h) (hasInit h).

Definition setStatus (v : Js.value) (h : Hooks) : Hooks :=
  mkHooks (sdk h) (ready h) (readOnlyCalls h) (connecting h) (connected h)
    (trigger h) (chainId h) (balance h) (account h) (error h) (provider h)
    v (extensionActive h) (hasInit h).

Definition setExtensionActive (v : bool) (h : Hooks) : Hooks :=
  mkHooks (sdk h) (ready h) (readOnlyCalls h) (connecting h) (connected h)
    (trigger h) (chainId h) (balance h) (account h) (error h) (provider h)
    (status h) v (hasInit h).

(** [hasInit.current = v] *)
Definition setHasInit (v : bool) (h : Hooks) : Hooks :=
  mkHooks (sdk h) (ready h) (readOnlyCalls h) (connecting h) (connected h)
    (trigger h) (chainId h) (balance h) (account h) (error h) (provider h)
    (status h) (extensionActive h) v.

(** *** Updates of the instance *)

Definition with_hooks (f : Hooks -> Hooks) (m : Machine) : Machine :=
  mkMachine (f (hooks m)) (sdkOptions m) (rendered m) (sdk_constructed m)
    (init_calls m) (init_pending m) (provider_listeners m)
    (status_listener m) (provider_update_listener m) (balance_requests m)
    (console m).

Definition with_sdkOptions (o : nat) (m : Machine) : Machine :=
  mkMachine (hooks m) o (rendered m) (sdk_constructed m)
    (init_calls m) (init_pending m) (provider_listeners m)
    (status_listener m) (provider_update_listener m) (balance_requests m)
    (console m).

Definition with_rendered (d : Deps) (m : Machine) : Machine :=
  mkMachine (hooks m) (sdkOptions m) d (sdk_constructed m)
    (init_calls m) (init_pending m) (provider_listeners m)
    (status_listener m) (provider_update_listener m) (balance_requests m)
    (console m).

(** [new MetaMaskSDK({...sdkOptions})] followed by [_sdk.init()]: the new
    object is named by its rank among the constructed ones. *)
Definition construct_and_init (m : Machine) : Machine :=
  mkMachine (hooks m) (sdkOptions m) (rendered m) (S (sdk_constructed m))
    (S (init_calls m)) (Some (S (sdk_constructed m))) (provider_listeners m)
    (status_listener m) (provider_update_listener m) (balance_requests m)
    (console m).

Definition with_init_pending (p : option SdkRef) (m : Machine) : Machine :=
  mkMachine (hooks m) (sdkOptions m) (rendered m) (sdk_constructed m)
    (init_calls m) p (provider_listeners m)
    (status_listener m) (provider_update_listener m) (balance_requests m)
    (console m).

Definition with_provider_listeners (p : option ProviderRef) (m : Machine)
  : Machine :=
  mkMachine (hooks m) (sdkOptions m) (rendered m) (sdk_constructed m)
    (init_calls m) (init_pending m) p
    (status_listener m) (provider_update_listener m) (balance_requests m)
    (console m).

Definition with_status_listener (b : bool) (m : Machine) : Machine :=
  mkMachine (hooks m) (sdkOptions m) (rendered m) (sdk_constructed m)
    (init_calls m) (init_pending m) (provider_listeners m)
    b (provider_update_listener m) (balance_requests m)
    (console m).

Definition with_provider_update_listener (b : bool) (m : Machine) : Machine :=
  mkMachine (hooks m) (sdkOptions m) (rendered m) (sdk_constructed m)
    (init_calls m) (init_pending m) (provider_listeners m)
    (status_listener m) b (balance_requests m)
    (console m).

Definition with_balance_requests (l : list Js.value) (m : Machine) : Machine :=
  mkMachine (hooks m) (sdkOptions m) (rendered m) (sdk_constructed m)
    (init_calls m) (init_pending m) (provider_listeners m)
    (status_listener m) (provider_update_listener m) l
    (console m).

Definition with_console (l : list LogEntry) (m : Machine) : Machine :=
  mkMachine (hooks m) (sdkOptions m) (rendered m) (sdk_constructed m)
    (init_calls m) (init_pending m) (provider_listeners m)
    (status_listener m) (provider_update_listener m) (balance_requests m)
    l.

(** *** Handler programs *)

(** How a piece of JavaScript completes. *)
Inductive Completion (A : Type) : Type :=
| Normal (a : A)
| Throw (e : string).
Arguments Normal {A} a.
Arguments Throw {A} e.

(** A program over the instance: it may update it and may throw; updates
    made before a throw stay. *)
Definition Eff (A : Type) : Type := Machine -> Completion A * Machine.

Definition ret {A : Type} (a : A) : Eff A := fun m => (Normal a, m).

Definition bind {A B : Type} (c : Eff A) (k : A -> Eff B) : Eff B :=
  fun m =>
    match c m with
    | (Normal a, m') => k a m'
    | (Throw e, m') => (Throw e, m')
    end.

Definition throw {A : Type} (e : string) : Eff A := fun m => (Throw e, m).

Definition gets {A : Type} (f : Machine -> A) : Eff A :=
  fun m => (Normal (f m), m).

Definition modify (f : Machine -> Machine) : Eff unit :=
  fun m => (Normal tt, f m).

(** A call of a hook setter. *)
Definition setState (f : Hooks -> Hooks) : Eff unit := modify (with_hooks f).

Definition when (b : bool) (c : Eff unit) : Eff unit :=
  if b then c else ret tt.

(** The instance after the program; a throw propagates to the caller (the
    event emitter or the promise), which is outside the component. *)
Definition run (c : Eff unit) (m : Machine) : Machine := snd (c m).

Declare Scope eff_scope.
Delimit Scope eff_scope with eff.
Notation "x <- c ;; k" := (bind c (fun x => k))
  (at level 61, c at next level, right associativity) : eff_scope.
Notation "c ;; k" := (bind c (fun _ => k))
  (at level 61, right associativity) : eff_scope.
Local Open Scope eff_scope.

Definition console_debug (msg : string) (a : list Js.value) : Eff unit :=
  modify (fun m => with_console (console m ++ [mkLog LDebug msg a]) m).

Definition console_warn (msg : string) (a : list Js.value) : Eff unit :=
  modify (fun m => with_console (console m ++ [mkLog LWarn msg a]) m).

(** [v.k] on a value that may be nullish. *)
Definition member (v : Js.value) (k : string) : Eff Js.value :=
  if Js.nullish v
  then throw "TypeError: Cannot read properties of undefined"
  else ret (Js.get v k).

(** *** The listeners of the subscription effect

    They close over [debug] and over [activeProvider], the provider the
    effect was run for. *)

Definition onConnecting (debug : bool) : Eff unit :=
  when debug
    (console_debug "MetaMaskProvider::provider on 'connecting' event." []) ;;
  setState (setConnected false) ;;
  setState (setConnecting true) ;;
  setState (setError Js.Undefined).

Definition onInitialized (debug : bool) (view : SdkView)
  (activeProvider : ProviderRef) : Eff unit :=
  when debug
    (console_debug "MetaMaskProvider::provider on '_initialized' event." []) ;;
  setState (setConnecting false) ;;
  setState (setAccount (Js.or (selectedAddress view activeProvider) Js.Undefined)) ;;
  setState (setConnected true) ;;
  setState (setError Js.Undefined).

Definition onConnect (debug : bool) (connectParam : Js.value) : Eff unit :=
  when debug
    (console_debug "MetaMaskProvider::provider on 'connect' event."
       [connectParam]) ;;
  currentChainId <- member connectParam "chainId" ;;
  setState (setConnecting false) ;;
  setState (setConnected true) ;;
  setState (setChainId currentChainId) ;;
  setState (setError Js.Undefined).

Definition onDisconnect (debug : bool) (reason : Js.value) : Eff unit :=
  when debug
    (console_debug "MetaMaskProvider::provider on 'disconnect' event."
       [reason]) ;;
  setState (setConnecting false) ;;
  setState (setConnected false) ;;
  setState (setError reason).

Definition onAccountsChanged (debug : bool) (newAccounts : Js.value)
  : Eff unit :=
  when debug
    (console_debug "MetaMaskProvider::provider on 'accountsChanged' event."
       [newAccounts]) ;;
  setState (setAccount (Js.opt_first newAccounts)) ;;
  setState (setConnected true) ;;
  setState (setConnecting false) ;;
  setState (setError Js.Undefined).

Definition onChainChanged (debug : bool) (networkVersionOrChainId : Js.value)
  : Eff unit :=
  when debug
    (console_debug "MetaMaskProvider::provider on 'chainChanged' event."
       [networkVersionOrChainId]) ;;
  (if (Js.typeof networkVersionOrChainId =? "object")
      && Js.truthy (Js.opt_get networkVersionOrChainId "chainId")
   then setState (setChainId (Js.get networkVersionOrChainId "chainId"))
   else setState (setChainId networkVersionOrChainId)) ;;
  setState (setConnected true) ;;
  setState (setConnecting false) ;;
  setState (setError Js.Undefined).

Definition onSDKStatusEvent (debug : bool) (_serviceStatus : Js.value)
  : Eff unit :=
  when debug
    (connectionStatus <- member _serviceStatus "connectionStatus" ;;
     console_debug "MetaMaskProvider::sdk on 'service_status/${connectionStatus}' event."
       [connectionStatus; _serviceStatus]) ;;
  setState (setStatus _serviceStatus).

(** *** The listener of the provider-update effect *)

Definition onProviderEvent (debug : bool) (view : SdkView)
  (type : PROVIDER_UPDATE_TYPE) : Eff unit :=
  when debug
    (console_debug "MetaMaskProvider::sdk on 'provider_update' event."
       [Js.Str (update_type_name type)]) ;;
  match type with
  | TERMINATE => setState (setConnecting false)
  | EXTENSION =>
      setState (setConnecting false) ;;
      setState (setConnected true) ;;
      setState (setError Js.Undefined) ;;
      let extensionProvider := getProvider view in
      let extensionChainId :=
        Js.or (providerChainId view extensionProvider) Js.Undefined in
      let extensionAccount :=
        Js.or (selectedAddress view extensionProvider) Js.Undefined in
      when debug
        (console_debug
           "[MetaMaskProvider] extensionProvider chainId=${extensionChainId} selectedAddress=${extensionAccount}"
           [extensionChainId; extensionAccount]) ;;
      setState (setChainId extensionChainId) ;;
      setState (setAccount extensionAccount)
  | OTHER_UPDATE _ => ret tt
  end ;;
  setState (setTrigger (fun _trigger => (_trigger + 1)%Z)).

(** *** The effects *)

(** [useEffect(..., [account])]: the balance query.  The request is left in
    flight; its [then] and [catch] callbacks are [balance_then] and
    [balance_catch]. *)
Definition balance_effect (debug : bool) : Eff unit :=
  acct <- gets (fun m => account (hooks m)) ;;
  if Js.truthy acct then
    if debug then
      s <- gets (fun m => sdk (hooks m)) ;;
      match s with
      | Some _ =>
          modify (fun m => with_balance_requests (balance_requests m ++ [acct]) m)
      | None => ret tt
      end
    else ret tt
  else setState (setBalance Js.Undefined).

Definition balance_then (debug : bool) (acct accountBalance : Js.value)
  : Eff unit :=
  when debug
    (console_debug "[MetamaskProvider] balance of ${account} is ${accountBalance}"
       [acct; accountBalance]) ;;
  setState (setBalance accountBalance).

Definition balance_catch (acct err : Js.value) : Eff unit :=
  console_warn "[MetamaskProvider] error retrieving balance of ${account}"
    [acct; err].

(** [useEffect(..., [sdkOptions])]: construction and initialisation of the
    SDK, guarded by the [hasInit] ref.  The continuation of [init()] is
    [init_then]. *)
Definition init_effect (debug : bool) : Eff unit :=
  initialised <- gets (fun m => hasInit (hooks m)) ;;
  if initialised then
    when debug (console_debug "[MetamaskProvider] sdk already initialized" [])
  else
    setState (setHasInit true) ;;
    modify construct_and_init.

Definition init_then (view : SdkView) (_sdk : SdkRef) : Eff unit :=
  setState (setSDK (Some _sdk)) ;;
  setState (setReady true) ;;
  setState (setReadOnlyCalls (hasReadOnlyRPCCalls view)).

(** [useEffect(..., [trigger, sdk, ready])]: the subscription effect and the
    cleanup it returns. *)
Definition listeners_effect (debug : bool) (view : SdkView) : Eff unit :=
  r <- gets (fun m => ready (hooks m)) ;;
  s <- gets (fun m => sdk (hooks m)) ;;
  match r, s with
  | true, Some _ =>
      when debug
        (console_debug "[MetamaskProvider] init SDK Provider listeners" []) ;;
      setState (setExtensionActive (isExtensionActive view)) ;;
      let activeProvider := getProvider view in
      setState (setConnected (isConnected view activeProvider)) ;;
      setState (setAccount (Js.or (selectedAddress view activeProvider) Js.Undefined)) ;;
      setState (setProvider (Some activeProvider)) ;;
      modify (with_provider_listeners (Some activeProvider)) ;;
      modify (with_status_listener true)
  | _, _ => ret tt
  end.

Definition listeners_cleanup : Eff unit :=
  modify (with_provider_listeners None) ;;
  modify (with_status_listener false).

(** [useEffect(..., [sdk, ready])]: the provider-update effect and its
    cleanup. *)
Definition provider_update_effect : Eff unit :=
  r <- gets (fun m => ready (hooks m)) ;;
  s <- gets (fun m => sdk (hooks m)) ;;
  match r, s with
  | true, Some _ => modify (with_provider_update_listener true)
  | _, _ => ret tt
  end.

Definition provider_update_cleanup : Eff unit :=
  modify (with_provider_update_listener false).

(** *** Rendering and committing *)

Definition deps_of (m : Machine) : Deps :=
  mkDeps (account (hooks m)) (sdkOptions m) (trigger (hooks m))
    (sdk (hooks m)) (ready (hooks m)).

Definition sdk_eqb (a b : option SdkRef) : bool :=
  match a, b with
  | Some x, Some y => Nat.eqb x y
  | None, None => true
  | _, _ => false
  end.

(** Whether the dependency array of each effect differs between two
    renders. *)
Definition account_changed (p c : Deps) : bool :=
  negb (Js.same_value (d_account p) (d_account c)).

Definition sdkOptions_changed (p c : Deps) : bool :=
  negb (Nat.eqb (d_sdkOptions p) (d_sdkOptions c)).

Definition provider_update_changed (p c : Deps) : bool :=
  negb (sdk_eqb (d_sdk p) (d_sdk c) && Bool.eqb (d_ready p) (d_ready c)).

Definition listeners_changed (p c : Deps) : bool :=
  negb (Z.eqb (d_trigger p) (d_trigger c)) || provider_update_changed p c.

Definition deps_changed (p c : Deps) : bool :=
  account_changed p c || sdkOptions_changed p c || listeners_changed p c.

(** One commit: the cleanups of the effects that fire, then those effects,
    both in the order the component declares them. *)
Definition commit (debug : bool) (view : SdkView) (p c : Deps) : Eff unit :=
  when (listeners_changed p c) listeners_cleanup ;;
  when (provider_update_changed p c) provider_update_cleanup ;;
  when (account_changed p c) (balance_effect debug) ;;
  when (sdkOptions_changed p c) (init_effect debug) ;;
  when (listeners_changed p c) (listeners_effect debug view) ;;
  when (provider_update_changed p c) provider_update_effect.

(** Render and commit until no dependency has changed since the last
    commit.  State set by an effect schedules another render. *)
Fixpoint settle (fuel : nat) (debug : bool) (view : SdkView) (m : Machine)
  : Machine :=
  match fuel with
  | O => m
  | S fuel' =>
      let p := rendered m in
      let c := deps_of m in
      if deps_changed p c
      then settle fuel' debug view
             (run (commit debug view p c) (with_rendered c m))
      else m
  end.

(** Three renders are always enough, see [settle_quiescent]. *)
Definition render_fuel : nat := 3.

(** Every effect runs on mount. *)
Definition mount_effects (debug : bool) (view : SdkView) : Eff unit :=
  balance_effect debug ;;
  init_effect debug ;;
  listeners_effect debug view ;;
  provider_update_effect.

Definition unmounted (options : nat) : Machine :=
  mkMachine initial_hooks options
    (mkDeps Js.Undefined options 1%Z None false)
    0 0 None None false false [] [].

(** Under StrictMode React mounts twice: after the effects of the first
    commit it runs every cleanup and then every effect once more, on the
    same hooks. *)
Definition first_commit (debug strict : bool) (view : SdkView) : Eff unit :=
  mount_effects debug view ;;
  when strict
    (listeners_cleanup ;;
     provider_update_cleanup ;;
     mount_effects debug view).

(** The instance after its first commit. *)
Definition mount (debug strict : bool) (view : SdkView) (options : nat)
  : Machine :=
  settle render_fuel debug view
    (run (first_commit debug strict view) (unmounted options)).

(** *** Events *)

(** What the active provider emits. *)
Inductive ProviderEvent : Type :=
| Initialized
| Connecting
| Connect (connectParam : Js.value)
| Disconnect (reason : Js.value)
| AccountsChanged (newAccounts : Js.value)
| ChainChanged (networkVersionOrChainId : Js.value).

Inductive Event : Type :=
| FromProvider (p : ProviderRef) (e : ProviderEvent)
| ServiceStatus (_serviceStatus : Js.value)
| ProviderUpdate (type : PROVIDER_UPDATE_TYPE)
| InitResolved                     (* the [init()] promise resolves *)
| InitRejected                     (* the [init()] promise rejects *)
| BalanceResolved (i : nat) (accountBalance : Js.value)
                                   (* request [i] in flight resolves *)
| BalanceRejected (i : nat) (err : Js.value)
                                   (* request [i] in flight rejects *)
| Rerender (options : nat).        (* the parent passes [sdkOptions] again *)

Definition drop_nth {A : Type} (i : nat) (l : list A) : list A :=
  firstn i l ++ skipn (S i) l.

Definition on_provider_event (debug : bool) (view : SdkView)
  (activeProvider : ProviderRef) (e : ProviderEvent) : Eff unit :=
  match e with
  | Initialized => onInitialized debug view activeProvider
  | Connecting => onConnecting debug
  | Connect connectParam => onConnect debug connectParam
  | Disconnect reason => onDisconnect debug reason
  | AccountsChanged newAccounts => onAccountsChanged debug newAccounts
  | ChainChanged v => onChainChanged debug v
  end.

(** An event reaches the listener registered for it, if any. *)
Definition dispatch (debug : bool) (view : SdkView) (e : Event) : Eff unit :=
  match e with
  | FromProvider p ev =>
      l <- gets provider_listeners ;;
      match l with
      | Some activeProvider =>
          when (Nat.eqb p activeProvider)
            (on_provider_event debug view activeProvider ev)
      | None => ret tt
      end
  | ServiceStatus s =>
      l <- gets status_listener ;;
      when l (onSDKStatusEvent debug s)
  | ProviderUpdate type =>
      l <- gets provider_update_listener ;;
      when l (onProviderEvent debug view type)
  | InitResolved =>
      p <- gets init_pending ;;
      match p with
      | Some _sdk => modify (with_init_pending None) ;; init_then view _sdk
      | None => ret tt
      end
  | InitRejected => modify (with_init_pending None)
  | BalanceResolved i accountBalance =>
      reqs <- gets balance_requests ;;
      match nth_error reqs i with
      | Some acct =>
          modify (with_balance_requests (drop_nth i reqs)) ;;
          balance_then debug acct accountBalance
      | None => ret tt
      end
  | BalanceRejected i err =>
      reqs <- gets balance_requests ;;
      match nth_error reqs i with
      | Some acct =>
          modify (with_balance_requests (drop_nth i reqs)) ;;
          balance_catch acct err
      | None => ret tt
      end
  | Rerender options => modify (with_sdkOptions options)
  end.

(** One event, fully processed: the listener runs, then the instance
    re-renders and commits until quiescent. *)
Definition step (debug : bool) (view : SdkView) (e : Event) (m : Machine)
  : Machine :=
  settle render_fuel debug view (run (dispatch debug view e) m).

(** A run: each event comes with what the SDK answers at that time. *)
Fixpoint steps (debug : bool) (tr : list (SdkView * Event)) (m : Machine)
  : Machine :=
  match tr with
  | [] => m
  | (view, e) :: rest => steps debug rest (step debug view e m)
  end.

(** The listeners of the events that arrive before the next render, run
    in order, each with what the SDK answers when it runs.  Listeners are
    attached and removed by effects only, so the whole batch is dispatched
    against the listeners of the last commit. *)
Definition run_listeners (debug : bool) (es : list (SdkView * Event))
  (m : Machine) : Machine :=
  fold_left (fun m0 x => run (dispatch debug (fst x) (snd x)) m0) es m.

(** A batch of events, fully processed: every listener runs, then the
    instance re-renders and commits until quiescent.  [step debug view e] is
    [step_batch debug view [(view, e)]]. *)
Definition step_batch (debug : bool) (view : SdkView)
  (es : list (SdkView * Event)) (m : Machine) : Machine :=
  settle render_fuel debug view (run_listeners debug es m).

(** The published state of an instance. *)
Definition published (m : Machine) : SDKContextValue :=
  context_value (hooks m).

(** *** Reachable instances *)

(** An instance is quiescent when no dependency differs from the last
    commit. *)
Definition quiescent (m : Machine) : Prop :=
  deps_changed (rendered m) (deps_of m) = false.

(** The instances a mounted component can settle in: the one after the
    first commit, and those after any batch of events processed under any
    answers of the SDK (a single event included, see [reach_step]). *)
Inductive reachable (debug : bool) : Machine -> Prop :=
| reach_mount (strict : bool) (view : SdkView) (options : nat) :
    reachable debug (mount debug strict view options)
| reach_batch (view : SdkView) (es : list (SdkView * Event)) (m : Machine) :
    reachable debug m -> reachable debug (step_batch debug view es m).

(** *** Invariants of reachable instances *)

(** The SDK is constructed, and its [init()] called, once: on mount.  The
    [hasInit] ref is set from then on. *)
Definition initialised_once (m : Machine) : Prop :=
  hasInit (hooks m) = true /\ sdk_constructed m = 1 /\ init_calls m = 1.

(** With the diagnostic flag off no balance request is ever in flight and
    [balance] stays unset. *)
Definition no_balance (m : Machine) : Prop :=
  balance (hooks m) = Js.Undefined /\ balance_requests m = [].

(** Listeners are only ever attached by an instance that is ready and
    holds its SDK. *)
Definition subscribed_ready (m : Machine) : Prop :=
  provider_update_listener m = true \/ provider_listeners m <> None ->
  ready (hooks m) = true /\ sdk (hooks m) <> None.

(** A run of [accountsChanged] events of provider [p], each with its
    payload. *)
Definition accounts_changed_events (p : ProviderRef)
  (l : list (SdkView * Js.value)) : list (SdkView * Event) :=
  map (fun x => (fst x, FromProvider p (AccountsChanged (snd x)))) l.

(** The state-advancing events whose listener gets as far as
    [setError(undefined)]: [accountsChanged], [chainChanged], [_initialized],
    and [connect] when it carries its payload (the connection info with its
    [chainId]); without a payload [onConnect] throws first. *)
Inductive state_advancing : ProviderEvent -> Prop :=
| adv_connect (connectParam : Js.value) :
    Js.nullish connectParam = false -> state_advancing (Connect connectParam)
| adv_accounts (newAccounts : Js.value) :
    state_advancing (AccountsChanged newAccounts)
| adv_chain (v : Js.value) : state_advancing (ChainChanged v)
| adv_initialized : state_advancing Initialized.

(** *** Sample instances *)

(** An SDK whose active provider is provider 0, connected, with an account
    selected, on the remote (not the extension) transport. *)
Definition sample_view : SdkView :=
  mkView 0 (fun _ => Js.Str "0xabc") (fun _ => Js.Str "0x1")
    (fun _ => true) false false.

(** An SDK that has switched to the extension: its active provider is the
    extension provider 1, with an account selected, but that provider has
    lost its connection to the chain and answers [isConnected()] with
    false. *)
Definition sample_view_extension : SdkView :=
  mkView 1 (fun _ => Js.Str "0xabc") (fun _ => Js.Str "0x1")
    (fun _ => false) true false.

(** An SDK that hands out provider 1 without reporting the extension as
    active. *)
Definition sample_view_idle : SdkView :=
  mkView 1 (fun _ => Js.Null) (fun _ => Js.Null) (fun _ => false) false false.

(** An instance mounted under StrictMode whose SDK has finished
    initialising. *)
Definition sample_ready (debug : bool) : Machine :=
  step debug sample_view InitResolved (mount debug true sample_view 0).

(* ================================================================== *)
(** ** The client-only wrapper: [MetaMaskProvider] *)
(* ================================================================== *)

(** What the two provider components return.  [C] is the type of the
    [children] prop, which neither component inspects. *)
Inductive ReactNode (C : Type) : Type :=
| Children (c : C)
| Fragment (kids : list (ReactNode C))
| ProviderClientElement (debug : bool) (sdkOptions : nat)
    (kids : list (ReactNode C))
| ContextProvider (value : SDKContextValue) (kids : list (ReactNode C)).
Arguments Children {C} c.
Arguments Fragment {C} kids.
Arguments ProviderClientElement {C} debug sdkOptions kids.
Arguments ContextProvider {C} value kids.

(** The return value of [MetaMaskProviderClient]. *)
Definition MetaMaskProviderClient {C : Type} (children : C) (m : Machine)
  : ReactNode C :=
  ContextProvider (published m) [Children children].

(** The return value of [MetaMaskProvider]. *)
Definition MetaMaskProvider {C : Type} (clientSide : bool) (children : C)
  (sdkOptions : nat) (debug : bool) : ReactNode C :=
  Fragment
    [ if clientSide
      then ProviderClientElement debug sdkOptions [Children children]
      else Fragment [Children children] ].

(** Whether a tree holds an element of the SDK-backed component. *)
Fixpoint sdk_dependent {C : Type} (n : ReactNode C) : bool :=
  match n with
  | Children _ => false
  | Fragment kids => existsb sdk_dependent kids
  | ProviderClientElement _ _ _ => true
  | ContextProvider _ kids => existsb sdk_dependent kids
  end.

(** An instance of the wrapper: its [clientSide] cell and, once an element
    of [MetaMaskProviderClient] has been rendered, the instance mounted
    for it. *)
Record Wrapper : Type := mkWrapper {
  clientSide : bool;
  client : option Machine
}.

(** The first render, on the server as in the browser. *)
Definition wrapper_initial : Wrapper := mkWrapper false None.

(** [useEffect(() => setClientSide(true), [])].  Effects run in the browser
    only; the render that follows mounts the client component. *)
Definition wrapper_effect (debug strict : bool) (view : SdkView)
  (options : nat) (w : Wrapper) : Wrapper :=
  mkWrapper true
    (match client w with
     | Some m => Some m
     | None => Some (mount debug strict view options)
     end).

(** The SDK objects constructed below a wrapper. *)
Definition wrapper_sdk_constructed (w : Wrapper) : nat :=
  match client w with
  | Some m => sdk_constructed m
  | None => 0
  end.

(* ================================================================== *)
(** ** The connection chooser: [SelectModal] *)
(* ================================================================== *)

(** The callbacks are the caller's; the widget only invokes them. *)
Definition Callback := nat.

Record SelectModalProps : Type := mkProps {
  onClose : Callback;
  link : string;
  connectWithExtension : Callback
}.

(** An [onClick] handler of the widget. *)
Inductive Handler : Type :=
| Call (cb : Callback)
| SetTab (n : Z).

(** An entry of an inline style object: a spread [...styles.name] of the
    style sheet, or a declaration. *)
Inductive StyleItem : Type :=
| Spread (name : string)
| Decl (property value : string).

Inductive VNode : Type :=
| Element (tag : string) (className id : option string)
    (style : list StyleItem) (onClick : option Handler)
    (children : list VNode)
| Text (s : string)
| Component (name : string).

Definition div (style : list StyleItem) (onClick : option Handler)
  (children : list VNode) : VNode :=
  Element "div" None None style onClick children.

Definition span (style : list StyleItem) (onClick : option Handler)
  (children : list VNode) : VNode :=
  Element "span" None None style onClick children.

(** The two tab selectors. *)
Definition tab_selectors (tab : Z) : VNode :=
  div [Spread "tabcontainer"] None
    [ div [Spread "flexContainer"] None
        [ div ([Spread "tab"]
                 ++ (if (tab =? 1)%Z then [Spread "tabactive"] else [])
                 ++ [Spread "flexItem"])
            (Some (SetTab 1)) [Text "Desktop"];
          div ([Spread "tab"]
                 ++ (if (tab =? 2)%Z then [Spread "tabactive"] else [])
                 ++ [Spread "flexItem"])
            (Some (SetTab 2)) [Text "Mobile"] ] ].

(** The panel holding the mount point of the QR code. *)
Definition qr_panel (tab : Z) : VNode :=
  div [Decl "display" (if (tab =? 1)%Z then "none" else "block")] None
    [ div [Spread "flexContainer"] None
        [ div [Decl "textAlign" "center"; Decl "marginTop" "4";
               Spread "flexItem"] None
            [ Element "div" None (Some "sdk-qrcode-container")
                [Spread "center"] None [];
              div [Spread "connectMobileText"] None
                [ Text "Scan to connect and sign with ";
                  Element "br" None None [] None [];
                  span [Spread "blue"] None
                    [ Element "b" None None [] None
                        [Text "MetaMask mobile app"] ] ] ] ] ].

(** The panel holding the extension-connect button. *)
Definition extension_panel (props : SelectModalProps) (tab : Z) : VNode :=
  div [Decl "display" (if (tab =? 2)%Z then "none" else "block")] None
    [ div [Decl "display" "flex"; Decl "justifyContent" "center";
           Decl "height" "300"; Decl "marginTop" "-20"] None
        [Component "MetamaskExtensionImage"];
      div [Spread "extensionLabel"] None
        [Text "Take control of your crypto and explore the blockchain with the wallet trusted by over 30 million people worldwide"];
      Element "button" None None [Spread "button"]
        (Some (Call (connectWithExtension props)))
        [ Component "ConnectIcon";
          span [Spread "installExtensionText"] None
            [Text "Connect With MetaMask Extension"] ] ].

(** The return value of [SelectModal] when the [tab] cell holds [tab]. *)
Definition SelectModal (props : SelectModalProps) (tab : Z) : VNode :=
  Element "WidgetWrapper" (Some "select-modal") None [] None
    [ div [Spread "backdrop"] (Some (Call (onClose props))) [];
      div [Spread "modal"] None
        [ div [Spread "closeButtonContainer"] None
            [ div [Spread "right"] None
                [ span [Spread "closeButton"] (Some (Call (onClose props)))
                    [Component "CloseButton"] ] ];
          div [Spread "logoContainer"] None [Component "Logo"];
          div [] None
            [ tab_selectors tab;
              qr_panel tab;
              extension_panel props tab ] ] ].

(** An instance of the widget: the [tab] cell and the callbacks it has
    invoked so far, oldest first. *)
Record Chooser : Type := mkChooser {
  tab : Z;
  calls : list Callback
}.

(** [useState<number>(1)] *)
Definition chooser_initial : Chooser := mkChooser 1 [].

Definition own_handler (n : VNode) : list Handler :=
  match n with
  | Element _ _ _ _ (Some h) _ => [h]
  | _ => []
  end.

(** A click on the node at [path] (child indices from the root) bubbles:
    the handlers of the node and of its ancestors, innermost first.  [None]
    when there is no node at [path]. *)
Fixpoint handlers_on_path (n : VNode) (path : list nat)
  : option (list Handler) :=
  match path with
  | [] => Some (own_handler n)
  | i :: rest =>
      match n with
      | Element _ _ _ _ _ kids =>
          match nth_error kids i with
          | Some k =>
              match handlers_on_path k rest with
              | Some hs => Some (hs ++ own_handler n)
              | None => None
              end
          | None => None
          end
      | _ => None
      end
  end.

Definition perform (c : Chooser) (h : Handler) : Chooser :=
  match h with
  | Call cb => mkChooser (tab c) (calls c ++ [cb])
  | SetTab n => mkChooser n (calls c)
  end.

(** The instance after a click on the node at [path]. *)
Definition click (props : SelectModalProps) (path : list nat) (c : Chooser)
  : Chooser :=
  match handlers_on_path (SelectModal props (tab c)) path with
  | Some hs => fold_left perform hs c
  | None => c
  end.

(** The largest number of handlers a single click can reach. *)
Fixpoint handler_nesting (n : VNode) : nat :=
  match n with
  | Element _ _ _ _ _ kids =>
      length (own_handler n)
      + fold_right (fun k acc => Nat.max (handler_nesting k) acc) 0 kids
  | _ => 0
  end.

(** The [display] declared by an inline style; a later entry overrides an
    earlier one. *)
Fixpoint style_display (style : list StyleItem) : option string :=
  match style with
  | [] => None
  | item :: rest =>
      match style_display rest, item with
      | Some v, _ => Some v
      | None, Decl "display" v => Some v
      | None, _ => None
      end
  end.

Definition display (n : VNode) : option string :=
  match n with
  | Element _ _ _ style _ _ => style_display style
  | _ => None
  end.

(** Whether a tree holds an element with the given [id]. *)
Fixpoint has_id (i : string) (n : VNode) : bool :=
  match n with
  | Element _ _ (Some j) _ _ kids => (i =? j) || existsb (has_id i) kids
  | Element _ _ None _ _ kids => existsb (has_id i) kids
  | _ => false
  end.

(** The paths of the children [ks], numbered from [i], that [f] finds. *)
Definition indexed_paths (f : VNode -> list (list nat * Handler))
  : nat -> list VNode -> list (list nat * Handler) :=
  fix go (i : nat) (ks : list VNode) : list (list nat * Handler) :=
    match ks with
    | [] => []
    | k :: ks' => map (fun ph => (i :: fst ph, snd ph)) (f k) ++ go (S i) ks'
    end.

(** Every node of a tree that carries a handler, by its path. *)
Fixpoint handler_paths (n : VNode) : list (list nat * Handler) :=
  match n with
  | Element _ _ _ _ _ kids =>
      map (fun h => ([], h)) (own_handler n)
      ++ indexed_paths handler_paths 0 kids
  | _ => []
  end.

(** The node at a path, if any. *)
Fixpoint node_at (n : VNode) (path : list nat) : option VNode :=
  match path with
  | [] => Some n
  | i :: rest =>
      match n with
      | Element _ _ _ _ _ kids =>
          match nth_error kids i with
          | Some k => node_at k rest
          | None => None
          end
      | _ => None
      end
  end.

(** Sample props of the chooser: two distinct callbacks and a deep link. *)
Definition sample_props : SelectModalProps :=
  mkProps 0 "metamask://connect?channelId=1" 1.

(* ================================================================== *)
(** ** Further invariants of the publisher *)
(* ================================================================== *)

(** [sdk] and [ready] are set together, once, when [init()] resolves; until
    then the promise is pending or has been rejected. *)
Definition init_phase (m : Machine) : Prop :=
  hasInit (hooks m) = true /\
  (ready (hooks m) = false -> sdk (hooks m) = None) /\
  (ready (hooks m) = true -> sdk (hooks m) <> None /\ init_pending m = None).

(** The listeners on the SDK are attached exactly when the instance is
    ready, and the listeners on a provider are attached exactly to the
    published provider. *)
Definition subscriptions_follow_readiness (m : Machine) : Prop :=
  provider_update_listener m = ready (hooks m) /\
  status_listener m = ready (hooks m) /\
  provider_listeners m = provider (hooks m) /\
  (ready (hooks m) = true -> provider (hooks m) <> None) /\
  (ready (hooks m) = false -> provider (hooks m) = None).

(** The subscriptions may lag behind [ready] only while a commit that
    re-runs the provider-update effect is due. *)
Definition subscriptions_pending (m : Machine) : Prop :=
  init_phase m /\
  (ready (hooks m) = false -> provider (hooks m) = None) /\
  (d_ready (rendered m) = true ->
   ready (hooks m) = true /\ d_sdk (rendered m) = sdk (hooks m)) /\
  (d_ready (rendered m) = false -> d_sdk (rendered m) = None) /\
  (provider_update_changed (rendered m) (deps_of m) = false ->
   subscriptions_follow_readiness m).

(** An instance whose [init()] promise was rejected. *)
Definition never_ready (m : Machine) : Prop :=
  hasInit (hooks m) = true /\ init_pending m = None /\
  ready (hooks m) = false /\ sdk (hooks m) = None.

(** Events of provider [p], each with what the SDK answers then. *)
Definition provider_events (p : ProviderRef)
  (l : list (SdkView * ProviderEvent)) : list (SdkView * Event) :=
  map (fun x => (fst x, FromProvider p (snd x))) l.

(** A run of provider updates, each with what the SDK answers then. *)
Definition provider_update_events (l : list (SdkView * PROVIDER_UPDATE_TYPE))
  : list (SdkView * Event) :=
  map (fun x => (fst x, ProviderUpdate (snd x))) l.

(** Two instances that differ at most in [balance], in the requests in
    flight and in the console. *)
Definition agree_up_to_balance (m m' : Machine) : Prop :=
  setBalance Js.Undefined (hooks m) = setBalance Js.Undefined (hooks m') /\
  sdkOptions m = sdkOptions m' /\ rendered m = rendered m' /\
  sdk_constructed m = sdk_constructed m' /\ init_calls m = init_calls m' /\
  init_pending m = init_pending m' /\
  provider_listeners m = provider_listeners m' /\
  status_listener m = status_listener m' /\
  provider_update_listener m = provider_update_listener m'.

(** Events other than a service-status event without a payload. *)
Definition status_has_payload (e : Event) : Prop :=
  match e with
  | ServiceStatus payload => Js.nullish payload = false
  | _ => True
  end.

(** Two published states that differ at most in [balance]. *)
Definition same_but_balance (c c' : SDKContextValue) : Prop :=
  ctx_sdk c = ctx_sdk c' /\ ctx_ready c = ctx_ready c' /\
  ctx_connected c = ctx_connected c' /\
  ctx_readOnlyCalls c = ctx_readOnlyCalls c' /\
  ctx_provider c = ctx_provider c' /\
  ctx_connecting c = ctx_connecting c' /\
  ctx_account c = ctx_account c' /\
  ctx_extensionActive c = ctx_extensionActive c' /\
  ctx_chainId c = ctx_chainId c' /\ ctx_error c = ctx_error c' /\
  ctx_status c = ctx_status c'.

(* ================================================================== *)
(** ** Further definitions for the chooser *)
(* ================================================================== *)

(** The instance after a sequence of clicks. *)
Definition clicks (props : SelectModalProps) (paths : list (list nat))
  (c : Chooser) : Chooser :=
  fold_left (fun c path => click props path c) paths c.

(** Whether the inline style of a node spreads [styles.name]. *)
Definition spreads (name : string) (n : VNode) : bool :=
  match n with
  | Element _ _ _ style _ _ =>
      existsb (fun item => match item with
                           | Spread x => x =? name
                           | Decl _ _ => false
                           end) style
  | _ => false
  end.

(** The two tab selectors of the widget, as rendered for [tab]. *)
Definition desktop_selector (props : SelectModalProps) (tab : Z)
  : option VNode :=
  node_at (SelectModal props tab) [1; 2; 0; 0; 0].

Definition mobile_selector (props : SelectModalProps) (tab : Z)
  : option VNode :=
  node_at (SelectModal props tab) [1; 2; 0; 0; 1].

(** The events whose listener calls [setChainId]. *)
Definition writes_chainId (e : Event) : Prop :=
  match e with
  | FromProvider _ (Connect _) => True
  | FromProvider _ (ChainChanged _) => True
  | ProviderUpdate EXTENSION => True
  | _ => False
  end.

(** The events whose listener calls [setError]. *)
Definition writes_error (e : Event) : Prop :=
  match e with
  | FromProvider _ _ => True
  | ProviderUpdate EXTENSION => True
  | _ => False
  end.

(* ================================================================== *)
(** ** Properties of the publisher *)
(* ================================================================== *)

Ltac eff_unfold :=
  unfold dispatch, on_provider_event, commit, mount_effects,
    onConnecting, onInitialized, onConnect, onDisconnect, onAccountsChanged,
    onChainChanged, onSDKStatusEvent, onProviderEvent, balance_effect,
    balance_then, balance_catch, init_effect, init_then, listeners_effect,
    listeners_cleanup, provider_update_effect, provider_update_cleanup,
    console_debug, console_warn, member, setState, modify, gets, when,
    throw, bind, ret, run in *.

Ltac eff_cases :=
  repeat (cbn in *;
          match goal with
          | |- context [if ?b then _ else _] => destruct b eqn:?
          | |- context [match ?x with Some _ => _ | None => _ end] =>
              destruct x eqn:?
          | |- context [match ?x with
                        | TERMINATE => _ | EXTENSION => _ | OTHER_UPDATE _ => _
                        end] => destruct x
          end);
  cbn in *; auto 12.

Ltac open_machine m :=
  let h := fresh "h" in
  destruct m as [h ? ? ? ? ? ? ? ? ? ?]; destruct h.

Ltac commit_cases p c :=
  unfold commit;
  destruct (listeners_changed p c), (provider_update_changed p c),
    (account_changed p c), (sdkOptions_changed p c).

Lemma same_value_refl (v : Js.value) : Js.same_value v v = true.
Proof.
  destruct v; simpl; auto using Bool.eqb_reflx, Z.eqb_refl, String.eqb_refl,
    Nat.eqb_refl.
Qed.

Lemma sdk_eqb_refl (s : option SdkRef) : sdk_eqb s s = true.
Proof. destruct s; simpl; auto using Nat.eqb_refl. Qed.

Lemma deps_changed_refl (d : Deps) : deps_changed d d = false.
Proof.
  unfold deps_changed, account_changed, sdkOptions_changed, listeners_changed,
    provider_update_changed.
  rewrite same_value_refl, Nat.eqb_refl, Z.eqb_refl, sdk_eqb_refl,
    Bool.eqb_reflx.
  reflexivity.
Qed.

(** The hooks start from the default of the context. *)
Lemma initial_context : context_value initial_hooks = initProps.
Proof. reflexivity. Qed.

(** A commit changes no dependency but [account]. *)
Lemma commit_keeps (debug : bool) (view : SdkView) (p c : Deps) (m : Machine) :
  let m' := run (commit debug view p c) m in
  sdkOptions m' = sdkOptions m /\ rendered m' = rendered m /\
  trigger (hooks m') = trigger (hooks m) /\ sdk (hooks m') = sdk (hooks m) /\
  ready (hooks m') = ready (hooks m).
Proof.
  destruct m as [h o r n1 n2 ip pl sl pul br co].
  destruct h as [s rd ro cg cd tr ci ba ac er pr st ea hi].
  eff_unfold.
  destruct (listeners_changed p c), (provider_update_changed p c),
    (account_changed p c), (sdkOptions_changed p c); cbn; eff_cases.
Qed.

(** Unless the subscription effect fires, a commit leaves [account]
    alone. *)
Lemma commit_account (debug : bool) (view : SdkView) (p c : Deps)
  (m : Machine) :
  listeners_changed p c = false ->
  account (hooks (run (commit debug view p c) m)) = account (hooks m).
Proof.
  intros Hl.
  assert (Hp : provider_update_changed p c = false).
  { unfold listeners_changed in Hl. apply orb_false_elim in Hl. tauto. }
  destruct m as [h o r n1 n2 ip pl sl pul br co].
  destruct h as [s rd ro cg cd tr ci ba ac er pr st ea hi].
  eff_unfold. rewrite Hl, Hp.
  destruct (account_changed p c), (sdkOptions_changed p c); cbn; eff_cases.
Qed.

Lemma deps_of_commit (debug : bool) (view : SdkView) (p c : Deps)
  (m : Machine) :
  let m' := run (commit debug view p c) m in
  deps_of m' = mkDeps (account (hooks m')) (sdkOptions m) (trigger (hooks m))
                 (sdk (hooks m)) (ready (hooks m)).
Proof.
  cbv zeta. unfold deps_of.
  destruct (commit_keeps debug view p c m) as (-> & _ & -> & -> & ->).
  reflexivity.
Qed.

(** Three renders are enough.  The effects of a commit leave every
    dependency but [account] alone, so the second commit can only re-run the
    balance effect, which changes no dependency, and a third has nothing to
    do. *)
Lemma settle_quiescent (debug : bool) (view : SdkView) (m : Machine) :
  quiescent (settle render_fuel debug view m).
Proof.
  unfold quiescent, render_fuel. cbn [settle].
  destruct (deps_changed (rendered m) (deps_of m)) eqn:H0; [|exact H0].
  set (m0 := with_rendered (deps_of m) m).
  set (m1 := run (commit debug view (rendered m) (deps_of m)) m0).
  assert (R1 : rendered m1 = deps_of m).
  { unfold m1. destruct (commit_keeps debug view (rendered m) (deps_of m) m0)
      as (_ & -> & _). destruct m; reflexivity. }
  assert (D1 : deps_of m1 = mkDeps (account (hooks m1)) (sdkOptions m)
                 (trigger (hooks m)) (sdk (hooks m)) (ready (hooks m))).
  { unfold m1. rewrite deps_of_commit. destruct m; reflexivity. }
  destruct (deps_changed (rendered m1) (deps_of m1)) eqn:H1; [|exact H1].
  set (m1' := with_rendered (deps_of m1) m1).
  set (m2 := run (commit debug view (rendered m1) (deps_of m1)) m1').
  assert (L : listeners_changed (rendered m1) (deps_of m1) = false).
  { rewrite R1, D1. unfold deps_of, listeners_changed, provider_update_changed.
    cbn. rewrite Z.eqb_refl, sdk_eqb_refl, Bool.eqb_reflx. reflexivity. }
  assert (R2 : rendered m2 = deps_of m1).
  { unfold m2. destruct (commit_keeps debug view (rendered m1) (deps_of m1) m1')
      as (_ & -> & _). destruct m1; reflexivity. }
  assert (D2 : deps_of m2 = deps_of m1).
  { unfold m2. rewrite deps_of_commit. rewrite commit_account by exact L.
    destruct m1; reflexivity. }
  assert (Q : deps_changed (rendered m2) (deps_of m2) = false).
  { rewrite R2, D2. apply deps_changed_refl. }
  rewrite Q. exact Q.
Qed.

Lemma same_value_cong (a b x : Js.value) :
  Js.same_value a b = true -> Js.same_value a x = Js.same_value b x.
Proof.
  destruct a, b; simpl; try discriminate; intros H; try reflexivity.
  - apply Bool.eqb_prop in H. now subst.
  - apply Z.eqb_eq in H. now subst.
  - apply String.eqb_eq in H. now subst.
  - apply Nat.eqb_eq in H. now subst.
  - apply Nat.eqb_eq in H. now subst.
Qed.

Lemma sdk_eqb_eq (a b : option SdkRef) : sdk_eqb a b = true -> a = b.
Proof.
  destruct a, b; simpl; try discriminate; auto.
  intros H. apply Nat.eqb_eq in H. now subst.
Qed.

Lemma quiescent_spec (m : Machine) :
  quiescent m ->
  Js.same_value (d_account (rendered m)) (account (hooks m)) = true /\
  d_sdkOptions (rendered m) = sdkOptions m /\
  d_trigger (rendered m) = trigger (hooks m) /\
  d_sdk (rendered m) = sdk (hooks m) /\
  d_ready (rendered m) = ready (hooks m).
Proof.
  unfold quiescent, deps_changed, account_changed, sdkOptions_changed,
    listeners_changed, provider_update_changed, deps_of. cbn.
  intros H.
  repeat match goal with
         | X : _ || _ = false |- _ => apply orb_false_elim in X; destruct X
         | X : negb _ = false |- _ => apply negb_false_iff in X
         | X : _ && _ = true |- _ => apply andb_prop in X; destruct X
         end.
  repeat split; auto using sdk_eqb_eq, Bool.eqb_prop.
  - now apply Nat.eqb_eq.
  - now apply Z.eqb_eq.
Qed.

Lemma settle_unfold (fuel : nat) (debug : bool) (view : SdkView)
  (m : Machine) :
  settle (S fuel) debug view m =
    if deps_changed (rendered m) (deps_of m)
    then settle fuel debug view
           (run (commit debug view (rendered m) (deps_of m))
              (with_rendered (deps_of m) m))
    else m.
Proof. reflexivity. Qed.

Lemma settle_of_quiescent (fuel : nat) (debug : bool) (view : SdkView)
  (m : Machine) :
  quiescent m -> settle fuel debug view m = m.
Proof.
  unfold quiescent. intros H. destruct fuel; cbn [settle]; [reflexivity|].
  now rewrite H.
Qed.

Lemma balance_effect_keeps (debug : bool) (m : Machine) :
  let m' := run (balance_effect debug) m in
  deps_of m' = deps_of m /\ rendered m' = rendered m.
Proof.
  destruct m as [h o r n1 n2 ip pl sl pul br co].
  destruct h as [s rd ro cg cd tr ci ba ac er pr st ea hi].
  eff_unfold. cbn. destruct (Js.truthy ac), debug, s; cbn; auto.
Qed.

Lemma commit_balance_only (debug : bool) (view : SdkView) (p c : Deps)
  (m : Machine) :
  account_changed p c = true ->
  sdkOptions_changed p c = false ->
  listeners_changed p c = false ->
  run (commit debug view p c) m = run (balance_effect debug) m.
Proof.
  intros Ha Ho Hl.
  assert (Hp : provider_update_changed p c = false).
  { unfold listeners_changed in Hl. apply orb_false_elim in Hl. tauto. }
  destruct m as [h o r n1 n2 ip pl sl pul br co].
  destruct h as [s rd ro cg cd tr ci ba ac er pr st ea hi].
  unfold commit. rewrite Ha, Ho, Hl, Hp.
  eff_unfold. cbn. destruct (Js.truthy ac), debug, s; cbn; auto.
Qed.

(** When only [account] can have changed since the last commit, settling
    is at most one run of the balance effect. *)
Lemma settle_account_only_fuel (fuel : nat) (debug : bool) (view : SdkView)
  (m : Machine) :
  d_sdkOptions (rendered m) = sdkOptions m ->
  d_trigger (rendered m) = trigger (hooks m) ->
  d_sdk (rendered m) = sdk (hooks m) ->
  d_ready (rendered m) = ready (hooks m) ->
  settle (S (S fuel)) debug view m =
    if Js.same_value (d_account (rendered m)) (account (hooks m))
    then m
    else run (balance_effect debug) (with_rendered (deps_of m) m).
Proof.
  intros Ho Ht Hs Hr.
  assert (Hopt : sdkOptions_changed (rendered m) (deps_of m) = false).
  { unfold sdkOptions_changed, deps_of. cbn. now rewrite Ho, Nat.eqb_refl. }
  assert (Hl : listeners_changed (rendered m) (deps_of m) = false).
  { unfold listeners_changed, provider_update_changed, deps_of. cbn.
    now rewrite Ht, Hs, Hr, Z.eqb_refl, sdk_eqb_refl, Bool.eqb_reflx. }
  cbn [settle].
  unfold deps_changed at 1. rewrite Hopt, Hl, !orb_false_r.
  unfold account_changed at 1. cbn [deps_of d_account].
  destruct (Js.same_value (d_account (rendered m)) (account (hooks m))) eqn:E;
    cbn [negb]; [reflexivity|].
  rewrite commit_balance_only;
    [| unfold account_changed; cbn; now rewrite E | exact Hopt | exact Hl].
  apply (settle_of_quiescent (S fuel)). unfold quiescent.
  destruct (balance_effect_keeps debug (with_rendered (deps_of m) m))
    as [-> ->].
  destruct m; cbn. apply deps_changed_refl.
Qed.

Lemma settle_account_only (debug : bool) (view : SdkView) (m : Machine) :
  d_sdkOptions (rendered m) = sdkOptions m ->
  d_trigger (rendered m) = trigger (hooks m) ->
  d_sdk (rendered m) = sdk (hooks m) ->
  d_ready (rendered m) = ready (hooks m) ->
  settle render_fuel debug view m =
    if Js.same_value (d_account (rendered m)) (account (hooks m))
    then m
    else run (balance_effect debug) (with_rendered (deps_of m) m).
Proof. apply (settle_account_only_fuel 1). Qed.

(** An invariant of the instance that every commit preserves is preserved
    by settling. *)
Lemma settle_preserves (P : Machine -> Prop) (debug : bool) (view : SdkView) :
  (forall d m, P m -> P (with_rendered d m)) ->
  (forall p c m, P m -> P (run (commit debug view p c) m)) ->
  forall fuel m, P m -> P (settle fuel debug view m).
Proof.
  intros Hr Hc. induction fuel as [|fuel IH]; intros m Hm; cbn [settle];
    [exact Hm|].
  destruct (deps_changed (rendered m) (deps_of m)); [|exact Hm].
  apply IH, Hc, Hr, Hm.
Qed.

(** An invariant that every listener preserves is preserved by a batch of
    listeners. *)
Lemma run_listeners_preserves (P : Machine -> Prop) (debug : bool) :
  (forall view e m, P m -> P (run (dispatch debug view e) m)) ->
  forall es m, P m -> P (run_listeners debug es m).
Proof.
  intros Hd. unfold run_listeners.
  induction es as [|[view e] es IH]; intros m Hm; cbn [fold_left fst snd];
    [exact Hm|].
  apply IH, Hd, Hm.
Qed.

(** An invariant established by mounting and preserved by every listener
    and every commit holds of every reachable instance. *)
Lemma reachable_preserves (P : Machine -> Prop) (debug : bool) :
  (forall d m, P m -> P (with_rendered d m)) ->
  (forall view p c m, P m -> P (run (commit debug view p c) m)) ->
  (forall view e m, P m -> P (run (dispatch debug view e) m)) ->
  (forall strict view options,
      P (run (first_commit debug strict view) (unmounted options))) ->
  forall m, reachable debug m -> P m.
Proof.
  intros Hr Hc Hd Hm m R.
  induction R as [strict view options | view es m R IH].
  - unfold mount. apply settle_preserves; auto.
  - unfold step_batch. apply settle_preserves; auto.
    apply run_listeners_preserves; auto.
Qed.

(** What a listener of the active provider leaves alone. *)
Lemma on_provider_event_frame (debug : bool) (view : SdkView)
  (p : ProviderRef) (ev : ProviderEvent) (m : Machine) :
  let m1 := run (on_provider_event debug view p ev) m in
  rendered m1 = rendered m /\ sdkOptions m1 = sdkOptions m /\
  trigger (hooks m1) = trigger (hooks m) /\ sdk (hooks m1) = sdk (hooks m) /\
  ready (hooks m1) = ready (hooks m) /\
  provider_listeners m1 = provider_listeners m /\
  balance_requests m1 = balance_requests m.
Proof.
  destruct m as [h o r n1 n2 ip pl sl pul br co].
  destruct h as [s rd ro cg cd tr ci ba ac er pr st ea hi].
  destruct ev; eff_unfold; cbn; eff_cases.
Qed.

Lemma balance_effect_frame (debug : bool) (m : Machine) :
  let m' := run (balance_effect debug) m in
  (hooks m' = hooks m \/
   Js.truthy (account (hooks m)) = false /\
   hooks m' = setBalance Js.Undefined (hooks m)) /\
  provider_listeners m' = provider_listeners m.
Proof.
  destruct m as [h o r n1 n2 ip pl sl pul br co].
  destruct h as [s rd ro cg cd tr ci ba ac er pr st ea hi].
  eff_unfold. cbn. destruct (Js.truthy ac) eqn:E, debug, s; cbn; auto.
Qed.

Lemma dispatch_delivered (debug : bool) (view : SdkView) (p : ProviderRef)
  (ev : ProviderEvent) (m : Machine) :
  provider_listeners m = Some p ->
  run (dispatch debug view (FromProvider p ev)) m
  = run (on_provider_event debug view p ev) m.
Proof.
  intros L. unfold dispatch, bind, gets, when, run. cbn.
  rewrite L, Nat.eqb_refl.
  destruct (on_provider_event debug view p ev m) as [[] ?]; reflexivity.
Qed.

(** An event of the provider the instance listens to, fully processed: the
    listener runs, and the commit that follows can only clear [balance]. *)
Lemma step_from_provider (debug : bool) (view : SdkView) (p : ProviderRef)
  (ev : ProviderEvent) (m : Machine) :
  quiescent m -> provider_listeners m = Some p ->
  let m1 := run (on_provider_event debug view p ev) m in
  let m' := step debug view (FromProvider p ev) m in
  (hooks m' = hooks m1 \/
   Js.truthy (account (hooks m1)) = false /\
   hooks m' = setBalance Js.Undefined (hooks m1)) /\
  provider_listeners m' = Some p.
Proof.
  intros Q L. cbv zeta.
  unfold step. rewrite (dispatch_delivered debug view p ev m L).
  destruct (on_provider_event_frame debug view p ev m)
    as (Hr & Ho & Ht & Hs & Hrd & Hl & _).
  destruct (quiescent_spec m Q) as (_ & Qo & Qt & Qs & Qr).
  set (m1 := run (on_provider_event debug view p ev) m) in *.
  rewrite settle_account_only by congruence.
  destruct (Js.same_value _ _).
  - split; [now left | congruence].
  - destruct (balance_effect_frame debug (with_rendered (deps_of m1) m1))
      as [H1 H2].
    rewrite H2. destruct m1; cbn in *. split; [exact H1 | congruence].
Qed.

Lemma step_quiescent (debug : bool) (view : SdkView) (e : Event)
  (m : Machine) : quiescent (step debug view e m).
Proof. apply settle_quiescent. Qed.

Lemma reachable_quiescent (debug : bool) (m : Machine) :
  reachable debug m -> quiescent m.
Proof. destruct 1; apply settle_quiescent. Qed.

(** An event rendered on its own is a batch of one. *)
Lemma reach_step (debug : bool) (view : SdkView) (e : Event) (m : Machine) :
  reachable debug m -> reachable debug (step debug view e m).
Proof. exact (reach_batch debug view [(view, e)] m). Defined.

Lemma steps_app (debug : bool) (a b : list (SdkView * Event)) (m : Machine) :
  steps debug (a ++ b) m = steps debug b (steps debug a m).
Proof.
  revert m. induction a as [|[v e] a IH]; intros m; cbn; [reflexivity|].
  apply IH.
Qed.

Lemma accounts_changed_step (debug : bool) (view : SdkView) (p : ProviderRef)
  (a : Js.value) (m : Machine) :
  quiescent m -> provider_listeners m = Some p ->
  let m' := step debug view (FromProvider p (AccountsChanged a)) m in
  account (hooks m') = Js.opt_first a /\ connected (hooks m') = true /\
  connecting (hooks m') = false /\ error (hooks m') = Js.Undefined /\
  provider_listeners m' = Some p.
Proof.
  intros Q L. cbv zeta.
  destruct (step_from_provider debug view p (AccountsChanged a) m Q L)
    as [[-> | [_ ->]] ->];
    destruct m as [h o r n1 n2 ip pl sl pul br co]; destruct debug; cbn;
    auto 6.
Qed.

Lemma accounts_changed_run (debug : bool) (p : ProviderRef)
  (evs : list (SdkView * Js.value)) (m : Machine) :
  quiescent m -> provider_listeners m = Some p ->
  let m' := steps debug (accounts_changed_events p evs) m in
  quiescent m' /\ provider_listeners m' = Some p.
Proof.
  revert m. induction evs as [|[v a] evs IH]; intros m Q L;
    cbn [accounts_changed_events map steps fst snd]; [auto|].
  apply IH; [apply step_quiescent|].
  apply (accounts_changed_step debug v p a m Q L).
Qed.

Lemma sample_ready_reachable (debug : bool) :
  reachable debug (sample_ready debug).
Proof. unfold sample_ready. apply reach_step, reach_mount. Defined.

(** C1.  Whatever [accountsChanged] events an instance has received from
    the provider it listens to, right after one that carries the list [L]
    the published state has [account] equal to [L[0]] (unset for an empty
    list), [connected] true, [connecting] false and [error] unset. *)
Theorem accounts_changed_publishes_first (debug : bool) (p : ProviderRef)
  (m : Machine) (evs : list (SdkView * Js.value)) (view : SdkView)
  (r : nat) (L : list Js.value) :
  reachable debug m -> provider_listeners m = Some p ->
  let m' := steps debug
              (accounts_changed_events p (evs ++ [(view, Js.Array r L)])) m in
  ctx_account (published m') = hd Js.Undefined L /\
  ctx_connected (published m') = true /\
  ctx_connecting (published m') = false /\
  ctx_error (published m') = Js.Undefined.
Proof.
  intros R Lp. cbv zeta.
  unfold accounts_changed_events. rewrite map_app, steps_app.
  destruct (accounts_changed_run debug p evs m (reachable_quiescent _ _ R) Lp)
    as [Q' L'].
  cbn [map steps fst snd].
  destruct (accounts_changed_step debug view p (Js.Array r L) _ Q' L')
    as (Ha & Hc & Hg & He & _).
  unfold published, context_value. cbn [ctx_account ctx_connected
    ctx_connecting ctx_error]. auto.
Qed.

Lemma accounts_changed_publishes_first_witness :
  let m' := steps false
              (accounts_changed_events 0
                 ([(sample_view, Js.Array 1 [Js.Str "0x01"; Js.Str "0x02"]);
                   (sample_view, Js.Null)]
                  ++ [(sample_view, Js.Array 2 [Js.Str "0x03"])]))
              (sample_ready false) in
  ctx_account (published m') = Js.Str "0x03" /\
  ctx_connected (published m') = true /\
  ctx_connecting (published m') = false /\
  ctx_error (published m') = Js.Undefined.
Proof.
  apply (accounts_changed_publishes_first false 0 (sample_ready false)
           [(sample_view, Js.Array 1 [Js.Str "0x01"; Js.Str "0x02"]);
            (sample_view, Js.Null)] sample_view 2 [Js.Str "0x03"]).
  - apply sample_ready_reachable.
  - vm_compute. reflexivity.
Defined.

Lemma state_advancing_clears_error (debug : bool) (view : SdkView)
  (p : ProviderRef) (e : ProviderEvent) (m : Machine) :
  quiescent m -> provider_listeners m = Some p -> state_advancing e ->
  error (hooks (step debug view (FromProvider p e) m)) = Js.Undefined.
Proof.
  intros Q L A.
  destruct (step_from_provider debug view p e m Q L) as [[-> | [_ ->]] _];
    destruct m as [h o r n1 n2 ip pl sl pul br co];
    destruct A as [c Hc| | |]; eff_unfold; cbn; rewrite ?Hc; eff_cases.
Qed.

(** C3 (amended).  A [disconnect] event with reason [R] publishes
    [connected] false, [connecting] false and [error] equal to [R]; and in
    every reachable state, so in particular in the one after the disconnect,
    the next state-advancing event ([connect] carrying its payload,
    [accountsChanged], [chainChanged] or [_initialized]) leaves [error]
    unset. *)
Theorem disconnect_sets_error_next_event_clears (debug : bool)
  (view : SdkView) (p : ProviderRef) (m : Machine) :
  reachable debug m -> provider_listeners m = Some p ->
  (forall R : Js.value,
      let m' := step debug view (FromProvider p (Disconnect R)) m in
      ctx_connected (published m') = false /\
      ctx_connecting (published m') = false /\
      ctx_error (published m') = R /\
      forall (view' : SdkView) (e : ProviderEvent),
        state_advancing e ->
        ctx_error (published (step debug view' (FromProvider p e) m'))
        = Js.Undefined) /\
  (forall e : ProviderEvent,
      state_advancing e ->
      ctx_error (published (step debug view (FromProvider p e) m))
      = Js.Undefined).
Proof.
  intros R L. pose proof (reachable_quiescent _ _ R) as Q. split.
  - intros reason. cbv zeta.
    destruct (step_from_provider debug view p (Disconnect reason) m Q L)
      as [H HL].
    unfold published, context_value;
      cbn [ctx_connected ctx_connecting ctx_error].
    repeat split.
    1-3: destruct H as [-> | [_ ->]];
      destruct m as [h o r n1 n2 ip pl sl pul br co]; destruct debug;
      reflexivity.
    intros view' e A.
    apply state_advancing_clears_error; auto using step_quiescent.
  - intros e A. apply state_advancing_clears_error; auto.
Qed.

Lemma disconnect_sets_error_next_event_clears_witness :
  let m' := step false sample_view
              (FromProvider 0 (Disconnect (Js.Str "user rejected")))
              (sample_ready false) in
  ctx_error (published m') = Js.Str "user rejected" /\
  ctx_error (published
               (step false sample_view
                  (FromProvider 0
                     (Connect (Js.Object 1 [("chainId", Js.Str "0x1")])))
                  m')) = Js.Undefined.
Proof.
  destruct (disconnect_sets_error_next_event_clears false sample_view 0
              (sample_ready false) (sample_ready_reachable false)
              ltac:(vm_compute; reflexivity)) as [H _].
  destruct (H (Js.Str "user rejected")) as (_ & _ & He & Hnext).
  split; [exact He|].
  apply Hnext. constructor. reflexivity.
Defined.

(** C3, as stated, fails: a [connect] event without a payload does not
    clear [error].  [onConnect] reads [chainId] off the payload before it
    calls any setter, so it throws and the reason of the disconnect stays
    published. *)
Lemma connect_without_payload_keeps_error :
  let m := step false sample_view
             (FromProvider 0 (Disconnect (Js.Str "lost")))
             (sample_ready false) in
  let m' := step false sample_view (FromProvider 0 (Connect Js.Undefined)) m in
  provider_listeners m = Some 0 /\
  ctx_error (published m) = Js.Str "lost" /\
  ctx_error (published m') = Js.Str "lost" /\
  ctx_error (published m') <> Js.Undefined.
Proof. vm_compute. repeat split. discriminate. Qed.

(** Without a payload [onConnect] throws at the property access, before any
    setter is called: the event leaves the hooks as they were. *)
Lemma connect_without_payload_throws (debug : bool) (view : SdkView)
  (p : ProviderRef) (m : Machine) :
  fst (onConnect debug Js.Undefined m)
  = Throw "TypeError: Cannot read properties of undefined" /\
  hooks (run (on_provider_event debug view p (Connect Js.Undefined)) m)
  = hooks m.
Proof. open_machine m. destruct debug; split; reflexivity. Qed.

(** C4 (amended).  A [chainChanged] event with payload [v] publishes
    [chainId] equal to [v.chainId] when [v] has type object and its
    [chainId] is truthy, and equal to the raw [v] in every other case, an
    object without a usable [chainId] included; it also publishes
    [connected] true, [connecting] false and [error] unset. *)
Theorem chain_changed_normalises (debug : bool) (view : SdkView)
  (p : ProviderRef) (m : Machine) (v : Js.value) :
  reachable debug m -> provider_listeners m = Some p ->
  let m' := step debug view (FromProvider p (ChainChanged v)) m in
  (Js.typeof v = "object" -> Js.truthy (Js.opt_get v "chainId") = true ->
   ctx_chainId (published m') = Js.get v "chainId") /\
  (Js.typeof v <> "object" \/ Js.truthy (Js.opt_get v "chainId") = false ->
   ctx_chainId (published m') = v) /\
  ctx_connected (published m') = true /\
  ctx_connecting (published m') = false /\
  ctx_error (published m') = Js.Undefined.
Proof.
  intros R L. pose proof (reachable_quiescent _ _ R) as Q. cbv zeta.
  destruct (step_from_provider debug view p (ChainChanged v) m Q L)
    as [H _].
  unfold published, context_value;
    cbn [ctx_chainId ctx_connected ctx_connecting ctx_error].
  assert (E : forall h, chainId (setBalance Js.Undefined h) = chainId h
                        /\ connected (setBalance Js.Undefined h) = connected h
                        /\ connecting (setBalance Js.Undefined h) = connecting h
                        /\ error (setBalance Js.Undefined h) = error h)
    by (intros []; cbn; auto).
  set (m1 := run (on_provider_event debug view p (ChainChanged v)) m) in *.
  assert (K : chainId (hooks m1)
              = (if (Js.typeof v =? "object")
                    && Js.truthy (Js.opt_get v "chainId")
                 then Js.get v "chainId" else v)
              /\ connected (hooks m1) = true /\ connecting (hooks m1) = false
              /\ error (hooks m1) = Js.Undefined).
  { unfold m1. destruct m as [h o r n1 n2 ip pl sl pul br co].
    eff_unfold. cbn.
    destruct debug, ((Js.typeof v =? "object")
                     && Js.truthy (Js.opt_get v "chainId")); cbn; auto. }
  destruct K as (Kc & Kd & Kg & Ke).
  assert (F : chainId (hooks (step debug view (FromProvider p (ChainChanged v)) m))
              = chainId (hooks m1)
              /\ connected (hooks (step debug view (FromProvider p (ChainChanged v)) m))
                 = connected (hooks m1)
              /\ connecting (hooks (step debug view (FromProvider p (ChainChanged v)) m))
                 = connecting (hooks m1)
              /\ error (hooks (step debug view (FromProvider p (ChainChanged v)) m))
                 = error (hooks m1)).
  { destruct H as [-> | [_ ->]]; [auto | apply E]. }
  destruct F as (-> & -> & -> & ->). rewrite Kc.
  repeat split; auto.
  - intros Ht Hc. apply String.eqb_eq in Ht. now rewrite Ht, Hc.
  - intros [Ht | Hc].
    + apply String.eqb_neq in Ht. now rewrite Ht.
    + rewrite Hc, andb_false_r. reflexivity.
Qed.

Lemma chain_changed_normalises_witness :
  let m' := step false sample_view
              (FromProvider 0
                 (ChainChanged
                    (Js.Object 1 [("chainId", Js.Str "0x89");
                                  ("networkVersion", Js.Str "137")])))
              (sample_ready false) in
  ctx_chainId (published m') = Js.Str "0x89".
Proof.
  apply (chain_changed_normalises false sample_view 0 (sample_ready false)
           (Js.Object 1 [("chainId", Js.Str "0x89");
                         ("networkVersion", Js.Str "137")])
           (sample_ready_reachable false) ltac:(vm_compute; reflexivity));
    reflexivity.
Defined.

(** C4, as stated, fails: an object-shaped payload without a [chainId] is
    stored whole, not its (undefined) [chainId]. *)
Lemma chain_changed_object_without_chainId :
  let v := Js.Object 1 [("networkVersion", Js.Str "137")] in
  let m' := step false sample_view (FromProvider 0 (ChainChanged v))
              (sample_ready false) in
  Js.typeof v = "object" /\
  ctx_chainId (published m') = v /\
  ctx_chainId (published m') <> Js.get v "chainId".
Proof. vm_compute. repeat split; discriminate. Qed.

Lemma reachable_initialised_once (debug : bool) (m : Machine) :
  reachable debug m -> initialised_once m.
Proof.
  apply reachable_preserves; unfold initialised_once.
  - intros d m0 H. open_machine m0. exact H.
  - intros view p c m0 H. open_machine m0. cbn in H.
    destruct H as (-> & -> & ->).
    commit_cases p c; eff_unfold; cbn; eff_cases.
  - intros view e m0 H. open_machine m0. cbn in H.
    destruct H as (-> & -> & ->).
    destruct e as [q ev| | | | | | |]; [destruct ev| | | | | | |];
      eff_unfold; cbn; eff_cases.
  - intros strict view options. unfold first_commit. eff_unfold. cbn.
    destruct debug, strict; cbn; auto.
Qed.

Lemma reachable_no_balance (m : Machine) : reachable false m -> no_balance m.
Proof.
  apply reachable_preserves; unfold no_balance.
  - intros d m0 H. open_machine m0. exact H.
  - intros view p c m0 H. open_machine m0. cbn in H.
    destruct H as (-> & ->).
    commit_cases p c; eff_unfold; cbn; eff_cases.
  - intros view e m0 H. open_machine m0. cbn in H.
    destruct H as (-> & ->).
    destruct e as [q ev| | | | | | |]; [destruct ev| | | | | | |];
      eff_unfold; cbn; eff_cases.
    all: destruct i; discriminate.
  - intros strict view options. unfold first_commit. eff_unfold. cbn.
    destruct strict; cbn; auto.
Qed.

Lemma reachable_subscribed_ready (debug : bool) (m : Machine) :
  reachable debug m -> subscribed_ready m.
Proof.
  apply reachable_preserves; unfold subscribed_ready.
  - intros d m0 H. open_machine m0. exact H.
  - intros view p c m0 H. open_machine m0. cbn in H.
    commit_cases p c; eff_unfold; cbn; eff_cases;
      intuition (try discriminate; try congruence).
  - intros view e m0 H. open_machine m0. cbn in H.
    destruct e as [q ev| | | | | | |]; [destruct ev| | | | | | |];
      eff_unfold; cbn; eff_cases;
      intuition (try discriminate; try congruence).
  - intros strict view options. unfold first_commit. eff_unfold. cbn.
    destruct debug, strict; cbn;
      intuition (try discriminate; try congruence).
Qed.

(** The listener of provider updates leaves everything but the hooks and
    the console alone, and increments [trigger]. *)
Lemma onProviderEvent_frame (debug : bool) (view : SdkView)
  (t : PROVIDER_UPDATE_TYPE) (m : Machine) :
  let m1 := run (onProviderEvent debug view t) m in
  rendered m1 = rendered m /\ sdkOptions m1 = sdkOptions m /\
  trigger (hooks m1) = (trigger (hooks m) + 1)%Z /\
  sdk (hooks m1) = sdk (hooks m) /\ ready (hooks m1) = ready (hooks m) /\
  provider_update_listener m1 = provider_update_listener m.
Proof.
  open_machine m. destruct t, debug; eff_unfold; cbn; auto 12.
Qed.

(** The commit after a change of [trigger] alone: the subscription effect
    is torn down and run again for the provider that is active now. *)
Lemma commit_resubscribes (debug : bool) (view : SdkView) (p c : Deps)
  (s : SdkRef) (m : Machine) :
  listeners_changed p c = true -> provider_update_changed p c = false ->
  sdkOptions_changed p c = false ->
  ready (hooks m) = true -> sdk (hooks m) = Some s ->
  let m2 := run (commit debug view p c) m in
  extensionActive (hooks m2) = isExtensionActive view /\
  connected (hooks m2) = isConnected view (getProvider view) /\
  account (hooks m2)
  = Js.or (selectedAddress view (getProvider view)) Js.Undefined /\
  provider (hooks m2) = Some (getProvider view) /\
  provider_listeners m2 = Some (getProvider view) /\
  status_listener m2 = true /\
  provider_update_listener m2 = provider_update_listener m /\
  connecting (hooks m2) = connecting (hooks m) /\
  error (hooks m2) = error (hooks m) /\
  chainId (hooks m2) = chainId (hooks m).
Proof.
  intros Hl Hp Ho Hr Hs. open_machine m. cbn in Hr, Hs. subst.
  unfold commit. rewrite Hl, Hp, Ho.
  destruct (account_changed p c); eff_unfold; cbn; eff_cases.
Qed.

(** A provider update, fully processed. *)
Lemma step_provider_update (debug : bool) (view : SdkView)
  (t : PROVIDER_UPDATE_TYPE) (m : Machine) :
  reachable debug m -> provider_update_listener m = true ->
  let m1 := run (onProviderEvent debug view t) m in
  let m' := step debug view (ProviderUpdate t) m in
  extensionActive (hooks m') = isExtensionActive view /\
  connected (hooks m') = isConnected view (getProvider view) /\
  account (hooks m')
  = Js.or (selectedAddress view (getProvider view)) Js.Undefined /\
  provider (hooks m') = Some (getProvider view) /\
  provider_listeners m' = Some (getProvider view) /\
  provider_update_listener m' = true /\
  connecting (hooks m') = connecting (hooks m1) /\
  error (hooks m') = error (hooks m1) /\
  chainId (hooks m') = chainId (hooks m1) /\
  trigger (hooks m') = (trigger (hooks m) + 1)%Z.
Proof.
  intros R L. cbv zeta.
  destruct (reachable_subscribed_ready _ _ R (or_introl L)) as [Hrd Hsdk].
  destruct (sdk (hooks m)) as [s|] eqn:Hs; [clear Hsdk | congruence].
  destruct (quiescent_spec m (reachable_quiescent _ _ R))
    as (_ & Qo & Qt & Qs & Qr).
  assert (D : run (dispatch debug view (ProviderUpdate t)) m
              = run (onProviderEvent debug view t) m).
  { unfold dispatch, bind, gets, when, run. cbn. rewrite L.
    destruct (onProviderEvent debug view t m) as [[] ?]; reflexivity. }
  unfold step. rewrite D.
  destruct (onProviderEvent_frame debug view t m)
    as (Fr & Fo & Ft & Fs & Frd & Fl).
  set (m1 := run (onProviderEvent debug view t) m) in *.
  assert (Hl : listeners_changed (rendered m1) (deps_of m1) = true).
  { unfold listeners_changed, deps_of. cbn. rewrite Fr, Ft, Qt.
    replace (trigger (hooks m) =? trigger (hooks m) + 1)%Z with false
      by (symmetry; apply Z.eqb_neq; lia).
    reflexivity. }
  assert (Hp : provider_update_changed (rendered m1) (deps_of m1) = false).
  { unfold provider_update_changed, deps_of. cbn.
    rewrite Fr, Fs, Frd, Qs, Qr, sdk_eqb_refl, Bool.eqb_reflx. reflexivity. }
  assert (Ho : sdkOptions_changed (rendered m1) (deps_of m1) = false).
  { unfold sdkOptions_changed, deps_of. cbn.
    rewrite Fr, Fo, Qo, Nat.eqb_refl. reflexivity. }
  unfold render_fuel. rewrite settle_unfold.
  replace (deps_changed (rendered m1) (deps_of m1)) with true
    by (unfold deps_changed; rewrite Hl; symmetry; apply orb_true_r).
  set (m1' := with_rendered (deps_of m1) m1).
  assert (Hrd1 : ready (hooks m1') = true)
    by (unfold m1'; destruct m1; cbn in *; congruence).
  assert (Hs1 : sdk (hooks m1') = Some s)
    by (unfold m1'; destruct m1; cbn in *; congruence).
  destruct (commit_resubscribes debug view (rendered m1) (deps_of m1) s m1'
              Hl Hp Ho Hrd1 Hs1)
    as (Ce & Cc & Ca & Cp & Cl & _ & Cu & Cg & Cr & Ci).
  destruct (commit_keeps debug view (rendered m1) (deps_of m1) m1')
    as (Ko & Kr & Kt & Ks & Kd).
  set (m2 := run (commit debug view (rendered m1) (deps_of m1)) m1') in *.
  assert (E1 : rendered m1' = deps_of m1 /\ hooks m1' = hooks m1
               /\ sdkOptions m1' = sdkOptions m1
               /\ provider_update_listener m1' = provider_update_listener m1)
    by (unfold m1'; destruct m1; cbn; auto).
  destruct E1 as (E1r & E1h & E1o & E1u).
  rewrite settle_account_only_fuel;
    [| rewrite Kr, E1r, Ko, E1o; reflexivity
     | rewrite Kr, E1r, Kt, E1h; reflexivity
     | rewrite Kr, E1r, Ks, E1h; reflexivity
     | rewrite Kr, E1r, Kd, E1h; reflexivity ].
  assert (G : extensionActive (hooks m2) = isExtensionActive view /\
              connected (hooks m2) = isConnected view (getProvider view) /\
              account (hooks m2)
              = Js.or (selectedAddress view (getProvider view)) Js.Undefined /\
              provider (hooks m2) = Some (getProvider view) /\
              provider_listeners m2 = Some (getProvider view) /\
              provider_update_listener m2 = true /\
              connecting (hooks m2) = connecting (hooks m1) /\
              error (hooks m2) = error (hooks m1) /\
              chainId (hooks m2) = chainId (hooks m1) /\
              trigger (hooks m2) = (trigger (hooks m) + 1)%Z).
  { rewrite Ce, Cc, Ca, Cp, Cl, Cu, Cg, Cr, Ci, Kt, E1h, E1u, Fl, L, Ft.
    auto 12. }
  destruct (Js.same_value _ _); [exact G|].
  destruct G as (G1 & G2 & G3 & G4 & G5 & G6 & G7 & G8 & G9 & G10).
  clearbody m2. clear - G1 G2 G3 G4 G5 G6 G7 G8 G9 G10.
  open_machine m2. cbn in *. subst.
  eff_unfold; cbn; eff_cases.
Qed.

(** C2 (amended).  After a provider update of kind "extension" is fully
    processed, [connecting] is false, [error] is unset, [chainId] and
    [account] are the active provider's current [chainId] and
    [selectedAddress] (unset when falsy), [extensionActive] is what the SDK
    reports through [isExtensionActive()] and [connected] is what the active
    provider reports through [isConnected()]; the listener itself had set
    [connected] to true before the re-subscription re-read it.  After one of
    kind "terminate", [connecting] is false.  For every kind [trigger] is
    incremented and the listeners are re-attached to the provider that is
    active now, which is also the published [provider]. *)
Theorem provider_update_rereads_and_resubscribes (debug : bool)
  (view : SdkView) (m : Machine) :
  reachable debug m -> provider_update_listener m = true ->
  (let m' := step debug view (ProviderUpdate EXTENSION) m in
   ctx_extensionActive (published m') = isExtensionActive view /\
   ctx_account (published m')
   = Js.or (selectedAddress view (getProvider view)) Js.Undefined /\
   ctx_chainId (published m')
   = Js.or (providerChainId view (getProvider view)) Js.Undefined /\
   ctx_connecting (published m') = false /\
   ctx_connected (published m') = isConnected view (getProvider view) /\
   ctx_error (published m') = Js.Undefined) /\
  connected (hooks (run (onProviderEvent debug view EXTENSION) m)) = true /\
  ctx_connecting (published (step debug view (ProviderUpdate TERMINATE) m))
  = false /\
  (forall t : PROVIDER_UPDATE_TYPE,
      let m' := step debug view (ProviderUpdate t) m in
      trigger (hooks m') = (trigger (hooks m) + 1)%Z /\
      provider_listeners m' = Some (getProvider view) /\
      ctx_provider (published m') = Some (getProvider view) /\
      provider_update_listener m' = true).
Proof.
  intros R L. unfold published, context_value.
  cbn [ctx_extensionActive ctx_account ctx_chainId ctx_connecting
         ctx_connected ctx_error ctx_provider].
  repeat split.
  1-6: destruct (step_provider_update debug view EXTENSION m R L)
    as (He & Hc & Ha & _ & _ & _ & Hg & Hr & Hi & _);
    rewrite ?He, ?Hc, ?Ha, ?Hg, ?Hr, ?Hi; try reflexivity;
    open_machine m; destruct debug; reflexivity.
  - open_machine m; destruct debug; reflexivity.
  - destruct (step_provider_update debug view TERMINATE m R L)
      as (_ & _ & _ & _ & _ & _ & Hg & _).
    rewrite Hg. open_machine m; destruct debug; reflexivity.
  - apply (step_provider_update debug view t m R L).
  - apply (step_provider_update debug view t m R L).
  - apply (step_provider_update debug view t m R L).
  - apply (step_provider_update debug view t m R L).
Qed.

Lemma provider_update_rereads_and_resubscribes_witness :
  let view := mkView 1 (fun _ => Js.Str "0xabc") (fun _ => Js.Str "0x1")
                (fun _ => true) true false in
  let m' := step false view (ProviderUpdate EXTENSION) (sample_ready false) in
  ctx_extensionActive (published m') = true /\
  ctx_account (published m') = Js.Str "0xabc" /\
  ctx_chainId (published m') = Js.Str "0x1" /\
  ctx_connecting (published m') = false /\
  ctx_connected (published m') = true /\
  ctx_error (published m') = Js.Undefined.
Proof.
  apply (provider_update_rereads_and_resubscribes false
           (mkView 1 (fun _ => Js.Str "0xabc") (fun _ => Js.Str "0x1")
              (fun _ => true) true false)
           (sample_ready false) (sample_ready_reachable false)
           ltac:(vm_compute; reflexivity)).
Defined.

(** C2, as stated, fails: when the extension provider the SDK hands out
    answers [isConnected()] with false, a fully processed "extension" update
    publishes [connected] false, although the SDK reports the extension as
    active; and [extensionActive] is false whenever the SDK does not report
    it. *)
Lemma provider_update_extension_follows_sdk :
  let m' := step false sample_view_extension (ProviderUpdate EXTENSION)
              (sample_ready false) in
  let m'' := step false sample_view_idle (ProviderUpdate EXTENSION)
               (sample_ready false) in
  provider_update_listener (sample_ready false) = true /\
  ctx_extensionActive (published m') = true /\
  ctx_connected (published m') = false /\
  ctx_extensionActive (published m'') = false /\
  ~ (ctx_extensionActive (published m') = true /\
     ctx_connected (published m') = true).
Proof. vm_compute. repeat split. intros [_ H]. discriminate. Qed.

Lemma reachable_steps (debug : bool) (tr : list (SdkView * Event))
  (m : Machine) :
  reachable debug m -> reachable debug (steps debug tr m).
Proof.
  revert m. induction tr as [|[view e] tr IH]; intros m R; cbn [steps];
    [exact R|].
  apply IH, reach_step, R.
Qed.

(** C6.  The effects of the first commit construct one SDK and call its
    [init()] once.  Running the initialisation effect a second time changes
    nothing but the console (one debug line, when the diagnostic flag is
    on), so an instance mounted twice by StrictMode has constructed one SDK
    and called [init()] once, and this stays so whatever happens later. *)
Theorem duplicate_mount_initialises_once (debug : bool) (view : SdkView)
  (options : nat) :
  let once := run (mount_effects debug view) (unmounted options) in
  let again := run (init_effect debug) once in
  (sdk_constructed once = 1 /\ init_calls once = 1) /\
  (sdk_constructed again = 1 /\ init_calls again = 1 /\
   again = with_console
             (console once ++
              (if debug
               then [mkLog LDebug "[MetamaskProvider] sdk already initialized" []]
               else []))
             once) /\
  (sdk_constructed (mount debug true view options) = 1 /\
   init_calls (mount debug true view options) = 1) /\
  (forall (strict : bool) (tr : list (SdkView * Event)),
      let m := steps debug tr (mount debug strict view options) in
      sdk_constructed m = 1 /\ init_calls m = 1).
Proof.
  cbv zeta. split; [|split; [|split]].
  - destruct debug; split; reflexivity.
  - destruct debug; repeat split; reflexivity.
  - apply (reachable_initialised_once debug), reach_mount.
  - intros strict tr.
    apply (reachable_initialised_once debug), reachable_steps, reach_mount.
Qed.

(** C7.  With the diagnostic flag off, [balance] is unset in every state
    the instance goes through, whatever the events (account changes
    included) and whatever the SDK answers. *)
Theorem balance_never_set_without_debug (strict : bool) (view : SdkView)
  (options : nat) (tr : list (SdkView * Event)) :
  ctx_balance (published (steps false tr (mount false strict view options)))
  = Js.Undefined.
Proof.
  apply (reachable_no_balance
           (steps false tr (mount false strict view options))).
  apply reachable_steps, reach_mount.
Qed.

Lemma same_value_sym (a b : Js.value) :
  Js.same_value a b = Js.same_value b a.
Proof.
  destruct a, b; simpl; auto using Z.eqb_sym, String.eqb_sym, Nat.eqb_sym.
  destruct b, b0; reflexivity.
Qed.

Lemma same_value_truthy (a b : Js.value) :
  Js.same_value a b = true -> Js.truthy a = Js.truthy b.
Proof.
  destruct a, b; simpl; try discriminate; intros H; try reflexivity.
  - now apply Bool.eqb_prop.
  - apply Z.eqb_eq in H. now subst.
  - apply String.eqb_eq in H. now subst.
Qed.

(** What a commit does to [balance] and to the requests in flight. *)
Lemma commit_balance (debug : bool) (view : SdkView) (p c : Deps)
  (m : Machine) :
  let m2 := run (commit debug view p c) m in
  (account_changed p c = true -> Js.truthy (account (hooks m)) = false ->
   balance (hooks m2) = Js.Undefined /\
   balance_requests m2 = balance_requests m) /\
  (account_changed p c = false ->
   balance (hooks m2) = balance (hooks m) /\
   balance_requests m2 = balance_requests m).
Proof.
  open_machine m. cbn [hooks account balance balance_requests].
  split; intros Ha; [intros Hf|]; unfold commit; rewrite Ha;
    destruct (listeners_changed p c), (provider_update_changed p c),
      (sdkOptions_changed p c); eff_unfold; cbn; rewrite ?Hf; eff_cases.
Qed.

(** Settling after any number of listeners: if the account the instance
    ends with is absent and is not the one of the last commit, then
    [balance] ends unset. *)
Lemma settle_clears_balance (debug : bool) (view : SdkView) (m1 : Machine) :
  let m' := settle render_fuel debug view m1 in
  Js.truthy (account (hooks m')) = false ->
  Js.same_value (d_account (rendered m1)) (account (hooks m')) = false ->
  balance (hooks m') = Js.Undefined.
Proof.
  cbv zeta. unfold render_fuel. rewrite settle_unfold.
  destruct (deps_changed (rendered m1) (deps_of m1)) eqn:Hd.
  2:{ intros _ Hs. exfalso.
      unfold deps_changed in Hd.
      apply orb_false_elim in Hd. destruct Hd as [Hd _].
      apply orb_false_elim in Hd. destruct Hd as [Hd _].
      unfold account_changed, deps_of in Hd. cbn in Hd.
      rewrite Hs in Hd. discriminate. }
  set (p := rendered m1). set (c := deps_of m1).
  set (m1' := with_rendered c m1).
  assert (E1 : rendered m1' = c /\ hooks m1' = hooks m1
               /\ sdkOptions m1' = sdkOptions m1)
    by (unfold m1'; destruct m1; cbn; auto).
  destruct E1 as (E1r & E1h & E1o).
  destruct (commit_keeps debug view p c m1') as (Ko & Kr & Kt & Ks & Kd).
  destruct (commit_balance debug view p c m1') as [Bc _].
  set (m2 := run (commit debug view p c) m1') in *.
  rewrite settle_account_only_fuel;
    [| rewrite Kr, E1r, Ko, E1o; reflexivity
     | rewrite Kr, E1r, Kt, E1h; reflexivity
     | rewrite Kr, E1r, Ks, E1h; reflexivity
     | rewrite Kr, E1r, Kd, E1h; reflexivity ].
  rewrite Kr, E1r. change (d_account c) with (account (hooks m1)).
  destruct (Js.same_value (account (hooks m1)) (account (hooks m2))) eqn:Es.
  - intros Hf Hs.
    assert (Ha : account_changed p c = true).
    { unfold account_changed, c, deps_of. cbn.
      rewrite same_value_sym, (same_value_cong _ _ _ Es), same_value_sym.
      now rewrite Hs. }
    assert (Hf1 : Js.truthy (account (hooks m1')) = false).
    { rewrite E1h, (same_value_truthy _ _ Es). exact Hf. }
    destruct (Bc Ha Hf1) as [-> _]. reflexivity.
  - intros Hf _. clear - Hf. open_machine m2.
    revert Hf. eff_unfold. cbn.
    destruct (Js.truthy account0) eqn:T;
      [destruct debug, sdk0; cbn; congruence | cbn; auto].
Qed.

(** No listener touches what the last commit rendered. *)
Lemma dispatch_keeps_rendered (debug : bool) (view : SdkView) (e : Event)
  (m : Machine) :
  rendered (run (dispatch debug view e) m) = rendered m.
Proof.
  destruct e as [q ev| s | t | | | i b | i b | o].
  - destruct (provider_listeners m) as [p|] eqn:L.
    + destruct (Nat.eqb_spec q p) as [->|N].
      * rewrite (dispatch_delivered debug view p ev m L).
        apply (on_provider_event_frame debug view p ev m).
      * apply Nat.eqb_neq in N. open_machine m. cbn in L. subst.
        eff_unfold. cbn. rewrite N. cbn. auto.
    + open_machine m. cbn in L. subst. eff_unfold. cbn. auto.
  - open_machine m. eff_unfold; cbn; eff_cases.
  - open_machine m.
    destruct provider_update_listener0, t; eff_unfold; cbn; eff_cases.
  - open_machine m. eff_unfold; cbn; eff_cases.
  - open_machine m. eff_unfold; cbn; eff_cases.
  - open_machine m. eff_unfold; cbn; eff_cases.
  - open_machine m. eff_unfold; cbn; eff_cases.
  - open_machine m. eff_unfold; cbn; eff_cases.
Qed.

Lemma run_listeners_keep_rendered (debug : bool)
  (es : list (SdkView * Event)) (m : Machine) :
  rendered (run_listeners debug es m) = rendered m.
Proof.
  apply (run_listeners_preserves (fun m' => rendered m' = rendered m));
    [|reflexivity].
  intros view e m0 H. now rewrite dispatch_keeps_rendered.
Qed.

(** The listener of a rejected balance request, on any instance: one
    warning on the console, the request gone, no hook touched. *)
Lemma dispatch_balance_rejected (debug : bool) (view : SdkView) (i : nat)
  (acct err : Js.value) (m : Machine) :
  nth_error (balance_requests m) i = Some acct ->
  run (dispatch debug view (BalanceRejected i err)) m
  = with_console
      (console m ++
       [mkLog LWarn "[MetamaskProvider] error retrieving balance of ${account}"
          [acct; err]])
      (with_balance_requests (drop_nth i (balance_requests m)) m).
Proof.
  intros H. open_machine m. cbn in H. eff_unfold. cbn. rewrite H.
  reflexivity.
Qed.

(** A rejected balance request: one warning on the console, the request
    gone, no hook touched. *)
Lemma step_balance_rejected (debug : bool) (view : SdkView) (i : nat)
  (acct err : Js.value) (m : Machine) :
  quiescent m -> nth_error (balance_requests m) i = Some acct ->
  step debug view (BalanceRejected i err) m
  = with_console
      (console m ++
       [mkLog LWarn "[MetamaskProvider] error retrieving balance of ${account}"
          [acct; err]])
      (with_balance_requests (drop_nth i (balance_requests m)) m).
Proof.
  intros Q H. unfold step.
  pose proof (dispatch_balance_rejected debug view i acct err m H) as D.
  rewrite D. apply settle_of_quiescent.
  unfold quiescent in *. open_machine m. exact Q.
Qed.

(** C8 (amended).  Whenever a render commits an absent [account] that is
    not the one of the commit before, the balance effect of that commit sets
    [balance] to unset at once and issues no balance request.  However many
    events are handled before the instance renders, once it has settled on
    an absent account that is not the one published before, [balance] is
    unset.  A failed balance request is logged as a warning and swallowed:
    its handler touches no hook, so [balance] keeps the value it had (unset
    if it was unset) and [error] is not touched. *)
Theorem account_absent_clears_balance_failure_swallowed (debug : bool)
  (view : SdkView) (m : Machine) :
  reachable debug m ->
  (forall m0 : Machine,
      Js.truthy (account (hooks m0)) = false ->
      account_changed (rendered m0) (deps_of m0) = true ->
      let m2 := run (commit debug view (rendered m0) (deps_of m0))
                  (with_rendered (deps_of m0) m0) in
      balance (hooks m2) = Js.Undefined /\
      balance_requests m2 = balance_requests m0) /\
  (forall es : list (SdkView * Event),
      let m' := step_batch debug view es m in
      Js.truthy (ctx_account (published m')) = false ->
      Js.same_value (ctx_account (published m)) (ctx_account (published m'))
      = false ->
      ctx_balance (published m') = Js.Undefined) /\
  (forall (m0 : Machine) (i : nat) (acct err : Js.value),
      nth_error (balance_requests m0) i = Some acct ->
      let m1 := run (dispatch debug view (BalanceRejected i err)) m0 in
      hooks m1 = hooks m0 /\
      console m1
      = console m0 ++
        [mkLog LWarn "[MetamaskProvider] error retrieving balance of ${account}"
           [acct; err]] /\
      balance_requests m1 = drop_nth i (balance_requests m0)) /\
  (forall (i : nat) (acct err : Js.value),
      nth_error (balance_requests m) i = Some acct ->
      let m' := step debug view (BalanceRejected i err) m in
      published m' = published m /\
      console m'
      = console m ++
        [mkLog LWarn "[MetamaskProvider] error retrieving balance of ${account}"
           [acct; err]] /\
      balance_requests m' = drop_nth i (balance_requests m)).
Proof.
  intros R. pose proof (reachable_quiescent _ _ R) as Q.
  destruct (quiescent_spec m Q) as (Qa & Qo & Qt & Qs & Qr).
  split; [|split; [|split]].
  - intros m0 Hf Ha. cbv zeta.
    destruct (commit_balance debug view (rendered m0) (deps_of m0)
                (with_rendered (deps_of m0) m0)) as [Bc _].
    assert (E : hooks (with_rendered (deps_of m0) m0) = hooks m0 /\
                balance_requests (with_rendered (deps_of m0) m0)
                = balance_requests m0)
      by (destruct m0; cbn; auto).
    destruct E as [Eh Eb]. rewrite Eh, Eb in Bc. apply Bc; assumption.
  - intros es. cbv zeta. unfold published, context_value.
    cbn [ctx_account ctx_balance]. intros Hf Hs.
    unfold step_batch in *.
    apply settle_clears_balance; [exact Hf|].
    rewrite run_listeners_keep_rendered, (same_value_cong _ _ _ Qa).
    exact Hs.
  - intros m0 i acct err H. cbv zeta.
    rewrite (dispatch_balance_rejected debug view i acct err m0 H).
    destruct m0. repeat split.
  - intros i acct err H. cbv zeta.
    rewrite (step_balance_rejected debug view i acct err m Q H).
    open_machine m. repeat split.
Qed.

Lemma account_absent_clears_balance_failure_swallowed_witness :
  let m := steps true
             [(sample_view, BalanceResolved 0 (Js.Str "0x10"));
              (sample_view,
               FromProvider 0 (AccountsChanged (Js.Array 1 [Js.Str "0xdef"])))]
             (sample_ready true) in
  let m' := step_batch true sample_view
              [(sample_view,
                FromProvider 0 (AccountsChanged (Js.Array 2 [])))] m in
  let m0 := run_listeners true
              [(sample_view,
                FromProvider 0 (AccountsChanged (Js.Array 2 [])))] m in
  let m2 := run (commit true sample_view (rendered m0) (deps_of m0))
              (with_rendered (deps_of m0) m0) in
  (ctx_account (published m) = Js.Str "0xdef" /\
   ctx_balance (published m) = Js.Str "0x10" /\
   ctx_balance (published m') = Js.Undefined) /\
  (balance (hooks m0) = Js.Str "0x10" /\
   balance (hooks m2) = Js.Undefined /\
   balance_requests m2 = balance_requests m0) /\
  published (step true sample_view (BalanceRejected 0 (Js.Str "timeout")) m)
  = published m.
Proof.
  cbv zeta.
  destruct (account_absent_clears_balance_failure_swallowed true sample_view
              (steps true
                 [(sample_view, BalanceResolved 0 (Js.Str "0x10"));
                  (sample_view,
                   FromProvider 0
                     (AccountsChanged (Js.Array 1 [Js.Str "0xdef"])))]
                 (sample_ready true))
              (reachable_steps true _ _ (sample_ready_reachable true)))
    as (Ha & Hb & _ & Hc).
  split; [|split].
  - split; [vm_compute; reflexivity|].
    split; [vm_compute; reflexivity|].
    apply (Hb [(sample_view,
                FromProvider 0 (AccountsChanged (Js.Array 2 [])))]);
      vm_compute; reflexivity.
  - split; [vm_compute; reflexivity|].
    apply Ha; vm_compute; reflexivity.
  - apply (Hc 0 (Js.Str "0xdef") (Js.Str "timeout")).
    vm_compute. reflexivity.
Defined.

(** C8, as stated, fails twice.  A balance fetched for one account
    survives the failed fetch for the next account, so a failed fetch does
    not leave [balance] unset.  And when [accountsChanged] with no account
    and [accountsChanged] with a new account are handled before the next
    render, the account was absent in between, yet [balance] is never
    cleared and the fetch for the new account is issued. *)
Lemma failed_fetch_keeps_earlier_balance :
  let before := steps true
                  [(sample_view, BalanceResolved 0 (Js.Str "0x10"));
                   (sample_view,
                    FromProvider 0
                      (AccountsChanged (Js.Array 1 [Js.Str "0xdef"])))]
                  (sample_ready true) in
  let after := step true sample_view (BalanceRejected 0 (Js.Str "timeout"))
                 before in
  let gone := (sample_view,
               FromProvider 0 (AccountsChanged (Js.Array 2 []))) in
  let back := (sample_view,
               FromProvider 0
                 (AccountsChanged (Js.Array 3 [Js.Str "0x123"]))) in
  let batched := step_batch true sample_view [gone; back] before in
  (balance_requests before = [Js.Str "0xdef"] /\
   balance_requests after = [] /\
   ctx_account (published after) = Js.Str "0xdef" /\
   ctx_balance (published after) = Js.Str "0x10" /\
   ctx_balance (published after) <> Js.Undefined) /\
  (ctx_balance (published before) = Js.Str "0x10" /\
   account (hooks (run_listeners true [gone] before)) = Js.Undefined /\
   ctx_account (published batched) = Js.Str "0x123" /\
   ctx_balance (published batched) = Js.Str "0x10" /\
   balance_requests batched = [Js.Str "0xdef"; Js.Str "0x123"]).
Proof. vm_compute. repeat split. discriminate. Qed.

(* ================================================================== *)
(** ** Properties of the wrapper *)
(* ================================================================== *)

(** C9.  Until the client context is confirmed ([clientSide] false, as on
    the first render and throughout a server render) the wrapper returns
    its children alone: no element of the SDK-backed component, no
    instance of it, and so no SDK object.  Once the mount effect has run,
    [clientSide] is true and the wrapper returns the SDK-backed component
    around the same children, which publishes its state around them. *)
Theorem client_only_rendering (C : Type) (children : C) (options : nat)
  (debug strict : bool) (view : SdkView) :
  (clientSide wrapper_initial = false /\
   MetaMaskProvider (clientSide wrapper_initial) children options debug
   = Fragment [Fragment [Children children]] /\
   sdk_dependent
     (MetaMaskProvider (clientSide wrapper_initial) children options debug)
   = false /\
   client wrapper_initial = None /\
   wrapper_sdk_constructed wrapper_initial = 0) /\
  (let w := wrapper_effect debug strict view options wrapper_initial in
   clientSide w = true /\
   MetaMaskProvider (clientSide w) children options debug
   = Fragment [ProviderClientElement debug options [Children children]] /\
   client w = Some (mount debug strict view options) /\
   MetaMaskProviderClient children (mount debug strict view options)
   = ContextProvider (published (mount debug strict view options))
       [Children children] /\
   wrapper_sdk_constructed w = 1).
Proof.
  split; [repeat split|]. cbv zeta. repeat split.
  apply (reachable_initialised_once debug), reach_mount.
Qed.

(* ================================================================== *)
(** ** Properties of the chooser *)
(* ================================================================== *)

Lemma indexed_paths_nth (f : VNode -> list (list nat * Handler))
  (ks : list VNode) (i j : nat) (k : VNode) (q : list nat) (h : Handler) :
  nth_error ks j = Some k -> In (q, h) (f k) ->
  In ((i + j) :: q, h) (indexed_paths f i ks).
Proof.
  revert i j. induction ks as [|k0 ks IH]; intros i j Hn Hin.
  - destruct j; discriminate.
  - cbn. apply in_or_app. destruct j as [|j]; cbn in Hn.
    + injection Hn as ->. left. rewrite Nat.add_0_r.
      apply (in_map (fun ph => (i :: fst ph, snd ph)) _ (q, h)), Hin.
    + right. replace (i + S j) with (S i + j) by lia. now apply IH.
Qed.

(** Every handler a click reaches sits on a node whose path is a prefix of
    the path clicked. *)
Lemma handlers_on_path_prefix (path : list nat) (n : VNode)
  (hs : list Handler) (h : Handler) :
  handlers_on_path n path = Some hs -> In h hs ->
  exists pre rest, path = pre ++ rest /\ In (pre, h) (handler_paths n).
Proof.
  revert n hs. induction path as [|i path IH]; intros n hs Hp Hin.
  - cbn in Hp. injection Hp as <-. exists [], []. split; [reflexivity|].
    destruct n as [? ? ? ? [h0|] ?| |]; cbn in *; try contradiction.
    destruct Hin as [->|[]]. now left.
  - destruct n as [tg cl id st oc kids| |]; cbn in Hp; try discriminate.
    destruct (nth_error kids i) as [k|] eqn:Hk; [|discriminate].
    destruct (handlers_on_path k path) as [hs'|] eqn:Hk'; [|discriminate].
    injection Hp as <-. apply in_app_or in Hin. destruct Hin as [Hin|Hin].
    + destruct (IH k hs' Hk' Hin) as (pre & rest & -> & Hpre).
      exists (i :: pre), rest. split; [reflexivity|].
      cbn [handler_paths]. apply in_or_app. right.
      apply (indexed_paths_nth handler_paths kids 0 i k pre h Hk Hpre).
    + exists [], (i :: path). split; [reflexivity|].
      cbn [handler_paths]. apply in_or_app. left.
      apply (in_map (fun h => ([], h))), Hin.
Qed.

Lemma nesting_of_child (kids : list VNode) (i : nat) (k : VNode) :
  nth_error kids i = Some k ->
  handler_nesting k
  <= fold_right (fun k acc => Nat.max (handler_nesting k) acc) 0 kids.
Proof.
  revert i. induction kids as [|k0 kids IH]; intros i Hn.
  - destruct i; discriminate.
  - cbn. destruct i as [|i]; cbn in Hn.
    + injection Hn as ->. lia.
    + specialize (IH i Hn). lia.
Qed.

(** A click reaches no more handlers than the tree nests. *)
Lemma handlers_on_path_length (path : list nat) (n : VNode)
  (hs : list Handler) :
  handlers_on_path n path = Some hs -> length hs <= handler_nesting n.
Proof.
  revert n hs. induction path as [|i path IH]; intros n hs Hp.
  - cbn in Hp. injection Hp as <-. destruct n; cbn; lia.
  - destruct n as [tg cl id st oc kids| |]; cbn in Hp; try discriminate.
    destruct (nth_error kids i) as [k|] eqn:Hk; [|discriminate].
    destruct (handlers_on_path k path) as [hs'|] eqn:Hk'; [|discriminate].
    injection Hp as <-. rewrite length_app.
    pose proof (IH k hs' Hk'). pose proof (nesting_of_child kids i k Hk).
    cbn [handler_nesting own_handler]. lia.
Qed.

Lemma SelectModal_handler_paths (props : SelectModalProps) (t : Z) :
  handler_paths (SelectModal props t)
  = [ ([0], Call (onClose props));
      ([1; 0; 0; 0], Call (onClose props));
      ([1; 2; 0; 0; 0], SetTab 1);
      ([1; 2; 0; 0; 1], SetTab 2);
      ([1; 2; 2; 2], Call (connectWithExtension props)) ].
Proof. reflexivity. Qed.

Lemma SelectModal_handler_nesting (props : SelectModalProps) (t : Z) :
  handler_nesting (SelectModal props t) = 1.
Proof. reflexivity. Qed.

(** C5 (amended).  The selected tab starts at 1.  A click anywhere in the
    widget does one of five things: nothing; select tab 1, when it lands on
    the "Desktop" selector; select tab 2, when it lands on the "Mobile"
    selector; invoke [onClose] once and leave the tab alone, when it lands
    on the backdrop or on the close button; invoke [connectWithExtension]
    once, when it lands on the connect button.  With tab 1 ("Desktop")
    selected the panel with the extension-connect button is displayed and
    the panel with the QR mount point is hidden; with tab 2 ("Mobile")
    selected it is the other way round. *)
Theorem chooser_tab_and_close (props : SelectModalProps) :
  tab chooser_initial = 1%Z /\
  (forall (c : Chooser) (path : list nat),
      let c' := click props path c in
      c' = c \/
      ((exists rest, path = [1; 2; 0; 0; 0] ++ rest) /\
       c' = mkChooser 1 (calls c)) \/
      ((exists rest, path = [1; 2; 0; 0; 1] ++ rest) /\
       c' = mkChooser 2 (calls c)) \/
      ((exists rest, path = [0] ++ rest \/ path = [1; 0; 0; 0] ++ rest) /\
       c' = mkChooser (tab c) (calls c ++ [onClose props])) \/
      ((exists rest, path = [1; 2; 2; 2] ++ rest) /\
       c' = mkChooser (tab c) (calls c ++ [connectWithExtension props]))) /\
  (forall c : Chooser,
      click props [0] c = mkChooser (tab c) (calls c ++ [onClose props]) /\
      click props [1; 0; 0; 0] c
      = mkChooser (tab c) (calls c ++ [onClose props]) /\
      click props [1; 2; 0; 0; 0] c = mkChooser 1 (calls c) /\
      click props [1; 2; 0; 0; 1] c = mkChooser 2 (calls c)) /\
  (forall t : Z,
      node_at (SelectModal props t) [1; 2; 0; 0; 0; 0] = Some (Text "Desktop") /\
      node_at (SelectModal props t) [1; 2; 0; 0; 1; 0] = Some (Text "Mobile") /\
      node_at (SelectModal props t) [1; 2; 1] = Some (qr_panel t) /\
      node_at (SelectModal props t) [1; 2; 2] = Some (extension_panel props t) /\
      has_id "sdk-qrcode-container" (qr_panel t) = true /\
      has_id "sdk-qrcode-container" (extension_panel props t) = false) /\
  (display (qr_panel 1) = Some "none" /\
   display (extension_panel props 1) = Some "block" /\
   display (qr_panel 2) = Some "block" /\
   display (extension_panel props 2) = Some "none").
Proof.
  split; [reflexivity|]. split; [|repeat split].
  intros c path. cbv zeta. unfold click.
  destruct (handlers_on_path (SelectModal props (tab c)) path) as [hs|] eqn:H;
    [|now left].
  pose proof (handlers_on_path_length _ _ _ H) as Hlen.
  rewrite SelectModal_handler_nesting in Hlen.
  destruct hs as [|h [|h' hs]]; [now left | | cbn in Hlen; lia].
  destruct (handlers_on_path_prefix _ _ _ h H (or_introl eq_refl))
    as (pre & rest & -> & Hin).
  rewrite SelectModal_handler_paths in Hin. cbn [In] in Hin.
  destruct Hin as [E|[E|[E|[E|[E|[]]]]]]; injection E as <- <-; cbn.
  - right; right; right; left. split; [exists rest; now left | reflexivity].
  - right; right; right; left. split; [exists rest; now right | reflexivity].
  - right; left. split; [now exists rest | reflexivity].
  - right; right; left. split; [now exists rest | reflexivity].
  - right; right; right; right. split; [now exists rest | reflexivity].
Qed.

(** C5, as stated, fails: tab 1 is not the tab of the QR code and tab 2 is
    not the tab of the extension.  With tab 1 selected the QR panel is
    hidden, with tab 2 selected the extension panel is. *)
Lemma chooser_tab_one_hides_qr :
  display (qr_panel 1) = Some "none" /\
  display (extension_panel sample_props 2) = Some "none" /\
  ~ (display (qr_panel (tab chooser_initial)) = Some "block" /\
     display (extension_panel sample_props 2) = Some "block").
Proof. repeat split. intros [H _]. discriminate. Qed.

(** C10.  The widget never reads [link]: two sets of props with the same
    callbacks render the same tree for every tab and react to every click
    in the same way, whatever their links; and the tree always holds the
    element with the fixed identifier an external renderer draws the QR
    code into. *)
Theorem link_is_not_read (p q : SelectModalProps) :
  onClose p = onClose q ->
  connectWithExtension p = connectWithExtension q ->
  (forall t : Z, SelectModal p t = SelectModal q t) /\
  (forall (path : list nat) (c : Chooser), click p path c = click q path c) /\
  (forall t : Z, has_id "sdk-qrcode-container" (SelectModal p t) = true).
Proof.
  destruct p as [oc l cw], q as [oc' l' cw']. cbn. intros -> ->.
  repeat split.
Qed.

Lemma link_is_not_read_witness :
  SelectModal (mkProps 0 "metamask://connect?channelId=1" 1) 1
  = SelectModal (mkProps 0 "https://example.org/other" 1) 1 /\
  click (mkProps 0 "metamask://connect?channelId=1" 1) [0] chooser_initial
  = click (mkProps 0 "https://example.org/other" 1) [0] chooser_initial.
Proof.
  destruct (link_is_not_read (mkProps 0 "metamask://connect?channelId=1" 1)
              (mkProps 0 "https://example.org/other" 1)
              eq_refl eq_refl) as (Hr & Hc & _).
  split; [apply Hr | apply Hc].
Defined.

(* ================================================================== *)
(** ** Further properties of the publisher *)
(* ================================================================== *)

(** An event of the provider the instance listens to, fully processed: the
    listener, then one run of the balance effect if the listener changed
    [account]. *)
Lemma step_from_provider_exact (debug : bool) (view : SdkView)
  (p : ProviderRef) (ev : ProviderEvent) (m : Machine) :
  quiescent m -> provider_listeners m = Some p ->
  let m1 := run (on_provider_event debug view p ev) m in
  step debug view (FromProvider p ev) m
  = if Js.same_value (account (hooks m)) (account (hooks m1))
    then m1
    else run (balance_effect debug) (with_rendered (deps_of m1) m1).
Proof.
  intros Q L. cbv zeta.
  unfold step. rewrite (dispatch_delivered debug view p ev m L).
  destruct (on_provider_event_frame debug view p ev m)
    as (Hr & Ho & Ht & Hs & Hrd & _).
  destruct (quiescent_spec m Q) as (Qa & Qo & Qt & Qs & Qr).
  rewrite settle_account_only by congruence.
  rewrite Hr, (same_value_cong _ _ _ Qa). reflexivity.
Qed.

(** A listener that leaves [account] alone is all there is to its step. *)
Lemma step_from_provider_same_account (debug : bool) (view : SdkView)
  (p : ProviderRef) (ev : ProviderEvent) (m : Machine) :
  quiescent m -> provider_listeners m = Some p ->
  account (hooks (run (on_provider_event debug view p ev) m))
  = account (hooks m) ->
  step debug view (FromProvider p ev) m
  = run (on_provider_event debug view p ev) m.
Proof.
  intros Q L E. rewrite (step_from_provider_exact debug view p ev m Q L).
  cbv zeta. now rewrite E, same_value_refl.
Qed.

(** X1.  A [connecting] event publishes [connected] false, [connecting]
    true and [error] unset, and leaves every other published field,
    [account], [chainId] and [balance] included, as it was. *)
Theorem connecting_event_publishes (debug : bool) (view : SdkView)
  (p : ProviderRef) (m : Machine) :
  reachable debug m -> provider_listeners m = Some p ->
  let c := published m in
  published (step debug view (FromProvider p Connecting) m)
  = {| ctx_sdk := ctx_sdk c; ctx_ready := ctx_ready c;
       ctx_connected := false;
       ctx_readOnlyCalls := ctx_readOnlyCalls c;
       ctx_provider := ctx_provider c;
       ctx_connecting := true;
       ctx_account := ctx_account c; ctx_balance := ctx_balance c;
       ctx_extensionActive := ctx_extensionActive c;
       ctx_chainId := ctx_chainId c;
       ctx_error := Js.Undefined;
       ctx_status := ctx_status c |}.
Proof.
  intros R L. cbv zeta.
  rewrite (step_from_provider_same_account debug view p Connecting m
             (reachable_quiescent _ _ R) L);
    open_machine m; destruct debug; reflexivity.
Qed.

Lemma connecting_event_publishes_witness :
  let m' := step false sample_view (FromProvider 0 Connecting)
              (sample_ready false) in
  ctx_connecting (published m') = true /\
  ctx_connected (published m') = false /\
  ctx_account (published m') = Js.Str "0xabc".
Proof.
  pose proof (connecting_event_publishes false sample_view 0
                (sample_ready false) (sample_ready_reachable false)
                ltac:(vm_compute; reflexivity)) as H.
  cbv zeta in *. rewrite H. vm_compute. repeat split.
Defined.

(** X2.  A [connect] event with a payload publishes [chainId] equal to the
    payload's [chainId] (unset when the payload has none), [connecting]
    false, [connected] true and [error] unset, and leaves every other
    published field as it was.  A [connect] event without a payload makes
    the listener throw before it sets anything: the published state does
    not change, [error] included. *)
Theorem connect_event_publishes (debug : bool) (view : SdkView)
  (p : ProviderRef) (m : Machine) (connectParam : Js.value) :
  reachable debug m -> provider_listeners m = Some p ->
  let c := published m in
  let c' := published (step debug view (FromProvider p (Connect connectParam)) m) in
  (Js.nullish connectParam = false ->
   c' = {| ctx_sdk := ctx_sdk c; ctx_ready := ctx_ready c;
           ctx_connected := true;
           ctx_readOnlyCalls := ctx_readOnlyCalls c;
           ctx_provider := ctx_provider c;
           ctx_connecting := false;
           ctx_account := ctx_account c; ctx_balance := ctx_balance c;
           ctx_extensionActive := ctx_extensionActive c;
           ctx_chainId := Js.get connectParam "chainId";
           ctx_error := Js.Undefined;
           ctx_status := ctx_status c |}) /\
  (Js.nullish connectParam = true -> c' = c).
Proof.
  intros R L. cbv zeta.
  rewrite (step_from_provider_same_account debug view p
             (Connect connectParam) m (reachable_quiescent _ _ R) L).
  - split; intros N; open_machine m; destruct debug; eff_unfold; cbn;
      rewrite N; reflexivity.
  - open_machine m; destruct debug; eff_unfold; cbn;
      destruct (Js.nullish connectParam); reflexivity.
Qed.

Lemma connect_event_publishes_witness :
  let m := step false sample_view
             (FromProvider 0 (Disconnect (Js.Str "lost")))
             (sample_ready false) in
  ctx_chainId
    (published
       (step false sample_view
          (FromProvider 0 (Connect (Js.Object 1 [("chainId", Js.Str "0x5")])))
          m)) = Js.Str "0x5" /\
  ctx_error (published (step false sample_view (FromProvider 0 (Connect Js.Null)) m))
  = Js.Str "lost".
Proof.
  assert (R : reachable false
                (step false sample_view
                   (FromProvider 0 (Disconnect (Js.Str "lost")))
                   (sample_ready false)))
    by apply reach_step, sample_ready_reachable.
  cbv zeta. split.
  - destruct (connect_event_publishes false sample_view 0 _
                (Js.Object 1 [("chainId", Js.Str "0x5")]) R
                ltac:(vm_compute; reflexivity)) as [H _].
    rewrite (H eq_refl). reflexivity.
  - destruct (connect_event_publishes false sample_view 0 _ Js.Null R
                ltac:(vm_compute; reflexivity)) as [_ H].
    rewrite (H eq_refl). vm_compute. reflexivity.
Defined.

(** X3.  An [_initialized] event publishes [account] equal to the
    [selectedAddress] (unset when falsy) of the provider the listeners were
    attached to, whichever provider the SDK holds active by then; it
    publishes [connecting] false, [connected] true and [error] unset, and
    leaves [chainId] as it was. *)
Theorem initialized_event_reads_subscribed_provider (debug : bool)
  (view : SdkView) (p : ProviderRef) (m : Machine) :
  reachable debug m -> provider_listeners m = Some p ->
  let m' := step debug view (FromProvider p Initialized) m in
  ctx_account (published m') = Js.or (selectedAddress view p) Js.Undefined /\
  ctx_connecting (published m') = false /\
  ctx_connected (published m') = true /\
  ctx_error (published m') = Js.Undefined /\
  ctx_chainId (published m') = ctx_chainId (published m).
Proof.
  intros R L. cbv zeta. unfold published, context_value.
  cbn [ctx_account ctx_connecting ctx_connected ctx_error ctx_chainId].
  destruct (step_from_provider debug view p Initialized m
              (reachable_quiescent _ _ R) L) as [[-> | [_ ->]] _];
    open_machine m; destruct debug; cbn; auto.
Qed.

Lemma initialized_event_reads_subscribed_provider_witness :
  let view := mkView 1 (fun q => if Nat.eqb q 0 then Js.Str "0x0a" else Js.Str "0x0b")
                (fun _ => Js.Null) (fun _ => true) false false in
  ctx_account
    (published (step false view (FromProvider 0 Initialized)
                  (sample_ready false)))
  = Js.Str "0x0a".
Proof.
  apply (initialized_event_reads_subscribed_provider false
           (mkView 1 (fun q => if Nat.eqb q 0 then Js.Str "0x0a" else Js.Str "0x0b")
              (fun _ => Js.Null) (fun _ => true) false false)
           0 (sample_ready false) (sample_ready_reachable false)
           ltac:(vm_compute; reflexivity)).
Defined.

(** X4.  A [disconnect] event forgets nothing but the connection: [account],
    [chainId], [balance], [provider] and every other published field keep
    their values; only [connecting], [connected] and [error] are written. *)
Theorem disconnect_event_keeps_account_and_chain (debug : bool)
  (view : SdkView) (p : ProviderRef) (m : Machine) (reason : Js.value) :
  reachable debug m -> provider_listeners m = Some p ->
  let c := published m in
  published (step debug view (FromProvider p (Disconnect reason)) m)
  = {| ctx_sdk := ctx_sdk c; ctx_ready := ctx_ready c;
       ctx_connected := false;
       ctx_readOnlyCalls := ctx_readOnlyCalls c;
       ctx_provider := ctx_provider c;
       ctx_connecting := false;
       ctx_account := ctx_account c; ctx_balance := ctx_balance c;
       ctx_extensionActive := ctx_extensionActive c;
       ctx_chainId := ctx_chainId c;
       ctx_error := reason;
       ctx_status := ctx_status c |}.
Proof.
  intros R L. cbv zeta.
  rewrite (step_from_provider_same_account debug view p (Disconnect reason) m
             (reachable_quiescent _ _ R) L);
    open_machine m; destruct debug; reflexivity.
Qed.

Lemma disconnect_event_keeps_account_and_chain_witness :
  let m' := step false sample_view
              (FromProvider 0 (Disconnect (Js.Str "lost")))
              (sample_ready false) in
  ctx_account (published m') = Js.Str "0xabc" /\
  ctx_connected (published m') = false.
Proof.
  pose proof (disconnect_event_keeps_account_and_chain false sample_view 0
                (sample_ready false) (Js.Str "lost")
                (sample_ready_reachable false)
                ltac:(vm_compute; reflexivity)) as H.
  cbv zeta in *. rewrite H. vm_compute. split; reflexivity.
Defined.

(** X5.  No event of the provider touches [sdk], [ready], [readOnlyCalls],
    [provider], [status] or [extensionActive], nor the re-subscription
    counter, nor which listeners are attached: the six listeners only ever
    write [connecting], [connected], [account], [chainId], [error] and,
    through the balance effect, [balance]. *)
Theorem provider_events_keep_sdk_fields (debug : bool) (view : SdkView)
  (p : ProviderRef) (ev : ProviderEvent) (m : Machine) :
  reachable debug m -> provider_listeners m = Some p ->
  let m' := step debug view (FromProvider p ev) m in
  ctx_sdk (published m') = ctx_sdk (published m) /\
  ctx_ready (published m') = ctx_ready (published m) /\
  ctx_readOnlyCalls (published m') = ctx_readOnlyCalls (published m) /\
  ctx_provider (published m') = ctx_provider (published m) /\
  ctx_status (published m') = ctx_status (published m) /\
  ctx_extensionActive (published m') = ctx_extensionActive (published m) /\
  trigger (hooks m') = trigger (hooks m) /\
  provider_listeners m' = Some p /\
  status_listener m' = status_listener m /\
  provider_update_listener m' = provider_update_listener m.
Proof.
  intros R L. cbv zeta.
  rewrite (step_from_provider_exact debug view p ev m
             (reachable_quiescent _ _ R) L). cbv zeta.
  destruct (Js.same_value _ _);
    open_machine m; cbn in L; subst;
    destruct ev; eff_unfold; cbn; eff_cases.
Qed.

Lemma provider_events_keep_sdk_fields_witness :
  let m' := step false sample_view
              (FromProvider 0 (AccountsChanged (Js.Array 1 [])))
              (sample_ready false) in
  ctx_ready (published m') = true /\ ctx_provider (published m') = Some 0.
Proof.
  destruct (provider_events_keep_sdk_fields false sample_view 0
              (AccountsChanged (Js.Array 1 [])) (sample_ready false)
              (sample_ready_reachable false) ltac:(vm_compute; reflexivity))
    as (_ & Hr & _ & Hp & _).
  cbv zeta. rewrite Hr, Hp. vm_compute. split; reflexivity.
Defined.

(** Case analysis on an instance, naming its fields. *)
Ltac fields_of m :=
  destruct m as [f_hooks f_options f_rendered f_constructed f_inits
                   f_pending f_listeners f_status_l f_update_l f_requests
                   f_console];
  destruct f_hooks as [f_sdk f_ready f_readOnly f_connecting f_connected
                         f_trigger f_chainId f_balance f_account f_error
                         f_provider f_status f_extension f_hasInit].

Lemma reachable_init_phase (debug : bool) (m : Machine) :
  reachable debug m -> init_phase m.
Proof.
  apply reachable_preserves; unfold init_phase.
  - intros d m0 H. open_machine m0. exact H.
  - intros view p c m0 H. open_machine m0. cbn in H.
    destruct H as (-> & H1 & H2).
    commit_cases p c; eff_unfold; cbn; eff_cases;
      intuition (try discriminate; try congruence).
  - intros view e m0 H. open_machine m0. cbn in H.
    destruct H as (-> & H1 & H2).
    destruct e as [q ev| | | | | | |]; [destruct ev| | | | | | |];
      eff_unfold; cbn; eff_cases;
      intuition (try discriminate; try congruence).
  - intros strict view options. unfold first_commit. eff_unfold. cbn.
    destruct debug, strict; cbn;
      intuition (try discriminate; try congruence).
Qed.

(** Settling keeps what every commit of the pending render keeps. *)
Lemma settle_restores (P : Machine -> Prop) (debug : bool) (view : SdkView) :
  (forall m, P m ->
             P (run (commit debug view (rendered m) (deps_of m))
                  (with_rendered (deps_of m) m))) ->
  forall fuel m, P m -> P (settle fuel debug view m).
Proof.
  intros Hc. induction fuel as [|fuel IH]; intros m Hm; cbn [settle];
    [exact Hm|].
  destruct (deps_changed (rendered m) (deps_of m)); [|exact Hm].
  apply IH, Hc, Hm.
Qed.

Lemma commit_subscriptions (debug : bool) (view : SdkView) (m : Machine) :
  subscriptions_pending m ->
  let m2 := run (commit debug view (rendered m) (deps_of m))
              (with_rendered (deps_of m) m) in
  init_phase m2 /\ subscriptions_follow_readiness m2.
Proof.
  unfold subscriptions_pending, init_phase, subscriptions_follow_readiness.
  intros [(Hi & H1 & H2) (H0 & _ & _ & H)]. cbv zeta.
  unfold commit, listeners_changed.
  destruct (provider_update_changed (rendered m) (deps_of m)) eqn:Hp.
  - rewrite orb_true_r. clear H Hp.
    fields_of m. cbn in *. subst.
    destruct f_ready, f_sdk;
      try (specialize (H1 eq_refl); discriminate);
      try (destruct (H2 eq_refl) as [[] _]; reflexivity);
      try specialize (H0 eq_refl); try specialize (H2 eq_refl);
      clear H1; subst;
      destruct (account_changed _ _), (sdkOptions_changed _ _);
      eff_unfold; cbn; eff_cases;
      intuition (try discriminate; try congruence).
  - specialize (H eq_refl). destruct H as (Hu & Hs & Hl & Hr & Hn).
    rewrite orb_false_r. clear Hp.
    destruct (negb _);
      fields_of m; cbn in *; subst;
      destruct f_ready, f_sdk;
      try (specialize (H1 eq_refl); discriminate);
      try (destruct (H2 eq_refl) as [[] _]; reflexivity);
      try specialize (H0 eq_refl); try specialize (H2 eq_refl);
      try specialize (Hn eq_refl); clear H1; subst;
      destruct (account_changed _ _), (sdkOptions_changed _ _);
      eff_unfold; cbn; eff_cases;
      intuition (try discriminate; try congruence).
Qed.

Lemma quiescent_provider_update (m : Machine) :
  quiescent m -> provider_update_changed (rendered m) (deps_of m) = false.
Proof.
  unfold quiescent, deps_changed, listeners_changed. intros H.
  apply orb_false_elim in H. destruct H as [_ H].
  apply orb_false_elim in H. tauto.
Qed.

(** A commit brings the subscriptions up to date. *)
Lemma commit_pending (debug : bool) (view : SdkView) (m : Machine) :
  subscriptions_pending m ->
  subscriptions_pending
    (run (commit debug view (rendered m) (deps_of m))
       (with_rendered (deps_of m) m)).
Proof.
  intros H. destruct (commit_subscriptions debug view m H) as [I S].
  destruct (commit_keeps debug view (rendered m) (deps_of m)
              (with_rendered (deps_of m) m)) as (_ & Kr & _ & Ks & Kd).
  assert (E : rendered (with_rendered (deps_of m) m) = deps_of m /\
              hooks (with_rendered (deps_of m) m) = hooks m)
    by (destruct m; cbn; auto).
  destruct E as [Er Eh]. rewrite Er in Kr. rewrite Eh in Ks, Kd.
  destruct H as [(_ & I1 & _) _].
  split; [exact I|]. split; [apply S|].
  rewrite Kr, Ks, Kd. unfold deps_of. cbn [d_ready d_sdk].
  split; [auto|]. split; [exact I1|]. intros _. exact S.
Qed.

(** No listener lets the subscriptions lag further: until the next commit
    they stay those of the last one, and only [init()] resolving makes that
    commit re-run the provider-update effect. *)
Lemma dispatch_subscriptions (debug : bool) (view : SdkView) (e : Event)
  (m : Machine) :
  subscriptions_pending m ->
  subscriptions_pending (run (dispatch debug view e) m).
Proof.
  unfold subscriptions_pending, init_phase, subscriptions_follow_readiness,
    provider_update_changed, deps_of.
  fields_of m. destruct f_rendered as [ra rop rt rs rr]. cbn.
  intros ((-> & H1 & H2) & H0 & Hd1 & Hd2 & H).
  destruct f_ready, rr.
  - destruct (Hd1 eq_refl) as [_ ->]. clear Hd1 Hd2 H0 H1.
    rewrite sdk_eqb_refl in H. cbn in H.
    destruct (H eq_refl) as (-> & -> & -> & H3 & _). clear H.
    destruct (H2 eq_refl) as [Hs ->]. clear H2.
    destruct f_sdk as [s|]; [|congruence]. clear Hs.
    (destruct e as [q ev| | | | | | |]; [destruct ev| | | | | | |]);
      eff_unfold; cbn; eff_cases;
      rewrite ?Nat.eqb_refl, ?andb_true_r, ?andb_false_r; cbn;
      intuition (try discriminate; try congruence).
  - rewrite (Hd2 eq_refl) in *. clear Hd1 Hd2 H0 H1 H.
    destruct (H2 eq_refl) as [Hs ->]. clear H2.
    destruct f_sdk as [s|]; [|congruence]. clear Hs.
    (destruct e as [q ev| | | | | | |]; [destruct ev| | | | | | |]);
      eff_unfold; cbn; eff_cases;
      rewrite ?Nat.eqb_refl, ?andb_true_r, ?andb_false_r; cbn;
      intuition (try discriminate; try congruence).
  - destruct (Hd1 eq_refl); discriminate.
  - rewrite (Hd2 eq_refl) in *. rewrite (H1 eq_refl) in *.
    rewrite (H0 eq_refl) in *. cbn in H.
    destruct (H eq_refl) as (-> & -> & -> & _). clear.
    (destruct e as [q ev| | | | | | |]; [destruct ev| | | | | | |]);
      eff_unfold; cbn; eff_cases;
      rewrite ?Nat.eqb_refl, ?andb_true_r, ?andb_false_r; cbn;
      intuition (try discriminate; try congruence).
Qed.

Lemma reachable_pending (debug : bool) (m : Machine) :
  reachable debug m -> subscriptions_pending m.
Proof.
  induction 1 as [strict view options | view es m R IH].
  - unfold mount. apply settle_restores; [apply commit_pending|].
    unfold subscriptions_pending, init_phase,
      subscriptions_follow_readiness, first_commit.
    destruct debug, strict; vm_compute;
      intuition (try discriminate; try congruence).
  - unfold step_batch. apply settle_restores; [apply commit_pending|].
    apply run_listeners_preserves; [|exact IH].
    intros v e m0. apply dispatch_subscriptions.
Qed.

Lemma reachable_subscriptions (debug : bool) (m : Machine) :
  reachable debug m -> subscriptions_follow_readiness m.
Proof.
  intros R.
  apply (reachable_pending debug m R), quiescent_provider_update,
    (reachable_quiescent debug), R.
Qed.

(** X6.  In every reachable state the six provider listeners are attached
    to exactly the published [provider] (to none while there is none), and
    the service-status and provider-update listeners are attached exactly
    when the instance is [ready]; a ready instance publishes a provider and
    an SDK, an instance that is not ready publishes neither. *)
Theorem listeners_follow_published_provider (debug : bool) (m : Machine) :
  reachable debug m ->
  provider_listeners m = ctx_provider (published m) /\
  status_listener m = ctx_ready (published m) /\
  provider_update_listener m = ctx_ready (published m) /\
  (ctx_ready (published m) = true ->
   ctx_provider (published m) <> None /\ ctx_sdk (published m) <> None) /\
  (ctx_ready (published m) = false ->
   ctx_provider (published m) = None /\ ctx_sdk (published m) = None).
Proof.
  intros R.
  destruct (reachable_subscriptions debug m R) as (Hu & Hs & Hl & Hr & Hn).
  destruct (reachable_init_phase debug m R) as (_ & I1 & I2).
  unfold published, context_value. cbn [ctx_provider ctx_ready ctx_sdk].
  repeat split; auto. apply I2. assumption.
Qed.

Lemma listeners_follow_published_provider_witness :
  provider_listeners (sample_ready true) = Some 0 /\
  ctx_provider (published (sample_ready true)) = Some 0 /\
  provider_listeners (mount true true sample_view 0) = None.
Proof.
  destruct (listeners_follow_published_provider true (sample_ready true)
              (sample_ready_reachable true)) as (H & _).
  destruct (listeners_follow_published_provider true
              (mount true true sample_view 0)
              (reach_mount true true sample_view 0)) as (H' & _).
  rewrite H, H'. vm_compute. repeat split.
Defined.

(** X7.  Until [init()] has resolved no listener is attached: every event
    of a provider, every service-status event and every provider update
    leaves the whole instance, console included, as it was. *)
Theorem events_before_ready_are_ignored (debug : bool) (view : SdkView)
  (m : Machine) :
  reachable debug m -> ctx_ready (published m) = false ->
  (forall (p : ProviderRef) (ev : ProviderEvent),
      step debug view (FromProvider p ev) m = m) /\
  (forall payload : Js.value,
      step debug view (ServiceStatus payload) m = m) /\
  (forall t : PROVIDER_UPDATE_TYPE, step debug view (ProviderUpdate t) m = m).
Proof.
  intros R N. pose proof (reachable_quiescent _ _ R) as Q.
  destruct (reachable_subscriptions debug m R) as (Hu & Hs & Hl & _ & Hn).
  unfold published, context_value in N. cbn in N.
  rewrite N in Hu, Hs. rewrite (Hn N) in Hl.
  assert (D : forall e, run (dispatch debug view e) m = m ->
                        step debug view e m = m).
  { intros e E. unfold step. rewrite E. now apply settle_of_quiescent. }
  repeat split; intros; apply D; clear D Q R;
    fields_of m; cbn in *; subst; reflexivity.
Qed.

Lemma events_before_ready_are_ignored_witness :
  step true sample_view
    (FromProvider 0 (AccountsChanged (Js.Array 1 [Js.Str "0x01"])))
    (mount true false sample_view 0)
  = mount true false sample_view 0.
Proof.
  apply (events_before_ready_are_ignored true sample_view
           (mount true false sample_view 0)
           (reach_mount true false sample_view 0)).
  vm_compute. reflexivity.
Defined.

(** A commit that re-runs the subscription effect on a ready instance. *)
Lemma commit_attaches (debug : bool) (view : SdkView) (p c : Deps)
  (s0 : SdkRef) (m : Machine) :
  listeners_changed p c = true -> sdkOptions_changed p c = false ->
  ready (hooks m) = true -> sdk (hooks m) = Some s0 ->
  let m2 := run (commit debug view p c) m in
  (extensionActive (hooks m2) = isExtensionActive view /\
   connected (hooks m2) = isConnected view (getProvider view) /\
   account (hooks m2)
   = Js.or (selectedAddress view (getProvider view)) Js.Undefined /\
   provider (hooks m2) = Some (getProvider view) /\
   provider_listeners m2 = Some (getProvider view) /\
   status_listener m2 = true /\
   provider_update_listener m2
   = (if provider_update_changed p c then true
      else provider_update_listener m)) /\
  (connecting (hooks m2) = connecting (hooks m) /\
   error (hooks m2) = error (hooks m) /\
   chainId (hooks m2) = chainId (hooks m) /\
   status (hooks m2) = status (hooks m) /\
   readOnlyCalls (hooks m2) = readOnlyCalls (hooks m) /\
   init_pending m2 = init_pending m).
Proof.
  intros Hl Ho Hr Hs. fields_of m. cbn in Hr, Hs. subst.
  unfold commit. rewrite Hl, Ho.
  destruct (provider_update_changed p c), (account_changed p c);
    eff_unfold; cbn; eff_cases.
Qed.

(** Settling a ready instance whose subscription effect is due: the effect
    re-reads the SDK and attaches the listeners to the provider that is
    active now; nothing else changes but, possibly, [balance]. *)
Lemma settle_attaches (debug : bool) (view : SdkView) (s0 : SdkRef)
  (m1 : Machine) :
  listeners_changed (rendered m1) (deps_of m1) = true ->
  sdkOptions_changed (rendered m1) (deps_of m1) = false ->
  ready (hooks m1) = true -> sdk (hooks m1) = Some s0 ->
  let m' := settle render_fuel debug view m1 in
  (extensionActive (hooks m') = isExtensionActive view /\
   connected (hooks m') = isConnected view (getProvider view) /\
   account (hooks m')
   = Js.or (selectedAddress view (getProvider view)) Js.Undefined /\
   provider (hooks m') = Some (getProvider view) /\
   provider_listeners m' = Some (getProvider view) /\
   status_listener m' = true /\
   provider_update_listener m'
   = (if provider_update_changed (rendered m1) (deps_of m1) then true
      else provider_update_listener m1)) /\
  (connecting (hooks m') = connecting (hooks m1) /\
   error (hooks m') = error (hooks m1) /\
   chainId (hooks m') = chainId (hooks m1) /\
   status (hooks m') = status (hooks m1) /\
   readOnlyCalls (hooks m') = readOnlyCalls (hooks m1) /\
   init_pending m' = init_pending m1) /\
  (sdk (hooks m') = sdk (hooks m1) /\ ready (hooks m') = ready (hooks m1) /\
   trigger (hooks m') = trigger (hooks m1)).
Proof.
  intros Hl Ho Hrd Hs. cbv zeta. unfold render_fuel. rewrite settle_unfold.
  replace (deps_changed (rendered m1) (deps_of m1)) with true
    by (unfold deps_changed; rewrite Hl; symmetry; apply orb_true_r).
  set (m1' := with_rendered (deps_of m1) m1).
  assert (E1 : rendered m1' = deps_of m1 /\ hooks m1' = hooks m1
               /\ sdkOptions m1' = sdkOptions m1
               /\ provider_update_listener m1' = provider_update_listener m1
               /\ init_pending m1' = init_pending m1)
    by (unfold m1'; destruct m1; cbn; auto).
  destruct E1 as (E1r & E1h & E1o & E1u & E1p).
  assert (Hrd1 : ready (hooks m1') = true) by (rewrite E1h; exact Hrd).
  assert (Hs1 : sdk (hooks m1') = Some s0) by (rewrite E1h; exact Hs).
  destruct (commit_attaches debug view (rendered m1) (deps_of m1) s0 m1'
              Hl Ho Hrd1 Hs1) as [A B].
  destruct (commit_keeps debug view (rendered m1) (deps_of m1) m1')
    as (Ko & Kr & Kt & Ks & Kd).
  set (m2 := run (commit debug view (rendered m1) (deps_of m1)) m1') in *.
  rewrite settle_account_only_fuel;
    [| rewrite Kr, E1r, Ko, E1o; reflexivity
     | rewrite Kr, E1r, Kt, E1h; reflexivity
     | rewrite Kr, E1r, Ks, E1h; reflexivity
     | rewrite Kr, E1r, Kd, E1h; reflexivity ].
  rewrite E1h, ?E1u, ?E1p in *.
  destruct (Js.same_value _ _); [tauto|].
  destruct A as (A1 & A2 & A3 & A4 & A5 & A6 & A7).
  destruct B as (B1 & B2 & B3 & B4 & B5 & B6).
  set (u := if provider_update_changed (rendered m1) (deps_of m1)
            then true else provider_update_listener m1) in *.
  clearbody m2 u.
  clear - A1 A2 A3 A4 A5 A6 A7 B1 B2 B3 B4 B5 B6 Kt Ks Kd.
  fields_of m2. cbn in *. subst.
  eff_unfold; cbn; eff_cases.
Qed.

(** X8.  When [init()] resolves the instance becomes ready in one step: it
    publishes the SDK and its read-only capability, reads
    [extensionActive], [connected] and [account] from the SDK and its active
    provider, publishes that provider, and attaches the provider listeners
    to it and the service-status and provider-update listeners to the SDK.
    [chainId] and [error] are not read at that point: they stay as they
    were. *)
Theorem init_resolved_subscribes (debug : bool) (view : SdkView)
  (m : Machine) (s0 : SdkRef) :
  reachable debug m -> init_pending m = Some s0 ->
  let m' := step debug view InitResolved m in
  (ctx_ready (published m') = true /\
   ctx_sdk (published m') = Some s0 /\
   ctx_readOnlyCalls (published m') = hasReadOnlyRPCCalls view) /\
  (ctx_extensionActive (published m') = isExtensionActive view /\
   ctx_connected (published m') = isConnected view (getProvider view) /\
   ctx_account (published m')
   = Js.or (selectedAddress view (getProvider view)) Js.Undefined /\
   ctx_provider (published m') = Some (getProvider view)) /\
  (provider_listeners m' = Some (getProvider view) /\
   status_listener m' = true /\
   provider_update_listener m' = true /\
   init_pending m' = None) /\
  (ctx_chainId (published m') = ctx_chainId (published m) /\
   ctx_error (published m') = ctx_error (published m)).
Proof.
  intros R P. cbv zeta.
  destruct (reachable_init_phase debug m R) as (_ & _ & I2).
  destruct (quiescent_spec m (reachable_quiescent _ _ R))
    as (_ & Qo & Qt & Qs & Qr).
  assert (Hr : ready (hooks m) = false).
  { destruct (ready (hooks m)); [|reflexivity].
    destruct (I2 eq_refl) as [_ N]. congruence. }
  set (m1 := run (dispatch debug view InitResolved) m).
  assert (E : hooks m1
              = setReadOnlyCalls (hasReadOnlyRPCCalls view)
                  (setReady true (setSDK (Some s0) (hooks m)))
              /\ rendered m1 = rendered m /\ sdkOptions m1 = sdkOptions m
              /\ init_pending m1 = None).
  { unfold m1. clear - P. fields_of m. cbn in P. subst.
    eff_unfold. cbn. auto. }
  destruct E as (Eh & Er & Eo & Ep).
  assert (Hp : provider_update_changed (rendered m1) (deps_of m1) = true).
  { unfold provider_update_changed, deps_of. cbn.
    rewrite Er, Qr, Hr, Eh. destruct (hooks m); cbn.
    now rewrite andb_false_r. }
  assert (Hl : listeners_changed (rendered m1) (deps_of m1) = true)
    by (unfold listeners_changed; rewrite Hp; apply orb_true_r).
  assert (Ho : sdkOptions_changed (rendered m1) (deps_of m1) = false).
  { unfold sdkOptions_changed, deps_of. cbn.
    now rewrite Er, Eo, Qo, Nat.eqb_refl. }
  assert (Hrd1 : ready (hooks m1) = true)
    by (rewrite Eh; destruct (hooks m); reflexivity).
  assert (Hs1 : sdk (hooks m1) = Some s0)
    by (rewrite Eh; destruct (hooks m); reflexivity).
  destruct (settle_attaches debug view s0 m1 Hl Ho Hrd1 Hs1)
    as ((A1 & A2 & A3 & A4 & A5 & A6 & A7) &
        (B1 & B2 & B3 & B4 & B5 & B6) & (C1 & C2 & C3)).
  rewrite Hp in A7.
  unfold step. fold m1. unfold published, context_value.
  cbn [ctx_ready ctx_sdk ctx_readOnlyCalls ctx_extensionActive ctx_connected
         ctx_account ctx_provider ctx_chainId ctx_error].
  rewrite A1, A2, A3, A4, A5, A6, A7, B2, B3, B5, B6, C1, C2, Hrd1, Hs1, Ep,
    Eh.
  destruct (hooks m); cbn. auto 20.
Qed.

Lemma init_resolved_subscribes_witness :
  let m' := step false sample_view InitResolved
              (mount false true sample_view 0) in
  ctx_ready (published m') = true /\
  ctx_account (published m') = Js.Str "0xabc" /\
  provider_listeners m' = Some 0.
Proof.
  destruct (init_resolved_subscribes false sample_view
              (mount false true sample_view 0) 1
              (reach_mount false true sample_view 0)
              ltac:(vm_compute; reflexivity))
    as ((H1 & _) & (_ & _ & H2 & _) & (H3 & _) & _).
  cbv zeta. rewrite H1, H2, H3. repeat split.
Defined.

(** An invariant that every listener and every commit preserves is
    preserved by every run. *)
Lemma steps_preserve (P : Machine -> Prop) (debug : bool) :
  (forall d m, P m -> P (with_rendered d m)) ->
  (forall view p c m, P m -> P (run (commit debug view p c) m)) ->
  (forall view e m, P m -> P (run (dispatch debug view e) m)) ->
  forall tr m, P m -> P (steps debug tr m).
Proof.
  intros Hr Hc Hd. induction tr as [|[view e] tr IH]; intros m Hm;
    cbn [steps]; [exact Hm|].
  apply IH. unfold step. apply settle_preserves; auto.
Qed.

Lemma never_ready_steps (debug : bool) (tr : list (SdkView * Event))
  (m : Machine) : never_ready m -> never_ready (steps debug tr m).
Proof.
  apply steps_preserve; unfold never_ready.
  - intros d m0 H. fields_of m0. exact H.
  - intros view p c m0 H. fields_of m0. cbn in H.
    destruct H as (-> & -> & -> & ->).
    commit_cases p c; eff_unfold; cbn; eff_cases.
  - intros view e m0 H. fields_of m0. cbn in H.
    destruct H as (-> & -> & -> & ->).
    destruct e as [q ev| | | | | | |]; [destruct ev| | | | | | |];
      eff_unfold; cbn; eff_cases.
Qed.

(** X9.  A rejected [init()] is final: nothing catches the rejection and
    the [hasInit] guard prevents a second attempt, so whatever happens
    afterwards the instance is never [ready], publishes no SDK, and has
    still constructed one SDK and called [init()] once. *)
Theorem rejected_init_is_never_ready (debug : bool) (view : SdkView)
  (m : Machine) (s0 : SdkRef) (tr : list (SdkView * Event)) :
  reachable debug m -> init_pending m = Some s0 ->
  let m' := steps debug tr (step debug view InitRejected m) in
  ctx_ready (published m') = false /\ ctx_sdk (published m') = None /\
  sdk_constructed m' = 1 /\ init_calls m' = 1.
Proof.
  intros R P. cbv zeta.
  assert (N : never_ready (step debug view InitRejected m)).
  { destruct (reachable_init_phase debug m R) as (Hi & I1 & I2).
    assert (Hr : ready (hooks m) = false).
    { destruct (ready (hooks m)); [|reflexivity].
      destruct (I2 eq_refl) as [_ N]. congruence. }
    specialize (I1 Hr).
    unfold step. apply settle_preserves; unfold never_ready.
    - intros d m0 H. fields_of m0. exact H.
    - intros p c m0 H. fields_of m0. cbn in H.
      destruct H as (-> & -> & -> & ->).
      commit_cases p c; eff_unfold; cbn; eff_cases.
    - clear - Hi I1 Hr. fields_of m. cbn in *. subst. cbn. auto. }
  destruct (never_ready_steps debug tr _ N) as (_ & _ & Hr & Hs).
  assert (R' : reachable debug (steps debug tr (step debug view InitRejected m)))
    by apply reachable_steps, reach_step, R.
  destruct (reachable_initialised_once debug _ R') as (_ & C1 & C2).
  unfold published, context_value. cbn [ctx_ready ctx_sdk]. auto.
Qed.

Lemma rejected_init_is_never_ready_witness :
  let m' := steps false
              [(sample_view, InitResolved);
               (sample_view, Rerender 7);
               (sample_view, ProviderUpdate EXTENSION)]
              (step false sample_view InitRejected
                 (mount false true sample_view 0)) in
  ctx_ready (published m') = false /\ ctx_sdk (published m') = None /\
  sdk_constructed m' = 1 /\ init_calls m' = 1.
Proof.
  apply (rejected_init_is_never_ready false sample_view
           (mount false true sample_view 0) 1
           [(sample_view, InitResolved); (sample_view, Rerender 7);
            (sample_view, ProviderUpdate EXTENSION)]
           (reach_mount false true sample_view 0)).
  vm_compute. reflexivity.
Defined.

Lemma settled_sdk_steps (debug : bool) (s0 : option SdkRef) (ro0 : bool)
  (tr : list (SdkView * Event)) (m : Machine) :
  (hasInit (hooks m) = true /\ init_pending m = None /\
   ready (hooks m) = true /\ sdk (hooks m) = s0 /\
   readOnlyCalls (hooks m) = ro0) ->
  let m' := steps debug tr m in
  hasInit (hooks m') = true /\ init_pending m' = None /\
  ready (hooks m') = true /\ sdk (hooks m') = s0 /\
  readOnlyCalls (hooks m') = ro0.
Proof.
  cbv zeta. revert tr m.
  apply (steps_preserve
           (fun m => hasInit (hooks m) = true /\ init_pending m = None /\
                     ready (hooks m) = true /\ sdk (hooks m) = s0 /\
                     readOnlyCalls (hooks m) = ro0)).
  - intros d m0 H. fields_of m0. exact H.
  - intros view p c m0 H. fields_of m0. cbn in H.
    destruct H as (-> & -> & -> & -> & ->).
    commit_cases p c; eff_unfold; cbn; eff_cases.
  - intros view e m0 H. fields_of m0. cbn in H.
    destruct H as (-> & -> & -> & -> & ->).
    destruct e as [q ev| | | | | | |]; [destruct ev| | | | | | |];
      eff_unfold; cbn; eff_cases.
Qed.

(** X10.  Readiness is permanent and the SDK is fixed: once an instance is
    [ready], it stays ready through every later event, and the published
    [sdk] and [readOnlyCalls] never change again. *)
Theorem ready_is_permanent (debug : bool) (m : Machine)
  (tr : list (SdkView * Event)) :
  reachable debug m -> ctx_ready (published m) = true ->
  let m' := steps debug tr m in
  ctx_ready (published m') = true /\
  ctx_sdk (published m') = ctx_sdk (published m) /\
  ctx_readOnlyCalls (published m') = ctx_readOnlyCalls (published m).
Proof.
  intros R Hr. cbv zeta.
  destruct (reachable_init_phase debug m R) as (Hi & _ & I2).
  unfold published, context_value in *. cbn in *.
  destruct (I2 Hr) as [_ Hp].
  destruct (settled_sdk_steps debug (sdk (hooks m)) (readOnlyCalls (hooks m))
              tr m) as (_ & _ & H1 & H2 & H3); auto.
Qed.

Lemma ready_is_permanent_witness :
  let m' := steps false
              [(sample_view, FromProvider 0 (Disconnect (Js.Str "lost")));
               (sample_view_idle, ProviderUpdate TERMINATE);
               (sample_view, InitResolved)]
              (sample_ready false) in
  ctx_ready (published m') = true /\ ctx_sdk (published m') = Some 1.
Proof.
  destruct (ready_is_permanent false (sample_ready false)
              [(sample_view, FromProvider 0 (Disconnect (Js.Str "lost")));
               (sample_view_idle, ProviderUpdate TERMINATE);
               (sample_view, InitResolved)]
              (sample_ready_reachable false) ltac:(vm_compute; reflexivity))
    as (H1 & H2 & _).
  cbv zeta. rewrite H1, H2. vm_compute. split; reflexivity.
Defined.

(** X11.  A balance response is stored whatever the account is by then: the
    [then] callback does not look at the current [account], so a response
    for an earlier account overwrites [balance] even after the account has
    changed or has become absent.  Nothing else published changes. *)
Theorem balance_response_ignores_current_account (debug : bool)
  (view : SdkView) (m : Machine) (i : nat) (acct accountBalance : Js.value) :
  reachable debug m -> nth_error (balance_requests m) i = Some acct ->
  let c := published m in
  let m' := step debug view (BalanceResolved i accountBalance) m in
  published m'
  = {| ctx_sdk := ctx_sdk c; ctx_ready := ctx_ready c;
       ctx_connected := ctx_connected c;
       ctx_readOnlyCalls := ctx_readOnlyCalls c;
       ctx_provider := ctx_provider c;
       ctx_connecting := ctx_connecting c;
       ctx_account := ctx_account c;
       ctx_balance := accountBalance;
       ctx_extensionActive := ctx_extensionActive c;
       ctx_chainId := ctx_chainId c;
       ctx_error := ctx_error c;
       ctx_status := ctx_status c |} /\
  balance_requests m' = drop_nth i (balance_requests m).
Proof.
  intros R H. cbv zeta. pose proof (reachable_quiescent _ _ R) as Q.
  set (m1 := run (dispatch debug view (BalanceResolved i accountBalance)) m).
  assert (E : hooks m1 = setBalance accountBalance (hooks m)
              /\ rendered m1 = rendered m /\ sdkOptions m1 = sdkOptions m
              /\ balance_requests m1 = drop_nth i (balance_requests m)).
  { unfold m1. clear - H. fields_of m. cbn in H.
    eff_unfold. cbn. rewrite H. destruct debug; cbn; auto. }
  destruct E as (Eh & Er & Eo & Eb).
  assert (Q1 : quiescent m1).
  { unfold quiescent, deps_of in *. rewrite Er, Eo, Eh.
    destruct m as [h ? ? ? ? ? ? ? ? ? ?]; destruct h; exact Q. }
  unfold step. fold m1. rewrite (settle_of_quiescent _ _ _ _ Q1).
  split; [|exact Eb].
  unfold published, context_value. rewrite Eh. destruct (hooks m).
  reflexivity.
Qed.

Lemma balance_response_ignores_current_account_witness :
  let m := step true sample_view
             (FromProvider 0 (AccountsChanged (Js.Array 1 [])))
             (sample_ready true) in
  let m' := step true sample_view (BalanceResolved 0 (Js.Str "0x10")) m in
  ctx_account (published m) = Js.Undefined /\
  ctx_balance (published m) = Js.Undefined /\
  ctx_account (published m') = Js.Undefined /\
  ctx_balance (published m') = Js.Str "0x10".
Proof.
  assert (R : reachable true
                (step true sample_view
                   (FromProvider 0 (AccountsChanged (Js.Array 1 [])))
                   (sample_ready true)))
    by apply reach_step, sample_ready_reachable.
  destruct (balance_response_ignores_current_account true sample_view _ 0
              (Js.Str "0xabc") (Js.Str "0x10") R
              ltac:(vm_compute; reflexivity)) as [H _].
  cbv zeta in *. rewrite H. vm_compute. repeat split.
Defined.

(** The listeners of the provider never write [balance]. *)
Lemma on_provider_event_keeps_balance (debug : bool) (view : SdkView)
  (p : ProviderRef) (ev : ProviderEvent) (m : Machine) :
  balance (hooks (run (on_provider_event debug view p ev) m))
  = balance (hooks m).
Proof.
  fields_of m. destruct ev; eff_unfold; cbn; eff_cases.
Qed.

(** What a batch of events of the active provider leaves alone. *)
Lemma provider_batch_frame (debug : bool) (p : ProviderRef)
  (evs : list (SdkView * ProviderEvent)) (m : Machine) :
  provider_listeners m = Some p ->
  let m1 := run_listeners debug (provider_events p evs) m in
  rendered m1 = rendered m /\ sdkOptions m1 = sdkOptions m /\
  trigger (hooks m1) = trigger (hooks m) /\ sdk (hooks m1) = sdk (hooks m) /\
  ready (hooks m1) = ready (hooks m) /\
  provider_listeners m1 = Some p /\
  balance_requests m1 = balance_requests m /\
  balance (hooks m1) = balance (hooks m).
Proof.
  cbv zeta. unfold run_listeners, provider_events.
  revert m. induction evs as [|[v ev] evs IH]; intros m L;
    cbn [map fold_left fst snd]; [repeat split; exact L|].
  rewrite (dispatch_delivered debug v p ev m L).
  destruct (on_provider_event_frame debug v p ev m)
    as (Hr & Ho & Ht & Hs & Hrd & Hl & Hb).
  pose proof (on_provider_event_keeps_balance debug v p ev m) as Hba.
  set (m1 := run (on_provider_event debug v p ev) m) in *.
  assert (L1 : provider_listeners m1 = Some p) by congruence.
  destruct (IH m1 L1) as (Ir & Io & It & Is & Ird & Il & Ib & Iba).
  repeat split; congruence.
Qed.

(** A batch of events of the active provider, rendered: the listeners run,
    and the balance effect runs once if they left another account. *)
Lemma provider_batch_exact (debug : bool) (view : SdkView) (p : ProviderRef)
  (evs : list (SdkView * ProviderEvent)) (m : Machine) :
  quiescent m -> provider_listeners m = Some p ->
  let m1 := run_listeners debug (provider_events p evs) m in
  step_batch debug view (provider_events p evs) m
  = if Js.same_value (account (hooks m)) (account (hooks m1))
    then m1
    else run (balance_effect debug) (with_rendered (deps_of m1) m1).
Proof.
  intros Q L. cbv zeta. unfold step_batch.
  destruct (provider_batch_frame debug p evs m L)
    as (Hr & Ho & Ht & Hs & Hrd & _).
  destruct (quiescent_spec m Q) as (Qa & Qo & Qt & Qs & Qr).
  rewrite settle_account_only by congruence.
  rewrite Hr, (same_value_cong _ _ _ Qa). reflexivity.
Qed.

(** The account a batch leaves is the one of its last [accountsChanged]. *)
Lemma provider_batch_last_account (debug : bool) (p : ProviderRef)
  (evs : list (SdkView * ProviderEvent)) (v : SdkView)
  (newAccounts : Js.value) (m : Machine) :
  provider_listeners m = Some p ->
  account (hooks (run_listeners debug
                    (provider_events p
                       (evs ++ [(v, AccountsChanged newAccounts)])) m))
  = Js.opt_first newAccounts.
Proof.
  intros L. unfold provider_events. rewrite map_app.
  unfold run_listeners. rewrite fold_left_app. cbn [map fold_left fst snd].
  destruct (provider_batch_frame debug p evs m L)
    as (_ & _ & _ & _ & _ & L1 & _).
  unfold run_listeners, provider_events in L1.
  rewrite (dispatch_delivered debug v p _ _ L1).
  set (m1 := fold_left _ _ m). clearbody m1.
  fields_of m1. destruct debug; reflexivity.
Qed.

(** X12.  With the diagnostic flag on, take any events of the active
    provider handled before one render, the last of them [accountsChanged]
    with a payload that is not a string.  The account published then is the
    first entry of that payload.  When it is present and is not the account
    published before, exactly one balance request is issued, for it, and
    [balance] keeps showing the old value until the response arrives; when
    it is the account published before, no request is issued. *)
Theorem account_change_issues_one_request (view v : SdkView)
  (p : ProviderRef) (m : Machine) (evs : list (SdkView * ProviderEvent))
  (newAccounts : Js.value) :
  reachable true m -> provider_listeners m = Some p ->
  (Js.typeof newAccounts =? "string") = false ->
  let a := Js.opt_first newAccounts in
  let m' := step_batch true view
              (provider_events p (evs ++ [(v, AccountsChanged newAccounts)]))
              m in
  ctx_account (published m') = a /\
  (Js.truthy a = true ->
   Js.same_value (ctx_account (published m)) a = false ->
   balance_requests m' = balance_requests m ++ [a] /\
   ctx_balance (published m') = ctx_balance (published m)) /\
  (Js.same_value (ctx_account (published m)) a = true ->
   balance_requests m' = balance_requests m /\
   ctx_balance (published m') = ctx_balance (published m)).
Proof.
  intros R L _. cbv zeta.
  destruct (reachable_subscriptions true m R) as (_ & _ & Hl & _ & Hn).
  destruct (reachable_init_phase true m R) as (_ & _ & I2).
  assert (Hs : sdk (hooks m) <> None).
  { destruct (ready (hooks m)) eqn:Hr; [now apply I2|].
    rewrite (Hn eq_refl) in Hl. congruence. }
  rewrite (provider_batch_exact true view p _ m (reachable_quiescent _ _ R) L).
  cbv zeta.
  destruct (provider_batch_frame true p
              (evs ++ [(v, AccountsChanged newAccounts)]) m L)
    as (_ & _ & _ & Fs & _ & _ & Fb & Fba).
  pose proof (provider_batch_last_account true p evs v newAccounts m L) as Fa.
  set (m1 := run_listeners true _ m) in *. clearbody m1.
  rewrite <- Fs in Hs.
  unfold published, context_value. cbn [ctx_account ctx_balance].
  rewrite <- Fb, <- Fba, <- Fa. clear - Hs.
  fields_of m1. cbn in Hs. destruct f_sdk; [|congruence].
  cbn. split; [|split].
  - destruct (Js.same_value _ f_account); [reflexivity|].
    eff_unfold. cbn. destruct (Js.truthy f_account); reflexivity.
  - intros Ht Hd. rewrite Hd. eff_unfold. cbn. rewrite Ht. cbn. auto.
  - intros He. rewrite He. cbn. auto.
Qed.

Lemma account_change_issues_one_request_witness :
  let gone := (sample_view, AccountsChanged (Js.Array 1 [])) in
  let m' := step_batch true sample_view
              (provider_events 0
                 ([gone] ++
                  [(sample_view,
                    AccountsChanged (Js.Array 2 [Js.Str "0xdef"]))]))
              (sample_ready true) in
  ctx_account (published m') = Js.Str "0xdef" /\
  balance_requests m' = [Js.Str "0xabc"; Js.Str "0xdef"] /\
  balance_requests
    (step_batch true sample_view
       (provider_events 0
          ([] ++ [(sample_view,
                   AccountsChanged (Js.Array 3 [Js.Str "0xdef"]))])) m')
  = [Js.Str "0xabc"; Js.Str "0xdef"].
Proof.
  cbv zeta.
  destruct (account_change_issues_one_request sample_view sample_view 0
              (sample_ready true)
              [(sample_view, AccountsChanged (Js.Array 1 []))]
              (Js.Array 2 [Js.Str "0xdef"])
              (sample_ready_reachable true) ltac:(vm_compute; reflexivity)
              ltac:(vm_compute; reflexivity))
    as (Ha & H & _).
  destruct (H eq_refl ltac:(vm_compute; reflexivity)) as [H1 _].
  cbv zeta in *. split; [exact Ha|]. split.
  - rewrite H1. vm_compute. reflexivity.
  - destruct (account_change_issues_one_request sample_view sample_view 0
                (step_batch true sample_view
                   (provider_events 0
                      ([(sample_view, AccountsChanged (Js.Array 1 []))] ++
                       [(sample_view,
                         AccountsChanged (Js.Array 2 [Js.Str "0xdef"]))]))
                   (sample_ready true))
                [] (Js.Array 3 [Js.Str "0xdef"])
                (reach_batch true sample_view _ _ (sample_ready_reachable true))
                ltac:(vm_compute; reflexivity)
                ltac:(vm_compute; reflexivity)) as (_ & _ & H').
    destruct (H' ltac:(vm_compute; reflexivity)) as [H2 _].
    rewrite H2, H1. vm_compute. reflexivity.
Defined.



Lemma commit_init_only (debug : bool) (view : SdkView) (p c : Deps)
  (m : Machine) :
  account_changed p c = false -> sdkOptions_changed p c = true ->
  listeners_changed p c = false -> hasInit (hooks m) = true ->
  run (commit debug view p c) m
  = with_console
      (console m ++
       (if debug
        then [mkLog LDebug "[MetamaskProvider] sdk already initialized" []]
        else []))
      m.
Proof.
  intros Ha Ho Hl Hi.
  assert (Hp : provider_update_changed p c = false).
  { unfold listeners_changed in Hl. apply orb_false_elim in Hl. tauto. }
  fields_of m. cbn in Hi. subst.
  unfold commit. rewrite Ha, Ho, Hl, Hp.
  eff_unfold. cbn. destruct debug; cbn; rewrite ?app_nil_r; reflexivity.
Qed.

(** X14.  Passing a new [sdkOptions] object after mount changes nothing:
    the initialisation effect runs again but the [hasInit] guard stops it,
    so no SDK is constructed, [init()] is not called, and the published
    state, the listeners and the requests in flight stay as they are. *)
Theorem new_sdkOptions_change_nothing (debug : bool) (view : SdkView)
  (m : Machine) (options : nat) :
  reachable debug m ->
  let m' := step debug view (Rerender options) m in
  published m' = published m /\
  sdk_constructed m' = sdk_constructed m /\
  init_calls m' = init_calls m /\
  init_pending m' = init_pending m /\
  provider_listeners m' = provider_listeners m /\
  provider_update_listener m' = provider_update_listener m /\
  balance_requests m' = balance_requests m.
Proof.
  intros R. cbv zeta.
  destruct (quiescent_spec m (reachable_quiescent _ _ R))
    as (Qa & Qo & Qt & Qs & Qr).
  destruct (reachable_initialised_once debug m R) as (Hi & _).
  set (m1 := with_sdkOptions options m).
  assert (D : run (dispatch debug view (Rerender options)) m = m1)
    by reflexivity.
  unfold step. rewrite D. unfold render_fuel. rewrite settle_unfold.
  assert (E : rendered m1 = rendered m /\ hooks m1 = hooks m
              /\ sdkOptions m1 = options)
    by (unfold m1; destruct m; cbn; auto).
  destruct E as (Er & Eh & Eo).
  assert (Ha : account_changed (rendered m1) (deps_of m1) = false).
  { unfold account_changed, deps_of. cbn [d_account].
    now rewrite Er, Eh, Qa. }
  assert (Hl : listeners_changed (rendered m1) (deps_of m1) = false).
  { unfold listeners_changed, provider_update_changed, deps_of.
    cbn [d_trigger d_sdk d_ready].
    now rewrite Er, Eh, Qt, Qs, Qr, Z.eqb_refl, sdk_eqb_refl,
      Bool.eqb_reflx. }
  unfold deps_changed. rewrite Ha, Hl, orb_false_r. cbn [orb].
  destruct (sdkOptions_changed (rendered m1) (deps_of m1)) eqn:Ho.
  - rewrite commit_init_only;
      [| exact Ha | exact Ho | exact Hl
       | destruct m1; cbn in *; congruence ].
    rewrite settle_of_quiescent.
    + unfold m1. destruct m; cbn. repeat split.
    + unfold quiescent. destruct m1; cbn. apply deps_changed_refl.
  - unfold m1. destruct m; cbn. repeat split.
Qed.

Lemma new_sdkOptions_change_nothing_witness :
  let m' := step true sample_view (Rerender 42) (sample_ready true) in
  published m' = published (sample_ready true) /\ sdk_constructed m' = 1.
Proof.
  destruct (new_sdkOptions_change_nothing true sample_view (sample_ready true)
              42 (sample_ready_reachable true)) as (H1 & H2 & _).
  cbv zeta. rewrite H1, H2. vm_compute. split; reflexivity.
Defined.

(** X15.  A provider update that is not of kind "extension" does not clear
    [error] and does not touch [chainId]: a "terminate" update only sets
    [connecting] to false, any other kind sets nothing, and the
    re-subscription that follows re-reads [account], [connected] and
    [extensionActive] from the SDK. *)
Theorem terminate_update_keeps_error_and_chain (debug : bool)
  (view : SdkView) (m : Machine) (t : PROVIDER_UPDATE_TYPE) :
  reachable debug m -> provider_update_listener m = true ->
  t <> EXTENSION ->
  let m' := step debug view (ProviderUpdate t) m in
  ctx_error (published m') = ctx_error (published m) /\
  ctx_chainId (published m') = ctx_chainId (published m) /\
  ctx_connecting (published m')
  = (match t with
     | TERMINATE => false
     | _ => ctx_connecting (published m)
     end) /\
  ctx_account (published m')
  = Js.or (selectedAddress view (getProvider view)) Js.Undefined /\
  ctx_connected (published m') = isConnected view (getProvider view) /\
  ctx_extensionActive (published m') = isExtensionActive view.
Proof.
  intros R L N. cbv zeta.
  destruct (step_provider_update debug view t m R L)
    as (He & Hc & Ha & _ & _ & _ & Hg & Hr & Hi & _).
  unfold published, context_value.
  cbn [ctx_error ctx_chainId ctx_connecting ctx_account ctx_connected
         ctx_extensionActive].
  rewrite He, Hc, Ha, Hg, Hr, Hi.
  clear - N. fields_of m.
  destruct t, debug; try congruence; cbn; auto 10.
Qed.

Lemma terminate_update_keeps_error_and_chain_witness :
  let m := step false sample_view
             (FromProvider 0 (Disconnect (Js.Str "lost")))
             (sample_ready false) in
  ctx_error (published (step false sample_view (ProviderUpdate TERMINATE) m))
  = Js.Str "lost".
Proof.
  assert (R : reachable false
                (step false sample_view
                   (FromProvider 0 (Disconnect (Js.Str "lost")))
                   (sample_ready false)))
    by apply reach_step, sample_ready_reachable.
  destruct (terminate_update_keeps_error_and_chain false sample_view _
              TERMINATE R ltac:(vm_compute; reflexivity)
              ltac:(discriminate)) as (H & _).
  cbv zeta. rewrite H. vm_compute. reflexivity.
Defined.

Lemma provider_update_run (debug : bool)
  (l : list (SdkView * PROVIDER_UPDATE_TYPE)) (m : Machine) :
  reachable debug m -> provider_update_listener m = true ->
  let m' := steps debug (provider_update_events l) m in
  reachable debug m' /\ provider_update_listener m' = true /\
  trigger (hooks m') = (trigger (hooks m) + Z.of_nat (length l))%Z.
Proof.
  revert m. induction l as [|[v t] l IH]; intros m R L;
    cbn [provider_update_events map steps fst snd length].
  - repeat split; auto. cbn. lia.
  - destruct (step_provider_update debug v t m R L)
      as (_ & _ & _ & _ & _ & Hu & _ & _ & _ & Ht).
    destruct (IH (step debug v (ProviderUpdate t) m)
                (reach_step debug v _ m R) Hu) as (R' & L' & T').
    repeat split; auto.
    unfold provider_update_events in T'. rewrite T', Ht. lia.
Qed.

(** X16.  Provider updates compose: after any run of them the
    re-subscription counter has grown by the length of the run, and the
    instance listens to, and publishes, the provider that was active at the
    last update, with [account] and [connected] as that provider reported
    them then. *)
Theorem provider_updates_track_latest_provider (debug : bool)
  (l : list (SdkView * PROVIDER_UPDATE_TYPE)) (view : SdkView)
  (t : PROVIDER_UPDATE_TYPE) (m : Machine) :
  reachable debug m -> provider_update_listener m = true ->
  let m' := steps debug (provider_update_events (l ++ [(view, t)])) m in
  trigger (hooks m') = (trigger (hooks m) + Z.of_nat (length l) + 1)%Z /\
  provider_listeners m' = Some (getProvider view) /\
  ctx_provider (published m') = Some (getProvider view) /\
  ctx_account (published m')
  = Js.or (selectedAddress view (getProvider view)) Js.Undefined /\
  ctx_connected (published m') = isConnected view (getProvider view).
Proof.
  intros R L. cbv zeta.
  unfold provider_update_events. rewrite map_app, steps_app.
  destruct (provider_update_run debug l m R L) as (R' & L' & T').
  unfold provider_update_events in R', L', T'.
  cbn [map steps fst snd].
  destruct (step_provider_update debug view t _ R' L')
    as (_ & Hc & Ha & Hp & Hl & _ & _ & _ & _ & Ht).
  unfold published, context_value.
  cbn [ctx_provider ctx_account ctx_connected].
  rewrite Ht, T'. auto.
Qed.

Lemma provider_updates_track_latest_provider_witness :
  let m' := steps false
              (provider_update_events
                 ([(sample_view_extension, EXTENSION);
                   (sample_view_idle, TERMINATE)]
                  ++ [(sample_view, OTHER_UPDATE "initialized")]))
              (sample_ready false) in
  trigger (hooks m') = 4%Z /\ provider_listeners m' = Some 0.
Proof.
  destruct (provider_updates_track_latest_provider false
              [(sample_view_extension, EXTENSION);
               (sample_view_idle, TERMINATE)]
              sample_view (OTHER_UPDATE "initialized") (sample_ready false)
              (sample_ready_reachable false) ltac:(vm_compute; reflexivity))
    as (H1 & H2 & _).
  cbv zeta. rewrite H1, H2. vm_compute. split; reflexivity.
Defined.

(** X17.  A service-status event stores its payload in [status] and changes
    nothing else published.  With the diagnostic flag on, the debug line
    reads [connectionStatus] off the payload first: for a missing payload
    that throws, and [status] is not updated. *)
Theorem service_status_sets_status_only (debug : bool) (view : SdkView)
  (m : Machine) (payload : Js.value) :
  reachable debug m -> status_listener m = true ->
  let c := published m in
  let c' := published (step debug view (ServiceStatus payload) m) in
  (debug && Js.nullish payload = false ->
   c' = {| ctx_sdk := ctx_sdk c; ctx_ready := ctx_ready c;
           ctx_connected := ctx_connected c;
           ctx_readOnlyCalls := ctx_readOnlyCalls c;
           ctx_provider := ctx_provider c;
           ctx_connecting := ctx_connecting c;
           ctx_account := ctx_account c; ctx_balance := ctx_balance c;
           ctx_extensionActive := ctx_extensionActive c;
           ctx_chainId := ctx_chainId c;
           ctx_error := ctx_error c;
           ctx_status := payload |}) /\
  (debug && Js.nullish payload = true -> c' = c).
Proof.
  intros R L. cbv zeta. pose proof (reachable_quiescent _ _ R) as Q.
  set (m1 := run (dispatch debug view (ServiceStatus payload)) m).
  assert (E : rendered m1 = rendered m /\ sdkOptions m1 = sdkOptions m /\
              hooks m1
              = (if debug && Js.nullish payload then hooks m
                 else setStatus payload (hooks m))).
  { unfold m1. clear - L. fields_of m. cbn in L. subst.
    eff_unfold. cbn. destruct debug, (Js.nullish payload); cbn; auto. }
  destruct E as (Er & Eo & Eh).
  assert (Q1 : quiescent m1).
  { unfold quiescent, deps_of in *. rewrite Er, Eo, Eh.
    destruct (debug && Js.nullish payload);
      destruct m as [h ? ? ? ? ? ? ? ? ? ?]; destruct h; exact Q. }
  unfold step. fold m1. rewrite (settle_of_quiescent _ _ _ _ Q1).
  unfold published, context_value. rewrite Eh.
  split; intros ->; destruct (hooks m); reflexivity.
Qed.

Lemma service_status_sets_status_only_witness :
  ctx_status
    (published
       (step true sample_view
          (ServiceStatus (Js.Object 1 [("connectionStatus", Js.Str "linked")]))
          (sample_ready true)))
  = Js.Object 1 [("connectionStatus", Js.Str "linked")] /\
  ctx_status
    (published (step true sample_view (ServiceStatus Js.Undefined)
                  (step true sample_view
                     (ServiceStatus (Js.Str "up")) (sample_ready true))))
  = Js.Str "up".
Proof.
  split.
  - destruct (service_status_sets_status_only true sample_view
                (sample_ready true)
                (Js.Object 1 [("connectionStatus", Js.Str "linked")])
                (sample_ready_reachable true) ltac:(vm_compute; reflexivity))
      as [H _].
    cbv zeta in H. rewrite (H eq_refl). reflexivity.
  - destruct (service_status_sets_status_only true sample_view
                (step true sample_view (ServiceStatus (Js.Str "up"))
                   (sample_ready true))
                Js.Undefined
                (reach_step true sample_view _ _ (sample_ready_reachable true))
                ltac:(vm_compute; reflexivity)) as [_ H].
    cbv zeta in H. rewrite (H eq_refl). vm_compute. reflexivity.
Defined.


(** Case analysis on two instances that agree up to [balance]. *)
Ltac agreeing m m' H :=
  let h := fresh "h" in
  let h' := fresh "h" in
  unfold agree_up_to_balance in H;
  destruct m as [h ? ? ? ? ? ? ? ? ? ?]; destruct h;
  destruct m' as [h' ? ? ? ? ? ? ? ? ? ?]; destruct h';
  cbn in H;
  let E := fresh "E" in
  destruct H as (E & ? & ? & ? & ? & ? & ? & ? & ?);
  injection E as ? ? ? ? ? ? ? ? ? ? ? ? ?; subst.

Lemma commit_agree (view : SdkView) (p c : Deps) (m m' : Machine) :
  agree_up_to_balance m m' ->
  agree_up_to_balance (run (commit true view p c) m)
    (run (commit false view p c) m').
Proof.
  intros H. agreeing m m' H. unfold agree_up_to_balance.
  commit_cases p c; eff_unfold; cbn; eff_cases.
Qed.

Lemma settle_agree (view : SdkView) (fuel : nat) (m m' : Machine) :
  agree_up_to_balance m m' ->
  agree_up_to_balance (settle fuel true view m) (settle fuel false view m').
Proof.
  revert m m'. induction fuel as [|fuel IH]; intros m m' H; cbn [settle];
    [exact H|].
  assert (E : rendered m = rendered m' /\ deps_of m = deps_of m').
  { agreeing m m' H. split; reflexivity. }
  destruct E as [<- <-].
  destruct (deps_changed (rendered m) (deps_of m)); [|exact H].
  apply IH, commit_agree.
  agreeing m m' H. unfold agree_up_to_balance. cbn. auto 12.
Qed.

Lemma dispatch_agree (view : SdkView) (e : Event) (m m' : Machine) :
  status_has_payload e -> agree_up_to_balance m m' ->
  agree_up_to_balance (run (dispatch true view e) m)
    (run (dispatch false view e) m').
Proof.
  intros N H. agreeing m m' H. unfold agree_up_to_balance.
  destruct e as [q ev| payload | t | | | | |];
    [destruct ev| cbn in N | | | | | |];
    eff_unfold; cbn; rewrite ?N; eff_cases.
Qed.

Lemma steps_agree (tr : list (SdkView * Event)) (m m' : Machine) :
  Forall (fun x => status_has_payload (snd x)) tr ->
  agree_up_to_balance m m' ->
  agree_up_to_balance (steps true tr m) (steps false tr m').
Proof.
  revert m m'. induction tr as [|[view e] tr IH]; intros m m' F H;
    cbn [steps]; [exact H|].
  inversion F as [|x l Fe Ft]; subst. cbn in Fe.
  apply IH; [exact Ft|]. unfold step.
  apply settle_agree, dispatch_agree; assumption.
Qed.

(** X21.  The diagnostic flag is not observable in the connection state:
    run the same events, with the same answers of the SDK, against an
    instance with the flag on and one with it off; as long as every
    service-status event carries a payload, the two publish the same
    [sdk], [ready], [connected], [connecting], [account], [chainId],
    [error], [provider], [status], [extensionActive] and [readOnlyCalls]
    in every state.  Only [balance] differs. *)
Theorem debug_flag_only_shows_in_balance (strict : bool) (view : SdkView)
  (options : nat) (tr : list (SdkView * Event)) :
  Forall (fun x => status_has_payload (snd x)) tr ->
  same_but_balance
    (published (steps true tr (mount true strict view options)))
    (published (steps false tr (mount false strict view options))).
Proof.
  intros F.
  assert (A : agree_up_to_balance
                (steps true tr (mount true strict view options))
                (steps false tr (mount false strict view options))).
  { apply steps_agree; [exact F|]. unfold mount. apply settle_agree.
    unfold agree_up_to_balance, first_commit.
    destruct strict; vm_compute; auto 12. }
  set (m := steps true tr (mount true strict view options)) in *.
  set (m' := steps false tr (mount false strict view options)) in *.
  clearbody m m'. clear F.
  destruct A as (E & _). unfold same_but_balance, published, context_value.
  destruct (hooks m), (hooks m'). cbn in *.
  injection E as ? ? ? ? ? ? ? ? ? ? ? ? ?; subst. auto 12.
Qed.

Lemma debug_flag_only_shows_in_balance_witness :
  let tr := [(sample_view, InitResolved);
             (sample_view, BalanceResolved 0 (Js.Str "0x10"));
             (sample_view,
              FromProvider 0 (ChainChanged (Js.Str "0x89")))] in
  ctx_chainId (published (steps true tr (mount true true sample_view 0)))
  = ctx_chainId (published (steps false tr (mount false true sample_view 0)))
  /\ ctx_balance (published (steps true tr (mount true true sample_view 0)))
     = Js.Str "0x10"
  /\ ctx_balance (published (steps false tr (mount false true sample_view 0)))
     = Js.Undefined.
Proof.
  cbv zeta. split; [|vm_compute; split; reflexivity].
  apply (debug_flag_only_shows_in_balance true sample_view 0
           [(sample_view, InitResolved);
            (sample_view, BalanceResolved 0 (Js.Str "0x10"));
            (sample_view, FromProvider 0 (ChainChanged (Js.Str "0x89")))]).
  repeat constructor.
Defined.

(* ================================================================== *)
(** ** Further properties of the chooser *)
(* ================================================================== *)

(** The handlers a click reaches, when it lands on a node. *)
Lemma click_handlers (props : SelectModalProps) (t : Z) (path : list nat)
  (hs : list Handler) :
  handlers_on_path (SelectModal props t) path = Some hs ->
  hs = [] \/
  exists (pre rest : list nat) (h : Handler),
    hs = [h] /\ path = pre ++ rest /\
    In (pre, h) (handler_paths (SelectModal props t)).
Proof.
  intros H.
  pose proof (handlers_on_path_length _ _ _ H) as Hlen.
  rewrite SelectModal_handler_nesting in Hlen.
  destruct hs as [|h [|h' hs]]; [now left | | cbn in Hlen; lia].
  right.
  destruct (handlers_on_path_prefix _ _ _ h H (or_introl eq_refl))
    as (pre & rest & E & Hin).
  exists pre, rest, h. auto.
Qed.

(** A click leaves the tab alone or selects tab 1 or tab 2. *)
Lemma click_tab (props : SelectModalProps) (path : list nat) (c : Chooser) :
  tab (click props path c) = tab c \/
  tab (click props path c) = 1%Z \/ tab (click props path c) = 2%Z.
Proof.
  unfold click.
  destruct (handlers_on_path (SelectModal props (tab c)) path) as [hs|] eqn:H;
    [|now left].
  destruct (click_handlers props (tab c) path hs H)
    as [-> | (pre & rest & h & -> & _ & Hin)]; [now left|].
  rewrite SelectModal_handler_paths in Hin. cbn [In] in Hin.
  destruct Hin as [E|[E|[E|[E|[E|[]]]]]]; injection E as <- <-; cbn; auto.
Qed.

Lemma clicks_tab (props : SelectModalProps) (paths : list (list nat))
  (c : Chooser) :
  tab c = 1%Z \/ tab c = 2%Z ->
  tab (clicks props paths c) = 1%Z \/ tab (clicks props paths c) = 2%Z.
Proof.
  revert c. unfold clicks.
  induction paths as [|path paths IH]; intros c H; cbn [fold_left];
    [exact H|].
  apply IH. destruct (click_tab props path c) as [-> | E]; tauto.
Qed.

(** X19.  Whatever is clicked, in whatever order, the selected tab is 1 or
    2, so exactly one panel is displayed and exactly one selector is
    highlighted: with the "Desktop" selector highlighted the extension
    panel is displayed and the QR panel hidden, with the "Mobile" selector
    highlighted it is the reverse.  (For any other tab value the render
    would display both panels and highlight no selector; no click produces
    one.) *)
Theorem chooser_shows_exactly_one_panel (props : SelectModalProps)
  (paths : list (list nat)) :
  let t := tab (clicks props paths chooser_initial) in
  (t = 1%Z /\
   option_map (spreads "tabactive") (desktop_selector props t) = Some true /\
   option_map (spreads "tabactive") (mobile_selector props t) = Some false /\
   display (extension_panel props t) = Some "block" /\
   display (qr_panel t) = Some "none") \/
  (t = 2%Z /\
   option_map (spreads "tabactive") (desktop_selector props t) = Some false /\
   option_map (spreads "tabactive") (mobile_selector props t) = Some true /\
   display (extension_panel props t) = Some "none" /\
   display (qr_panel t) = Some "block").
Proof.
  cbv zeta.
  destruct (clicks_tab props paths chooser_initial (or_introl eq_refl))
    as [-> | ->]; [left | right]; repeat split.
Qed.

(** The render for a tab value other than 1 and 2: both panels displayed,
    no selector highlighted. *)
Lemma chooser_other_tab_shows_both (props : SelectModalProps) (t : Z) :
  t <> 1%Z -> t <> 2%Z ->
  display (extension_panel props t) = Some "block" /\
  display (qr_panel t) = Some "block" /\
  option_map (spreads "tabactive") (desktop_selector props t) = Some false /\
  option_map (spreads "tabactive") (mobile_selector props t) = Some false.
Proof.
  intros H1 H2. apply Z.eqb_neq in H1, H2.
  unfold desktop_selector, mobile_selector. cbn. rewrite H1, H2.
  repeat split.
Qed.

(** The handler of a node on the way to the node clicked is among the
    handlers the click reaches. *)
Lemma handlers_on_path_ancestor (pre rest : list nat) (n k : VNode)
  (h : Handler) (hs : list Handler) :
  node_at n pre = Some k -> own_handler k = [h] ->
  handlers_on_path n (pre ++ rest) = Some hs -> In h hs.
Proof.
  revert n hs. induction pre as [|i pre IH]; intros n hs Hn Ho Hp.
  - cbn in Hn. injection Hn as ->. cbn [app] in Hp.
    destruct rest as [|j rest]; cbn [handlers_on_path] in Hp.
    + injection Hp as <-. rewrite Ho. now left.
    + destruct k as [tg cl id st oc kids| |];
        cbn [handlers_on_path] in Hp; try discriminate.
      destruct (nth_error kids j) as [k'|]; [|discriminate].
      destruct (handlers_on_path k' rest) as [hs'|]; [|discriminate].
      rewrite Ho in Hp. injection Hp as <-. apply in_or_app. right.
      now left.
  - destruct n as [tg cl id st oc kids| |]; cbn in Hn, Hp; try discriminate.
    destruct (nth_error kids i) as [k'|]; [|discriminate].
    destruct (handlers_on_path k' (pre ++ rest)) as [hs'|] eqn:Hk;
      [|discriminate].
    injection Hp as <-. apply in_or_app. left. eapply IH; eauto.
Qed.

(** X20.  A click on the connect button, or on anything inside it, invokes
    [connectWithExtension] exactly once and does nothing else: it does not
    invoke [onClose] (the widget never closes itself) and does not switch
    the tab. *)
Theorem connect_button_only_connects (props : SelectModalProps)
  (rest : list nat) (c : Chooser) :
  node_at (SelectModal props (tab c)) ([1; 2; 2; 2] ++ rest) <> None ->
  click props ([1; 2; 2; 2] ++ rest) c
  = mkChooser (tab c) (calls c ++ [connectWithExtension props]).
Proof.
  intros N. unfold click.
  destruct (handlers_on_path (SelectModal props (tab c))
              ([1; 2; 2; 2] ++ rest)) as [hs|] eqn:H.
  - assert (I : In (Call (connectWithExtension props)) hs).
    { apply (handlers_on_path_ancestor [1; 2; 2; 2] rest
               (SelectModal props (tab c)) _ _ hs eq_refl eq_refl H). }
    destruct (click_handlers props (tab c) _ hs H)
      as [-> | (pre & rest' & h & -> & _ & _)]; [destruct I|].
    destruct I as [-> | []]. reflexivity.
  - exfalso. apply N. clear N. revert H.
    generalize (SelectModal props (tab c)).
    generalize ([1; 2; 2; 2] ++ rest).
    induction l as [|i l IH]; intros n H; [discriminate|].
    destruct n as [tg cl id st oc kids| |]; cbn in *; try reflexivity.
    destruct (nth_error kids i) as [k|]; [|reflexivity].
    apply IH. destruct (handlers_on_path k l); [discriminate | reflexivity].
Qed.

Lemma connect_button_only_connects_witness :
  click sample_props ([1; 2; 2; 2] ++ [1; 0]) chooser_initial
  = mkChooser 1 [1].
Proof.
  apply (connect_button_only_connects sample_props [1; 0] chooser_initial).
  vm_compute. discriminate.
Defined.

(* ================================================================== *)
(** ** What is written where *)
(* ================================================================== *)

Lemma settle_keeps_chainId_error (debug : bool) (view : SdkView)
  (fuel : nat) (m : Machine) :
  chainId (hooks (settle fuel debug view m)) = chainId (hooks m) /\
  error (hooks (settle fuel debug view m)) = error (hooks m).
Proof.
  apply (settle_preserves
           (fun m' => chainId (hooks m') = chainId (hooks m) /\
                      error (hooks m') = error (hooks m))); [| |auto].
  - intros d m0 H. destruct m0. exact H.
  - intros p c m0 [H1 H2]. rewrite <- H1, <- H2. clear.
    fields_of m0. commit_cases p c; eff_unfold; cbn; eff_cases.
Qed.

(** X22.  [chainId] is written by a [connect] event, a [chainChanged]
    event and an "extension" provider update, and by nothing else; [error]
    is written by the events of the provider and by an "extension" provider
    update, and by nothing else.  So the published [chainId] survives
    disconnects, account changes, provider termination, balance responses
    and re-renders, and no effect ever touches either field. *)
Theorem chainId_and_error_writers (debug : bool) (view : SdkView)
  (e : Event) (m : Machine) :
  (~ writes_chainId e ->
   ctx_chainId (published (step debug view e m)) = ctx_chainId (published m))
  /\
  (~ writes_error e ->
   ctx_error (published (step debug view e m)) = ctx_error (published m)).
Proof.
  unfold published, context_value, step. cbn [ctx_chainId ctx_error].
  destruct (settle_keeps_chainId_error debug view render_fuel
              (run (dispatch debug view e) m)) as [-> ->].
  split; intros N; fields_of m;
    (destruct e as [q ev| payload | t | | | | |];
     [destruct ev| | destruct t | | | | |]);
    cbn in N; try (exfalso; apply N; exact I);
    eff_unfold; cbn; eff_cases.
Qed.

Lemma chainId_and_error_writers_witness :
  let m := step false sample_view
             (FromProvider 0 (ChainChanged (Js.Str "0x89")))
             (sample_ready false) in
  ctx_chainId
    (published
       (step false sample_view (FromProvider 0 (Disconnect (Js.Str "lost")))
          m))
  = Js.Str "0x89".
Proof.
  destruct (chainId_and_error_writers false sample_view
              (FromProvider 0 (Disconnect (Js.Str "lost")))
              (step false sample_view
                 (FromProvider 0 (ChainChanged (Js.Str "0x89")))
                 (sample_ready false))) as [H _].
  cbv zeta. rewrite (H (fun F => F)). vm_compute. reflexivity.
Defined.

(** X23.  A freshly mounted instance, under StrictMode or not, publishes
    the default of the context: nothing is read from the SDK before
    [init()] resolves, and one [init()] is pending. *)
Theorem mount_publishes_defaults (debug strict : bool) (view : SdkView)
  (options : nat) :
  published (mount debug strict view options) = initProps /\
  init_pending (mount debug strict view options) = Some 1 /\
  balance_requests (mount debug strict view options) = [].
Proof.
  assert (E : mount debug strict view options
              = run (first_commit debug strict view) (unmounted options)).
  { unfold mount. apply settle_of_quiescent. unfold quiescent.
    replace (rendered (run (first_commit debug strict view)
                         (unmounted options)))
      with (deps_of (run (first_commit debug strict view)
                       (unmounted options)))
      by (destruct debug, strict; reflexivity).
    apply deps_changed_refl. }
  rewrite E. destruct debug, strict; repeat split.
Qed.
